(** * Flight telemetry sender: navigation model, phase machine, packet encoder

    A shallow embedding of [senderv6.py] and [senderv7.py].

    Conventions of the embedding.
    - A Python [float] is idealised as a real number ([R]); [math.sin],
      [math.cos], [math.acos], [math.sqrt] are the functions of the real
      library and [math.atan2] is defined below from [atan].  Rounding of
      binary64 arithmetic is not represented there.  Where rounding
      changes what the program does (a square root that raises, a guard
      that is not taken, a difference that cancels) the theorems keep a
      margin from the inputs concerned, as a hypothesis, and module [B64]
      has the navigation functions over binary64 numbers, evaluated at
      such inputs.
    - A Python [int] is a [Z]; [int(x)] on a float truncates toward zero.
    - A Python [str] is a [string] (code points below 256), [bytes] is a
      [list byte].
    - An exception is a value [Raise e]; every function that can raise
      returns a [result].
    - The start-up code ([load_airports], [pick_route] and the first
      lines of [main]) is modelled from the output of [csv.DictReader]
      and from [sys.argv]; the directory is an association list, and
      [float], [int] and [str.upper] on the text of the file are
      parameters.  It stops with a [startup_exn].  The socket and
      [get_local_ip] are not modelled. *)

From Stdlib Require Import ZArith List String Ascii Bool Lia.
From Stdlib Require Import Reals Lra Zfloor.
From Stdlib Require Import Sorting.Sorted.
From Stdlib Require Import Strings.Byte.
From Stdlib Require Floats.PrimFloat.
Import ListNotations.

Open Scope R_scope.

(* ================================================================= *)
(** ** Exceptions *)

Inductive exn : Type :=
| ZeroDivisionError
| StructError
| UnicodeEncodeError
| UnicodeDecodeError
| NameError
| ValueError
| RuntimeError.

Inductive result (A : Type) : Type :=
| OK (a : A)
| Raise (e : exn).

Arguments OK {A} a.
Arguments Raise {A} e.

Definition bind {A B : Type} (m : result A) (k : A -> result B) : result B :=
  match m with
  | OK a => k a
  | Raise e => Raise e
  end.

Notation "'do' x <- m ; k" := (bind m (fun x => k))
  (at level 10, x name, m at level 100, k at level 200).
Notation "'do' ' p <- m ; k" := (bind m (fun x => let 'p := x in k))
  (at level 10, p pattern, m at level 100, k at level 200).

(* ================================================================= *)
(** ** Python numeric primitives over the reals *)

(** [int(x)] for a float [x]: truncation toward zero. *)
Definition py_int (x : R) : Z :=
  if Rle_dec 0 x then Zfloor x else Zceil x.

(** [a % b] on floats, for the positive moduli the program uses. *)
Definition py_fmod (a b : R) : R := a - b * IZR (Zfloor (a / b)).

(** [a / b] on floats raises [ZeroDivisionError] on a zero divisor. *)
Definition py_div (a b : R) : result R :=
  if Req_dec_T b 0 then Raise ZeroDivisionError else OK (a / b).

(** [math.sqrt(x)] raises [ValueError] on a negative argument. *)
Definition py_sqrt (x : R) : result R :=
  if Rlt_dec x 0 then Raise ValueError else OK (sqrt x).

(** [math.radians] and [math.degrees]. *)
Definition radians (x : R) : R := x * (PI / 180).
Definition degrees (x : R) : R := x * (180 / PI).

(** [math.atan2(y, x)]: the angle of the point [(x, y)], in [(-PI, PI]],
    and [0] at the origin. *)
Definition atan2 (y x : R) : R :=
  if Rlt_dec 0 x then atan (y / x)
  else if Rlt_dec x 0 then
         (if Rle_dec 0 y then atan (y / x) + PI else atan (y / x) - PI)
  else if Rlt_dec 0 y then PI / 2
  else if Rlt_dec y 0 then - (PI / 2)
  else 0.

(* ================================================================= *)
(** ** Configuration constants (identical in both revisions) *)

Definition INVALDATA : Z := 0x7FFFFFFF.
Definition MAGIC_ID : Z := 0xFDFD.
Definition DATA_PACKET_TYPE : Z := 0x10.
Definition LAT_LON_SCALE_FACTOR : R := 3600.
Definition TOTAL_FLIGHT_SECONDS : Z := 600.

(** [PHASE_TIMINGS = {30: 2, 60: 3, 180: 4, 480: 5, 540: 6, 600: 7}], the
    dict as its item list in insertion order. *)
Definition PHASE_TIMINGS : list (Z * Z) :=
  [(30, 2); (60, 3); (180, 4); (480, 5); (540, 6); (600, 7)]%Z.

(** [sorted(d.items())]: tuples compare lexicographically. *)
Definition item_leb (a b : Z * Z) : bool :=
  ((fst a <? fst b) || ((fst a =? fst b) && (snd a <=? snd b)))%Z.

Fixpoint insert_item (a : Z * Z) (l : list (Z * Z)) : list (Z * Z) :=
  match l with
  | [] => [a]
  | b :: l' => if item_leb a b then a :: l else b :: insert_item a l'
  end.

Definition sorted (l : list (Z * Z)) : list (Z * Z) :=
  fold_right insert_item [] l.

(* ================================================================= *)
(** ** Navigation model (identical in both revisions) *)

Definition compute_heading (lat1 lon1 lat2 lon2 : R) : Z :=
  let lat1_rad := radians lat1 in
  let lat2_rad := radians lat2 in
  let dlon_rad := radians (lon2 - lon1) in
  let x := sin dlon_rad * cos lat2_rad in
  let y := cos lat1_rad * sin lat2_rad
           - sin lat1_rad * cos lat2_rad * cos dlon_rad in
  py_int (py_fmod (degrees (atan2 x y) + 360) 360).

(** The central angle [omega] computed by [interpolate_great_circle]. *)
Definition central_angle (lat1 lon1 lat2 lon2 : R) : R :=
  let lat1_rad := radians lat1 in
  let lon1_rad := radians lon1 in
  let lat2_rad := radians lat2 in
  let lon2_rad := radians lon2 in
  let x1 := cos lat1_rad * cos lon1_rad in
  let y1 := cos lat1_rad * sin lon1_rad in
  let z1 := sin lat1_rad in
  let x2 := cos lat2_rad * cos lon2_rad in
  let y2 := cos lat2_rad * sin lon2_rad in
  let z2 := sin lat2_rad in
  let dot := Rmax (Rmin (x1 * x2 + y1 * y2 + z1 * z2) 1) (-1) in
  acos dot.

Definition interpolate_great_circle (lat1 lon1 lat2 lon2 fraction : R)
  : result (R * R) :=
  let lat1_rad := radians lat1 in
  let lon1_rad := radians lon1 in
  let lat2_rad := radians lat2 in
  let lon2_rad := radians lon2 in
  let x1 := cos lat1_rad * cos lon1_rad in
  let y1 := cos lat1_rad * sin lon1_rad in
  let z1 := sin lat1_rad in
  let x2 := cos lat2_rad * cos lon2_rad in
  let y2 := cos lat2_rad * sin lon2_rad in
  let z2 := sin lat2_rad in
  let omega := central_angle lat1 lon1 lat2 lon2 in
  if Req_dec_T omega 0 then OK (lat1, lon1)
  else
    do t1 <- py_div (sin ((1 - fraction) * omega)) (sin omega);
    do t2 <- py_div (sin (fraction * omega)) (sin omega);
    let x := t1 * x1 + t2 * x2 in
    let y := t1 * y1 + t2 * y2 in
    let z := t1 * z1 + t2 * z2 in
    do r <- py_sqrt (x * x + y * y);
    OK (degrees (atan2 z r), degrees (atan2 y x)).

Definition haversine_distance (lat1 lon1 lat2 lon2 : R) : result R :=
  let R_km := 6371 in
  let dlat := radians (lat2 - lat1) in
  let dlon := radians (lon2 - lon1) in
  let a := sin (dlat / 2) * sin (dlat / 2)
           + cos (radians lat1) * cos (radians lat2)
             * sin (dlon / 2) * sin (dlon / 2) in
  do sa <- py_sqrt a;
  do sb <- py_sqrt (1 - a);
  let c := 2 * atan2 sa sb in
  OK (R_km * c * 0.539957).

(* ================================================================= *)
(** ** [bytes], [str] and the [struct] module *)

Definition Z_of_byte (b : byte) : Z := Z.of_N (Byte.to_N b).

Definition byte_of_Z (z : Z) : byte :=
  match Byte.of_N (Z.to_N z) with
  | Some b => b
  | None => x00
  end.

(** The [n] low-order base-256 digits of [z], most significant first. *)
Fixpoint to_bytes_be (n : nat) (z : Z) : list byte :=
  match n with
  | O => []
  | S n' => byte_of_Z ((z / 256 ^ Z.of_nat n') mod 256) :: to_bytes_be n' z
  end.

Definition from_bytes_be (l : list byte) : Z :=
  fold_left (fun acc b => (acc * 256 + Z_of_byte b)%Z) l 0%Z.

Inductive byte_order : Type := big_endian | little_endian.

(** Format characters used by the program: [H], [B], [i], [I] and [ns]. *)
Inductive fmt_code : Type :=
| fmt_H
| fmt_B
| fmt_i
| fmt_I
| fmt_s (n : nat).

Definition format : Type := (byte_order * list fmt_code)%type.

Inductive py_val : Type :=
| PyInt (z : Z)
| PyBytes (b : list byte).

(** Standard sizes: with [>] or [<] there is no alignment padding. *)
Definition code_size (c : fmt_code) : nat :=
  match c with
  | fmt_H => 2
  | fmt_B => 1
  | fmt_i => 4
  | fmt_I => 4
  | fmt_s n => n
  end.

Definition calcsize (f : format) : nat :=
  fold_right (fun c acc => (code_size c + acc)%nat) O (snd f).

Definition in_order (o : byte_order) (l : list byte) : list byte :=
  match o with
  | big_endian => l
  | little_endian => rev l
  end.

(** Does the integer [z] fit the slot [c]?  [struct.error] otherwise. *)
Definition fits (c : fmt_code) (z : Z) : bool :=
  match c with
  | fmt_H => (0 <=? z)%Z && (z <=? 65535)%Z
  | fmt_B => (0 <=? z)%Z && (z <=? 255)%Z
  | fmt_i => (- 2147483648 <=? z)%Z && (z <=? 2147483647)%Z
  | fmt_I => (0 <=? z)%Z && (z <=? 4294967295)%Z
  | fmt_s _ => false
  end.

Definition pack_one (o : byte_order) (c : fmt_code) (v : py_val)
  : result (list byte) :=
  match c, v with
  | fmt_s n, PyBytes b =>
      OK (firstn n b ++ repeat x00 (n - List.length b))
  | fmt_s _, PyInt _ => Raise StructError
  | _, PyInt z =>
      if fits c z then OK (in_order o (to_bytes_be (code_size c) z))
      else Raise StructError
  | _, PyBytes _ => Raise StructError
  end.

Fixpoint pack_all (o : byte_order) (cs : list fmt_code) (vs : list py_val)
  : result (list byte) :=
  match cs, vs with
  | [], [] => OK []
  | c :: cs', v :: vs' =>
      do b <- pack_one o c v;
      do rest <- pack_all o cs' vs';
      OK (b ++ rest)
  | _, _ => Raise StructError
  end.

(** [struct.pack(fmt, *args)]. *)
Definition struct_pack (f : format) (args : list py_val) : result (list byte) :=
  pack_all (fst f) (snd f) args.

(** [struct.unpack(fmt, b)[0]] for a format of one integer code. *)
Definition struct_unpack1 (o : byte_order) (c : fmt_code) (b : list byte)
  : result Z :=
  if negb (List.length b =? code_size c)%nat then Raise StructError
  else
    let u := from_bytes_be (in_order o b) in
    match c with
    | fmt_i => OK (if (u <? 2147483648)%Z then u else (u - 4294967296)%Z)
    | fmt_s _ => Raise StructError
    | _ => OK u
    end.

(** *** Strings *)

Definition is_ascii (c : ascii) : bool := (N_of_ascii c <? 128)%N.

(** [s.encode('ascii')]. *)
Definition str_encode_ascii (s : string) : result (list byte) :=
  let l := list_ascii_of_string s in
  if forallb is_ascii l then OK (map byte_of_ascii l)
  else Raise UnicodeEncodeError.

(** [b.decode('ascii')]. *)
Definition bytes_decode_ascii (b : list byte) : result string :=
  let l := map ascii_of_byte b in
  if forallb is_ascii l then OK (string_of_list_ascii l)
  else Raise UnicodeDecodeError.

(** [c.isspace()] for a code point below 256. *)
Definition isspace (c : ascii) : bool :=
  let n := N_of_ascii c in
  ((9 <=? n) && (n <=? 13) || (28 <=? n) && (n <=? 32)
   || (n =? 133) || (n =? 160))%N.

Fixpoint lstrip_list (l : list ascii) : list ascii :=
  match l with
  | [] => []
  | c :: l' => if isspace c then lstrip_list l' else l
  end.

(** [s.strip()]. *)
Definition str_strip (s : string) : string :=
  string_of_list_ascii
    (rev (lstrip_list (rev (lstrip_list (list_ascii_of_string s))))).

(** Upper-casing of one code point below 256.  The sharp s (223) becomes
    two characters and is the only code point at or above 128 whose upper
    case is ASCII; the upper case of every other such code point is again
    outside ASCII, which is all the encoder looks at, so it is left as it
    is. *)
Definition upper_char (c : ascii) : list ascii :=
  let n := N_of_ascii c in
  if ((97 <=? n) && (n <=? 122))%N then [ascii_of_N (n - 32)]
  else if (n =? 223)%N then ["S"%char; "S"%char]
  else [c].

(** [s.upper()]. *)
Definition str_upper (s : string) : string :=
  string_of_list_ascii (flat_map upper_char (list_ascii_of_string s)).

(** [s.ljust(width, ' ')]. *)
Definition str_ljust (s : string) (width : nat) : string :=
  string_of_list_ascii
    (list_ascii_of_string s ++ repeat " "%char (width - String.length s)).

(** [s[:n]]. *)
Definition str_prefix (n : nat) (s : string) : string :=
  string_of_list_ascii (firstn n (list_ascii_of_string s)).

(** [s[i:j]] for [0 <= i <= j]. *)
Definition str_slice (i j : nat) (s : string) : string :=
  string_of_list_ascii (firstn (j - i) (skipn i (list_ascii_of_string s))).

(* ================================================================= *)
(** ** Airports, routes and the arguments of [send_data_packet] *)

(** An entry of the airport directory: [{"icao", "lat", "lon", "geoID"}]. *)
Record Airport : Type := {
  apt_icao : string;
  apt_lat : R;
  apt_lon : R;
  apt_geoID : Z
}.

(** The globals [DEP], [DST], [DEP_APT], [DST_APT] set by [main]. *)
Record Route : Type := {
  DEP : string;
  DST : string;
  DEP_APT : Airport;
  DST_APT : Airport
}.

(** One call [send_data_packet(sock, lat, lon, heading, phase, elapsed, ...)]. *)
Record SendArgs : Type := {
  arg_lat : R;
  arg_lon : R;
  arg_heading : Z;
  arg_phase : Z;
  arg_elapsed : R
}.

(* ================================================================= *)
(** ** Telemetry derivation: the lines shared by both revisions *)

(** [min(elapsed / TOTAL_FLIGHT_SECONDS, 1.0)]; the divisor is the constant 600. *)
Definition fraction (elapsed : R) : R :=
  Rmin (elapsed / IZR TOTAL_FLIGHT_SECONDS) 1.

Definition altitude (elapsed : R) : R :=
  if Rlt_dec (fraction elapsed) 1
  then 35000 * sin (PI * fraction elapsed) else 0.

Definition altitude_scaled (elapsed : R) : Z := py_int (altitude elapsed * 100).

Definition vertical_speed_rate (elapsed : R) : R :=
  if Rlt_dec (fraction elapsed) 1
  then 3000 * cos (PI * fraction elapsed) else 0.

Definition vertical_speed (elapsed : R) : Z :=
  py_int (vertical_speed_rate elapsed).

Definition vertical_speed_scaled (elapsed : R) : Z :=
  (vertical_speed elapsed * 100)%Z.

Definition true_airspeed (elapsed : R) : R :=
  450 * (1 - Rabs (cos (PI * fraction elapsed)) * 0.2).

Definition total_dist_nm (r : Route) : result R :=
  haversine_distance (apt_lat (DEP_APT r)) (apt_lon (DEP_APT r))
                     (apt_lat (DST_APT r)) (apt_lon (DST_APT r)).

Definition dist_traveled (total : R) (elapsed : R) : R :=
  total * fraction elapsed.

Definition distance_to_destination (total : R) (elapsed : R) : Z :=
  py_int (total - dist_traveled total elapsed).

Definition ground_speed (elapsed : R) : Z :=
  py_int (true_airspeed elapsed * 0.95).

Definition head_wind : Z := 39.

Definition wind_direction (heading : Z) : Z := (heading + 10)%Z.

Definition wind_angle_diff (heading : Z) : Z :=
  (heading - wind_direction heading)%Z.

Definition tailwind (heading : Z) : Z :=
  py_int (IZR head_wind * cos (radians (IZR (wind_angle_diff heading)))).

Definition FPA : Z := 14.

(** The [for t, phase in sorted(PHASE_TIMINGS.items())] loop of [main]:
    it updates [current_phase] and leaves the loop variable [phase] bound
    to the last item's value. *)
Fixpoint phase_scan (items : list (Z * Z)) (elapsed : R)
         (current_phase : Z) (phase : option Z) : Z * option Z :=
  match items with
  | [] => (current_phase, phase)
  | (t, ph) :: rest =>
      phase_scan rest elapsed
        (if Rge_dec elapsed (IZR t) then ph else current_phase) (Some ph)
  end.

(* ================================================================= *)
(** ** Revision 6 ([senderv6.py]) *)

Module V6.

Definition encode_airport (code : string) : result Z :=
  let s := str_ljust (str_prefix 4 code) 4 in
  do b <- str_encode_ascii s;
  struct_unpack1 big_endian fmt_i b.

(** Modelled from the spec: the decoder of an airport slot belongs to
    the receiver and is not in the sources; "under the same convention"
    is read as [struct.pack] with the format of [encode_airport]
    followed by [decode('ascii')]. *)
Definition decode_airport (n : Z) : result string :=
  do b <- struct_pack (big_endian, [fmt_i]) [PyInt n];
  bytes_decode_ascii b.

(** ['>HH' + ('i' * 42) + '5s']. *)
Definition DATA_FULL_FORMAT : format :=
  (big_endian, [fmt_H; fmt_H] ++ repeat fmt_i 42 ++ [fmt_s 5]).

Definition EXPECTED_PACKET_SIZE : nat := calcsize DATA_FULL_FORMAT.

(** The clock readings of one call, in the order they are taken:
    [time.time()], [time.gmtime()], [time.time()]. *)
Record Clock : Type := {
  time_time_1 : R;
  tm_year : Z;
  tm_mon : Z;
  tm_mday : Z;
  time_time_2 : R
}.

Definition remaining_time (elapsed : R) : R :=
  Rmax (IZR TOTAL_FLIGHT_SECONDS - elapsed) 0.

Definition epoch_time (clk : Clock) : Z := py_int (time_time_1 clk).

Definition estimated_arrival_time (clk : Clock) (elapsed : R) : Z :=
  (epoch_time clk + py_int (remaining_time elapsed))%Z.

Definition temperature (elapsed : R) : R :=
  288.15 - 0.0065 * altitude elapsed.

Definition speed_of_sound (elapsed : R) : result R :=
  do s <- py_sqrt (temperature elapsed);
  OK (20.05 * s * 1.944).

Definition mach (elapsed : R) : result Z :=
  do sos <- speed_of_sound elapsed;
  if Req_dec_T sos 0 then OK 0%Z
  else OK (py_int (true_airspeed elapsed / sos * 10000)).

Definition time_since_departure (elapsed : R) : Z := py_int elapsed.

Definition pitch_roll (phase : Z) (elapsed : R) : Z * Z :=
  if (phase =? 2)%Z then (py_int (5 + 5 * Rmin elapsed 30 / 30), 0%Z)
  else if (phase =? 3)%Z then (5%Z, py_int (5 * sin (elapsed / 10)))
  else if (phase =? 4)%Z then (0%Z, 0%Z)
  else if (phase =? 5)%Z then ((-2)%Z, py_int (5 * sin (elapsed / 10)))
  else if (phase =? 6)%Z then (2%Z, 0%Z)
  else if (phase =? 7)%Z then (5%Z, 0%Z)
  else (0%Z, 0%Z).

Definition date_enc (clk : Clock) : Z :=
  Z.lor (Z.lor (Z.shiftl (tm_year clk) 16) (Z.shiftl (tm_mon clk) 8))
        (tm_mday clk).

Definition time_enc (clk : Clock) : Z := py_int (time_time_2 clk).

(** [b'RC901']. *)
Definition flight_str : list byte := [x52; x43; x39; x30; x31].

Definition all_42_integers (lat lon : R) (heading phase : Z) (elapsed : R)
           (r : Route) (clk : Clock) : result (list Z) :=
  do mach_v <- mach elapsed;
  do total <- total_dist_nm r;
  do dep_iata <- encode_airport (DEP r);
  do dep_icao <- encode_airport (apt_icao (DEP_APT r));
  do dst_iata <- encode_airport (DST r);
  do dst_icao <- encode_airport (apt_icao (DST_APT r));
  let '(pitch, roll) := pitch_roll phase elapsed in
  OK [ 1;
       py_int (lat * LAT_LON_SCALE_FACTOR);
       py_int (lon * LAT_LON_SCALE_FACTOR);
       ground_speed elapsed;
       py_int (true_airspeed elapsed);
       FPA;
       head_wind;
       distance_to_destination total elapsed;
       4;
       altitude_scaled elapsed;
       py_int (temperature elapsed);
       py_int (remaining_time elapsed);
       time_since_departure elapsed;
       heading;
       vertical_speed_scaled elapsed;
       tailwind heading;
       estimated_arrival_time clk elapsed;
       mach_v;
       py_int (dist_traveled total elapsed * 100);
       time_enc clk;
       date_enc clk;
       py_int (apt_lat (DEP_APT r) * LAT_LON_SCALE_FACTOR);
       py_int (apt_lon (DEP_APT r) * LAT_LON_SCALE_FACTOR);
       dep_iata;
       dep_icao;
       apt_geoID (DEP_APT r);
       py_int (apt_lat (DST_APT r) * LAT_LON_SCALE_FACTOR);
       py_int (apt_lon (DST_APT r) * LAT_LON_SCALE_FACTOR);
       dst_iata;
       dst_icao;
       apt_geoID (DST_APT r);
       phase;
       1; 0; 0; 0; 4; 2; 2;
       vertical_speed elapsed;
       pitch;
       roll ]%Z.

(** The packet handed to [sock.sendto], or the exception raised. *)
Definition send_data_packet (lat lon : R) (heading phase : Z) (elapsed : R)
           (r : Route) (clk : Clock) : result (list byte) :=
  do ints <- all_42_integers lat lon heading phase elapsed r clk;
  if negb (List.length ints =? 42)%nat then Raise ValueError
  else
    let pack_args :=
      [PyInt MAGIC_ID; PyInt DATA_PACKET_TYPE] ++ map PyInt ints
      ++ [PyBytes flight_str] in
    do packet <- struct_pack DATA_FULL_FORMAT pack_args;
    if negb (List.length packet =? EXPECTED_PACKET_SIZE)%nat
    then Raise RuntimeError
    else OK packet.

(** One iteration of the [while True] loop of [main] up to the call of
    [send_data_packet]: the new [current_phase] and the call's arguments. *)
Definition main_iteration (r : Route) (current_phase : Z) (elapsed : R)
  : result (Z * SendArgs) :=
  let '(current_phase, _) :=
    phase_scan (sorted PHASE_TIMINGS) elapsed current_phase None in
  let fraction := fraction elapsed in
  do ' (current_lat, current_lon) <-
    interpolate_great_circle (apt_lat (DEP_APT r)) (apt_lon (DEP_APT r))
                             (apt_lat (DST_APT r)) (apt_lon (DST_APT r))
                             fraction;
  let heading :=
    compute_heading current_lat current_lon
                    (apt_lat (DST_APT r)) (apt_lon (DST_APT r)) in
  let '(current_phase, current_lat, current_lon) :=
    if Rge_dec fraction 1
    then (8%Z, apt_lat (DST_APT r), apt_lon (DST_APT r))
    else (current_phase, current_lat, current_lon) in
  OK (current_phase,
      {| arg_lat := current_lat; arg_lon := current_lon;
         arg_heading := heading; arg_phase := current_phase;
         arg_elapsed := elapsed |}).

(** The loop of [main] over the successive readings of the clock: the
    calls whose packet was sent, up to the first exception (an exception
    of [send_data_packet] exits the process, any other one aborts it). *)
Fixpoint main_loop (r : Route) (current_phase : Z)
         (ticks : list (R * Clock)) : list (SendArgs * list byte) :=
  match ticks with
  | [] => []
  | (elapsed, clk) :: rest =>
      match main_iteration r current_phase elapsed with
      | Raise _ => []
      | OK (current_phase', a) =>
          match send_data_packet (arg_lat a) (arg_lon a) (arg_heading a)
                                 (arg_phase a) (arg_elapsed a) r clk with
          | Raise _ => []
          | OK packet => (a, packet) :: main_loop r current_phase' rest
          end
      end
  end.

(** [main] starts the loop with [current_phase = 1]. *)
Definition main (r : Route) (ticks : list (R * Clock))
  : list (SendArgs * list byte) :=
  main_loop r 1%Z ticks.

End V6.

(* ================================================================= *)
(** ** Revision 7 ([senderv7.py]) *)

Module V7.

Definition encode_airport (code : string) : result Z :=
  let s := str_prefix 4 (str_ljust (str_upper (str_strip code)) 4) in
  do b <- str_encode_ascii s;
  struct_unpack1 little_endian fmt_I b.

(** Modelled from the spec: the decoder of an airport slot belongs to
    the receiver and is not in the sources; "under the same convention"
    is read as [struct.pack] with the format of [encode_airport]
    followed by [decode('ascii')]. *)
Definition decode_airport (n : Z) : result string :=
  do b <- struct_pack (little_endian, [fmt_I]) [PyInt n];
  bytes_decode_ascii b.

(** The two 32-bit values of a flight name of up to eight characters. *)
Definition encode_flight_name (name : string) : result (Z * Z) :=
  let padded := str_ljust name 8 in
  do part1 <- str_encode_ascii (str_slice 0 4 padded);
  do part2 <- str_encode_ascii (str_slice 4 8 padded);
  do val1 <- struct_unpack1 little_endian fmt_I part1;
  do val2 <- struct_unpack1 little_endian fmt_I part2;
  OK (val1, val2).

(** ['>HH' + ('i' * 20) + 'I' + ('i' * 21)]. *)
Definition DATA_FULL_FORMAT : format :=
  (big_endian,
   [fmt_H; fmt_H] ++ repeat fmt_i 20 ++ [fmt_I] ++ repeat fmt_i 21).

Definition EXPECTED_PACKET_SIZE : nat := calcsize DATA_FULL_FORMAT.

(** The module-level [start_time = datetime.now(timezone.utc)] (its hour
    and minute) and the [now = datetime.now(timezone.utc)] of one call. *)
Record Clock : Type := {
  start_hour : Z;
  start_minute : Z;
  now_year : Z;
  now_month : Z;
  now_day : Z;
  now_hour : Z;
  now_minute : Z;
  now_second : Z
}.

Definition remaining_time (elapsed : R) : R :=
  Rmax (IZR TOTAL_FLIGHT_SECONDS - elapsed) 0 / 60.

Definition temperature : Z := 5.

Definition speed_of_sound : result R :=
  do s <- py_sqrt (IZR temperature);
  OK (20.05 * s * 1.944).

Definition mach (elapsed : R) : result Z :=
  do sos <- speed_of_sound;
  do q <- py_div (true_airspeed elapsed) sos;
  OK (py_int (q * 1000)).

Definition time_since_departure (elapsed : R) : Z := py_int (elapsed / 60).

Definition acars_phase_id : Z := 1.
Definition miqat_phase : Z := 1.
Definition profile_mode : Z := 1.

Definition pitch_roll (phase : Z) (elapsed : R) : Z * Z :=
  if (phase =? 2)%Z then (py_int (5 + 5 * Rmin elapsed 30 / 30), 0%Z)
  else if (phase =? 3)%Z then (5%Z, 0%Z)
  else if (phase =? 4)%Z then (0%Z, 0%Z)
  else if (phase =? 5)%Z then ((-2)%Z, 0%Z)
  else if (phase =? 6)%Z then (2%Z, 0%Z)
  else if (phase =? 7)%Z then (5%Z, 0%Z)
  else (0%Z, 0%Z).

(** [struct.unpack('>I', struct.pack('>HBB', year, month, day))[0]]. *)
Definition date_enc (clk : Clock) : result Z :=
  do date_packed <-
    struct_pack (big_endian, [fmt_H; fmt_B; fmt_B])
                [PyInt (now_year clk); PyInt (now_month clk);
                 PyInt (now_day clk)];
  struct_unpack1 big_endian fmt_I date_packed.

Definition seconds_today (clk : Clock) : Z :=
  (now_hour clk * 3600 + now_minute clk * 60 + now_second clk)%Z.

Definition time_enc (clk : Clock) : Z := (seconds_today clk mod 86400)%Z.

Definition current_minutes_today (clk : Clock) : R :=
  IZR (start_hour clk * 60) + IZR (start_minute clk) * 1.2.

Definition estimated_arrival_time (clk : Clock) : R :=
  py_fmod (current_minutes_today clk + IZR TOTAL_FLIGHT_SECONDS / 60) 1440.

Definition all_42_integers (lat lon : R) (heading phase : Z) (elapsed : R)
           (r : Route) (clk : Clock) : result (list Z) :=
  do mach_v <- mach elapsed;
  do total <- total_dist_nm r;
  do date_enc_v <- date_enc clk;
  do dep_iata <- encode_airport (DEP r);
  do dep_icao <- encode_airport (apt_icao (DEP_APT r));
  do dst_iata <- encode_airport (DST r);
  do dst_icao <- encode_airport (apt_icao (DST_APT r));
  let '(pitch, roll) := pitch_roll phase elapsed in
  OK [ 1;
       py_int (lat * LAT_LON_SCALE_FACTOR);
       py_int (lon * LAT_LON_SCALE_FACTOR);
       ground_speed elapsed;
       py_int (true_airspeed elapsed);
       FPA;
       head_wind;
       distance_to_destination total elapsed;
       py_int (dist_traveled total elapsed);
       py_int (altitude elapsed);
       temperature;
       py_int (remaining_time elapsed);
       time_since_departure elapsed;
       heading;
       heading;
       tailwind heading;
       py_int (estimated_arrival_time clk);
       mach_v;
       py_int (dist_traveled total elapsed * 100);
       time_enc clk;
       date_enc_v;
       py_int (apt_lat (DEP_APT r) * LAT_LON_SCALE_FACTOR);
       py_int (apt_lon (DEP_APT r) * LAT_LON_SCALE_FACTOR);
       dep_iata;
       dep_icao;
       apt_geoID (DEP_APT r);
       py_int (apt_lat (DST_APT r) * LAT_LON_SCALE_FACTOR);
       py_int (apt_lon (DST_APT r) * LAT_LON_SCALE_FACTOR);
       dst_iata;
       dst_icao;
       apt_geoID (DST_APT r);
       phase;
       acars_phase_id;
       miqat_phase;
       0; 0; 1;
       profile_mode;
       altitude_scaled elapsed;
       vertical_speed elapsed;
       pitch;
       roll ]%Z.

(** The packet handed to [sock.sendto], or the exception raised. *)
Definition send_data_packet (lat lon : R) (heading phase : Z) (elapsed : R)
           (r : Route) (clk : Clock) : result (list byte) :=
  do ints <- all_42_integers lat lon heading phase elapsed r clk;
  let pack_args :=
    [PyInt MAGIC_ID; PyInt DATA_PACKET_TYPE] ++ map PyInt ints in
  do packet <- struct_pack DATA_FULL_FORMAT pack_args;
  if negb (List.length packet =? EXPECTED_PACKET_SIZE)%nat
  then Raise RuntimeError
  else OK packet.

(** The variables that survive from one iteration of the loop of [main]
    to the next: the local [current_phase], the local [phase] (the
    variable of the [for] loop, unbound before its first run) and the
    global [oldheading]. *)
Record LoopState : Type := {
  current_phase : Z;
  phase : option Z;
  oldheading : Z
}.

(** [current_phase = 1] in [main], [oldheading = 0] at module level. *)
Definition initial_state : LoopState :=
  {| current_phase := 1; phase := None; oldheading := 0 |}.

(** One iteration of the [while True] loop of [main] up to the call of
    [send_data_packet]. *)
Definition main_iteration (r : Route) (st : LoopState) (elapsed : R)
  : result (LoopState * SendArgs) :=
  let '(current_phase, phase) :=
    phase_scan (sorted PHASE_TIMINGS) elapsed (current_phase st) (phase st) in
  let fraction := fraction elapsed in
  do ' (current_lat, current_lon) <-
    interpolate_great_circle (apt_lat (DEP_APT r)) (apt_lon (DEP_APT r))
                             (apt_lat (DST_APT r)) (apt_lon (DST_APT r))
                             fraction;
  do phase_v <- match phase with
                | Some v => OK v
                | None => Raise NameError
                end;
  let '(heading, oldheading) :=
    if negb (phase_v =? 8)%Z
    then
      let heading :=
        compute_heading current_lat current_lon
                        (apt_lat (DST_APT r)) (apt_lon (DST_APT r)) in
      (heading, heading)
    else (oldheading st, oldheading st) in
  let '(current_phase, current_lat, current_lon) :=
    if Rge_dec fraction 1
    then (8%Z, apt_lat (DST_APT r), apt_lon (DST_APT r))
    else (current_phase, current_lat, current_lon) in
  OK ({| current_phase := current_phase; phase := phase;
         oldheading := oldheading |},
      {| arg_lat := current_lat; arg_lon := current_lon;
         arg_heading := heading; arg_phase := current_phase;
         arg_elapsed := elapsed |}).

(** The loop of [main] over the successive readings of the clock: the
    calls whose packet was sent, up to the first exception. *)
Fixpoint main_loop (r : Route) (st : LoopState)
         (ticks : list (R * Clock)) : list (SendArgs * list byte) :=
  match ticks with
  | [] => []
  | (elapsed, clk) :: rest =>
      match main_iteration r st elapsed with
      | Raise _ => []
      | OK (st', a) =>
          match send_data_packet (arg_lat a) (arg_lon a) (arg_heading a)
                                 (arg_phase a) (arg_elapsed a) r clk with
          | Raise _ => []
          | OK packet => (a, packet) :: main_loop r st' rest
          end
      end
  end.

Definition main (r : Route) (ticks : list (R * Clock))
  : list (SendArgs * list byte) :=
  main_loop r initial_state ticks.

End V7.

(* ================================================================= *)
(** ** Start-up: the route picked by [main] (identical in both revisions) *)

(** How the start-up code can stop: [sys.exit(code)], a failed lookup
    [AIRPORTS[key]], a method called on [None], or [float(None)]. *)
Inductive startup_exn : Type :=
| SystemExit (code : Z)
| KeyError (key : string)
| AttributeError
| TypeError.

Inductive outcome (A : Type) : Type :=
| Done (a : A)
| Stop (e : startup_exn).

Arguments Done {A} a.
Arguments Stop {A} e.

(** The directory [AIRPORTS]: a dict from three-letter codes to airports,
    as an association list read from its newest binding. *)
Definition directory : Type := list (string * Airport).

(** [AIRPORTS[key]], with [None] for a missing key. *)
Fixpoint dict_get (key : string) (d : directory) : option Airport :=
  match d with
  | [] => None
  | (k, v) :: d' => if String.eqb key k then Some v else dict_get key d'
  end.

(** [key in AIRPORTS]. *)
Definition dict_mem (key : string) (d : directory) : bool :=
  match dict_get key d with
  | Some _ => true
  | None => false
  end.

(** A row of [csv.DictReader] under the five required headers; a value is
    [None] when the line has too few fields. *)
Record Row : Type := {
  ThreeLetId : option string;
  FourLetId : option string;
  Lat : option string;
  Lon : option string;
  PointGeoRefId : option string
}.

Record csv_file : Type := {
  fieldnames : option (list string);
  rows : list Row
}.

Definition required_fields : list string :=
  ["FourLetId"; "ThreeLetId"; "Lat"; "Lon"; "PointGeoRefId"]%string.

Section StartUp.

(** [str.upper] on arbitrary text.  The keys of the directory are compared
    as whole strings, so the function is a parameter here; on ASCII text it
    is [str_upper]. *)
Variable upper : string -> string.

(** [float(s)] and [int(s)] on a string: the parsers of the language,
    parameters of the model; [None] stands for [ValueError]. *)
Variable float_of_str : string -> option R.
Variable int_of_str : string -> option Z.

(** The city id of a row: [INVALDATA] for an empty, null or unparsable
    [PointGeoRefId]. *)
Definition geoID_of (geoID_str : string) : Z :=
  if negb (String.eqb geoID_str EmptyString)
     && negb (existsb (String.eqb (upper geoID_str))
                      ["NULL"; "N/A"; "NONE"]%string)
  then match int_of_str geoID_str with
       | Some n => n
       | None => INVALDATA
       end
  else INVALDATA.

(** The body of [for row in reader]: the directory after the row, a row
    with an unparsable latitude or longitude being skipped. *)
Definition load_row (row : Row) (airports : directory) : outcome directory :=
  match ThreeLetId row with
  | None => Stop AttributeError
  | Some iata =>
      let iata_code := upper iata in
      match FourLetId row with
      | None => Stop AttributeError
      | Some icao =>
          let icao_code := upper icao in
          match PointGeoRefId row with
          | None => Stop AttributeError
          | Some geo =>
              let geoID_val := geoID_of (str_strip geo) in
              match Lat row with
              | None => Stop TypeError
              | Some lat_str =>
                  match float_of_str lat_str with
                  | None => Done airports
                  | Some latitude =>
                      match Lon row with
                      | None => Stop TypeError
                      | Some lon_str =>
                          match float_of_str lon_str with
                          | None => Done airports
                          | Some longitude =>
                              Done ((iata_code,
                                     {| apt_icao := icao_code;
                                        apt_lat := latitude;
                                        apt_lon := longitude;
                                        apt_geoID := geoID_val |})
                                      :: airports)
                          end
                      end
                  end
              end
          end
      end
  end.

Fixpoint load_rows (rs : list Row) (airports : directory)
  : outcome directory :=
  match rs with
  | [] => Done airports
  | row :: rs' =>
      match load_row row airports with
      | Stop e => Stop e
      | Done airports' => load_rows rs' airports'
      end
  end.

(** [load_airports], from the point where [csv.DictReader] has read the
    file: [None] for a missing file, otherwise the field names of the
    header ([None] for an empty file) and the rows. *)
Definition load_airports (file : option csv_file) : outcome directory :=
  match file with
  | None => Stop (SystemExit 1)
  | Some f =>
      match fieldnames f with
      | None => Stop TypeError
      | Some names =>
          if forallb (fun field => existsb (String.eqb field) names)
                     required_fields
          then load_rows (rows f) []
          else Stop (SystemExit 1)
      end
  end.

(** [pick_route(AIRPORTS)], reading [sys.argv]. *)
Definition pick_route (AIRPORTS : directory) (argv : list string)
  : outcome (string * string) :=
  if (List.length argv =? 3)%nat then
    let dep := upper (nth 1 argv EmptyString) in
    let dst := upper (nth 2 argv EmptyString) in
    if negb (dict_mem dep AIRPORTS) || negb (dict_mem dst AIRPORTS)
    then Stop (SystemExit 1)
    else if String.eqb dep dst then Stop (SystemExit 1)
    else Done (dep, dst)
  else Done ("JFK"%string, "ORD"%string).

(** The first lines of [main] once the directory is loaded:
    [DEP, DST = pick_route(AIRPORTS)], [DEP_APT = AIRPORTS[DEP]],
    [DST_APT = AIRPORTS[DST]]. *)
Definition main_route (AIRPORTS : directory) (argv : list string)
  : outcome Route :=
  match pick_route AIRPORTS argv with
  | Stop e => Stop e
  | Done (dep, dst) =>
      match dict_get dep AIRPORTS with
      | None => Stop (KeyError dep)
      | Some dep_apt =>
          match dict_get dst AIRPORTS with
          | None => Stop (KeyError dst)
          | Some dst_apt =>
              Done {| DEP := dep; DST := dst;
                      DEP_APT := dep_apt; DST_APT := dst_apt |}
          end
      end
  end.

(** [main] up to the creation of the socket. *)
Definition main_startup (file : option csv_file) (argv : list string)
  : outcome Route :=
  match load_airports file with
  | Stop e => Stop e
  | Done AIRPORTS => main_route AIRPORTS argv
  end.

End StartUp.

(* ================================================================= *)
(** ** The navigation functions in binary64

    The same three functions over IEEE 754 binary64 numbers, the floats
    of CPython.  Sums and products are written in the order of the
    source, each operation rounded once; [math.radians(x)] is
    [x * (pi / 180)] and [math.degrees(x)] is [x * (180 / pi)], as in
    CPython.  The functions of the C library ([sin], [cos], [acos],
    [atan2]) are a parameter [libm]; [glibc] gives their values in
    glibc 2.36 at the arguments that the runs of this file reach. *)

Module B64.
Import PrimFloat.
Local Open Scope float_scope.

Record libm : Type := {
  m_sin : float -> float;
  m_cos : float -> float;
  m_acos : float -> float;
  m_atan2 : float -> float -> float
}.

Definition pi : float := 0x1.921fb54442d18p+1.

Definition radians (x : float) : float := x * (pi / 180).
Definition degrees (x : float) : float := x * (180 / pi).

(** [min(a, b)] and [max(a, b)] keep their first argument unless the
    second is strictly smaller, respectively larger. *)
Definition py_min (a b : float) : float := if b <? a then b else a.
Definition py_max (a b : float) : float := if a <? b then b else a.

Definition py_div (a b : float) : result float :=
  if b =? 0 then Raise ZeroDivisionError else OK (a / b).

Definition py_sqrt (x : float) : result float :=
  if x <? 0 then Raise ValueError else OK (sqrt x).

(** The clamped dot product and the central angle [omega] of
    [interpolate_great_circle]. *)
Definition central_dot (m : libm) (lat1 lon1 lat2 lon2 : float) : float :=
  let lat1_rad := radians lat1 in
  let lon1_rad := radians lon1 in
  let lat2_rad := radians lat2 in
  let lon2_rad := radians lon2 in
  let x1 := m_cos m lat1_rad * m_cos m lon1_rad in
  let y1 := m_cos m lat1_rad * m_sin m lon1_rad in
  let z1 := m_sin m lat1_rad in
  let x2 := m_cos m lat2_rad * m_cos m lon2_rad in
  let y2 := m_cos m lat2_rad * m_sin m lon2_rad in
  let z2 := m_sin m lat2_rad in
  py_max (py_min (x1 * x2 + y1 * y2 + z1 * z2) 1) (-1).

Definition central_angle (m : libm) (lat1 lon1 lat2 lon2 : float) : float :=
  m_acos m (central_dot m lat1 lon1 lat2 lon2).

Definition interpolate_great_circle (m : libm)
           (lat1 lon1 lat2 lon2 fraction : float) : result (float * float) :=
  let lat1_rad := radians lat1 in
  let lon1_rad := radians lon1 in
  let lat2_rad := radians lat2 in
  let lon2_rad := radians lon2 in
  let x1 := m_cos m lat1_rad * m_cos m lon1_rad in
  let y1 := m_cos m lat1_rad * m_sin m lon1_rad in
  let z1 := m_sin m lat1_rad in
  let x2 := m_cos m lat2_rad * m_cos m lon2_rad in
  let y2 := m_cos m lat2_rad * m_sin m lon2_rad in
  let z2 := m_sin m lat2_rad in
  let omega := central_angle m lat1 lon1 lat2 lon2 in
  if omega =? 0 then OK (lat1, lon1)
  else
    do t1 <- py_div (m_sin m ((1 - fraction) * omega)) (m_sin m omega);
    do t2 <- py_div (m_sin m (fraction * omega)) (m_sin m omega);
    let x := t1 * x1 + t2 * x2 in
    let y := t1 * y1 + t2 * y2 in
    let z := t1 * z1 + t2 * z2 in
    do r <- py_sqrt (x * x + y * y);
    OK (degrees (m_atan2 m z r), degrees (m_atan2 m y x)).

(** The term [a] of [haversine_distance]. *)
Definition haversine_term (m : libm) (lat1 lon1 lat2 lon2 : float) : float :=
  let dlat := radians (lat2 - lat1) in
  let dlon := radians (lon2 - lon1) in
  m_sin m (dlat / 2) * m_sin m (dlat / 2)
  + m_cos m (radians lat1) * m_cos m (radians lat2)
    * m_sin m (dlon / 2) * m_sin m (dlon / 2).

(** The factor 0.539957, as the binary64 number that the literal
    denotes. *)
Definition km_to_nm : float := 0x1.14753e707e176p-1.

Definition haversine_distance (m : libm) (lat1 lon1 lat2 lon2 : float)
  : result float :=
  let R_km := 6371 in
  let a := haversine_term m lat1 lon1 lat2 lon2 in
  do sa <- py_sqrt a;
  do sb <- py_sqrt (1 - a);
  let c := 2 * m_atan2 m sa sb in
  OK (R_km * c * km_to_nm).

(** The two arguments [x] and [y] of [math.atan2] in [compute_heading],
    and the value to which the function applies [% 360] and [int]. *)
Definition heading_terms (m : libm) (lat1 lon1 lat2 lon2 : float)
  : float * float :=
  let lat1_rad := radians lat1 in
  let lat2_rad := radians lat2 in
  let dlon_rad := radians (lon2 - lon1) in
  let x := m_sin m dlon_rad * m_cos m lat2_rad in
  let y := m_cos m lat1_rad * m_sin m lat2_rad
           - m_sin m lat1_rad * m_cos m lat2_rad * m_cos m dlon_rad in
  (x, y).

Definition heading_angle (m : libm) (lat1 lon1 lat2 lon2 : float) : float :=
  let '(x, y) := heading_terms m lat1 lon1 lat2 lon2 in
  degrees (m_atan2 m x y) + 360.

(** Tables of values: the first entry whose key equals the argument. *)
Fixpoint lookup (x : float) (t : list (float * float)) : float :=
  match t with
  | [] => nan
  | (k, v) :: t' => if x =? k then v else lookup x t'
  end.

Fixpoint lookup2 (y x : float) (t : list (float * float * float)) : float :=
  match t with
  | [] => nan
  | (k1, k2, v) :: t' =>
      if (y =? k1) && (x =? k2) then v else lookup2 y x t'
  end.

Definition glibc : libm :=
  {| m_sin := fun x => lookup x
       [ (0, 0);
         (0x1.6b2c949c3b236p-1, 0x1.4d79fdd7be01dp-1);
         (-0x1.49a4ca7deeed7p+0, -0x1.eb9da0a566897p-1);
         (0x1.6a09e667f3bcdp-26, 0x1.6a09e667f3bcdp-26);
         (0x1.6a09e667f3bcdp-27, 0x1.6a09e667f3bcdp-27);
         (0x1.86f4291ecf2f4p+0, 0x1.ff833f9da45f7p-1);
         (0x1.921fb54442d18p+0, 1);
         (0x1.921fb51ec7c4fp+0, 1);
         (0x1.197ec4d71780ep+0, 0x1.c833faf82ddccp-1);
         (0x1.921fb54442d18p+1, 0x1.1a62633145c07p-53) ];
     m_cos := fun x => lookup x
       [ (0, 1);
         (0x1.6b2c949c3b236p-1, 0x1.8481b2ba733fdp-1);
         (-0x1.49a4ca7deeed7p+0, 0x1.1e100f26b5cf4p-2);
         (-0x1.86f4291ecf2f4p+0, 0x1.65547c4694e12p-5);
         (0x1.86f4291ecf2f4p+0, 0x1.65547c4694e12p-5);
         (0x1.197ec4d71780ep+0, 0x1.d0db23d43875bp-2);
         (0x1.921fb54442d18p+1, -1) ];
     m_acos := fun x => lookup x
       [ (1, 0);
         (0x1.ffffffffffffep-1, 0x1.6a09e667f3bcdp-26);
         (-1, 0x1.921fb54442d18p+1) ];
     m_atan2 := fun y x => lookup2 y x
       [ (0, 0, 0);
         (0, 1, 0);
         (0x1.1a62633145c07p-53, -1, 0x1.921fb54442d18p+1);
         (0x1.4d79fdd7be01dp-1, 0x1.8481b2ba733fcp-1, 0x1.6b2c949c3b237p-1);
         (-0x1.7509fc9125268p-1, 0x1.b22144c5d10c3p-3,
          -0x1.49a4ca7deeed7p+0) ] |}.

(** Numbers of the runs: the airport JFK at (40.6413, -73.7781), the
    next binary64 number above its latitude, the central angle that the
    program computes from JFK to JFK, and the fraction 0.5. *)
Definition JFK_lat : float := 0x1.452161e4f766p+5.
Definition JFK_lon : float := -0x1.271cc63f1412p+6.
Definition JFK_lat_above : float := 0x1.452161e4f7661p+5.
Definition JFK_dot : float := 0x1.ffffffffffffep-1.
Definition JFK_omega : float := 0x1.6a09e667f3bcdp-26.
Definition half : float := 0x1p-1.
Definition zero : float := 0.
Definition one : float := 1.

(** A route between two airports 2.5 degrees from the poles: from
    (-87.5, 0) to (87.5, 180), or to (87.5, 179.999999). *)
Definition south_lat : float := -0x1.5ep+6.
Definition north_lat : float := 0x1.5ep+6.
Definition lon_180 : float := 180.
Definition lon_near_180 : float := 0x1.67ffffde7210cp+7.
Definition above_one : float := 0x1.0000000000001p+0.

(** Two latitudes one binary64 number apart, 63.001900000000006 and
    63.0019, on the meridian -91.8605. *)
Definition upper_lat : float := 0x1.f803e425aee64p+5.
Definition lower_lat : float := 0x1.f803e425aee63p+5.
Definition meridian : float := -0x1.6f7126e978d5p+6.
Definition full_turn : float := 360.

End B64.

(* ================================================================= *)
(** ** Vocabulary of the properties *)

(** The phase that the thresholds and the forced-terminal rule assign to an
    elapsed time reached from the initial phase 1. *)
Definition phase_of (elapsed : R) : Z :=
  if Rge_dec elapsed 600 then 8
  else if Rge_dec elapsed 540 then 6
  else if Rge_dec elapsed 480 then 5
  else if Rge_dec elapsed 180 then 4
  else if Rge_dec elapsed 60 then 3
  else if Rge_dec elapsed 30 then 2
  else 1.

(** [current_phase] after the scan and the forced-terminal rule. *)
Definition phase_step (elapsed : R) (cp : Z) : Z :=
  if Rge_dec elapsed 600 then 8
  else if Rge_dec elapsed 540 then 6
  else if Rge_dec elapsed 480 then 5
  else if Rge_dec elapsed 180 then 4
  else if Rge_dec elapsed 60 then 3
  else if Rge_dec elapsed 30 then 2
  else cp.

(** [cp] is the initial phase, or the phase of an earlier, smaller time. *)
Definition reached (cp : Z) (e : R) : Prop :=
  cp = 1%Z \/ exists e0, e0 <= e /\ cp = phase_of e0.

(** What the loop has sent: the phase of each call, and the elapsed time
    with the phase of each call. *)
Definition sent_phases (out : list (SendArgs * list byte)) : list Z :=
  map (fun s => arg_phase (fst s)) out.

Definition sent_trace (out : list (SendArgs * list byte)) : list (R * Z) :=
  map (fun s => (arg_elapsed (fst s), arg_phase (fst s))) out.

(** The interpolated position of one iteration of the loop. *)
Definition interpolated (r : Route) (elapsed : R) : result (R * R) :=
  interpolate_great_circle (apt_lat (DEP_APT r)) (apt_lon (DEP_APT r))
                           (apt_lat (DST_APT r)) (apt_lon (DST_APT r))
                           (fraction elapsed).

(** Every character of [s] is ASCII. *)
Definition is_ascii_str (s : string) : Prop :=
  forallb is_ascii (list_ascii_of_string s) = true.

(** The round trip in the spec's words, for a pair of encoder and decoder. *)
Definition spec_round_trip (enc : string -> result Z)
           (dec : Z -> result string) (code : string) : Prop :=
  exists n, enc code = OK n /\ dec n = OK (str_ljust code 4).

(** Two points are within [tol] degrees of each other, coordinate-wise. *)
Definition close_to (tol : R) (p q : R * R) : Prop :=
  Rabs (fst p - fst q) <= tol /\ Rabs (snd p - snd q) <= tol.

(** A route along the equator, from (0, 0) to (0, 90). *)
Definition equator_route : Route :=
  {| DEP := "AAA"; DST := "BBB";
     DEP_APT := {| apt_icao := "KAAA"; apt_lat := 0; apt_lon := 0;
                   apt_geoID := 1 |};
     DST_APT := {| apt_icao := "KBBB"; apt_lat := 0; apt_lon := 90;
                   apt_geoID := 2 |} |}.

(** The argument [v] is accepted by the format code [c]. *)
Definition accepts (c : fmt_code) (v : py_val) : bool :=
  match c, v with
  | fmt_s _, PyBytes _ => true
  | fmt_s _, PyInt _ => false
  | _, PyInt z => fits c z
  | _, PyBytes _ => false
  end.

(** The range of the signed 32-bit slot [i]. *)
Definition int32 (z : Z) : Prop := (-2147483648 <= z <= 2147483647)%Z.

(** An airport on the globe with a 32-bit city id and an ASCII code. *)
Definition wf_airport (a : Airport) : Prop :=
  -90 <= apt_lat a <= 90 /\ -180 <= apt_lon a <= 180
  /\ int32 (apt_geoID a) /\ is_ascii_str (apt_icao a).

(** A route between two such airports, with ASCII three-letter codes. *)
Definition wf_route (r : Route) : Prop :=
  is_ascii_str (DEP r) /\ is_ascii_str (DST r)
  /\ wf_airport (DEP_APT r) /\ wf_airport (DST_APT r).

(** A call with a position on the globe, 32-bit heading and phase, and an
    elapsed time between zero and 10^9 seconds. *)
Definition wf_call (lat lon : R) (heading phase : Z) (elapsed : R) : Prop :=
  -90 <= lat <= 90 /\ -180 <= lon <= 180
  /\ int32 heading /\ int32 phase /\ 0 <= elapsed <= 1000000000.

(** Clock readings of revision 6 that fit the packet: epoch seconds up to
    2 * 10^9, a year below 2^15, month and day below 2^8. *)
Definition V6_wf_clock (clk : V6.Clock) : Prop :=
  0 <= V6.time_time_1 clk <= 2000000000
  /\ 0 <= V6.time_time_2 clk <= 2000000000
  /\ (0 <= V6.tm_year clk < 32768)%Z
  /\ (0 <= V6.tm_mon clk < 256)%Z
  /\ (0 <= V6.tm_mday clk < 256)%Z.

(** Clock readings of revision 7 that [struct.pack('>HBB', ...)] accepts. *)
Definition V7_wf_clock (clk : V7.Clock) : Prop :=
  (0 <= V7.now_year clk <= 65535)%Z
  /\ (0 <= V7.now_month clk <= 255)%Z
  /\ (0 <= V7.now_day clk <= 255)%Z.

(** 2025-06-15 15:06:40 UTC, epoch second 1750000000. *)
Definition V6_sample_clock : V6.Clock :=
  {| V6.time_time_1 := 1750000000; V6.tm_year := 2025; V6.tm_mon := 6;
     V6.tm_mday := 15; V6.time_time_2 := 1750000000 |}.

(** Departure at 10:30, now 2025-06-15 10:45:20. *)
Definition V7_sample_clock : V7.Clock :=
  {| V7.start_hour := 10; V7.start_minute := 30;
     V7.now_year := 2025; V7.now_month := 6; V7.now_day := 15;
     V7.now_hour := 10; V7.now_minute := 45; V7.now_second := 20 |}.

(** The claim's words: the departure time in minutes of the day plus the
    flight duration in minutes, modulo 1440. *)
Definition spec_estimated_arrival_time (hour minute : Z) : Z :=
  ((hour * 60 + minute + TOTAL_FLIGHT_SECONDS / 60) mod 1440)%Z.

(** Departure at 23:02, now 2025-06-15 23:59:30: a departure minute below
    5. *)
Definition V7_late_clock : V7.Clock :=
  {| V7.start_hour := 23; V7.start_minute := 2;
     V7.now_year := 2025; V7.now_month := 6; V7.now_day := 15;
     V7.now_hour := 23; V7.now_minute := 59; V7.now_second := 30 |}.

(** The route's airports are neither the same point of the sphere nor
    antipodal. *)
Definition proper_route (r : Route) : Prop :=
  sin (central_angle (apt_lat (DEP_APT r)) (apt_lon (DEP_APT r))
                     (apt_lat (DST_APT r)) (apt_lon (DST_APT r))) <> 0.

(** A call made with [elapsed > 600]: phase 8 at the destination. *)
Definition terminal_call (r : Route) (a : SendArgs) : Prop :=
  arg_elapsed a > 600 ->
  arg_phase a = 8%Z
  /\ arg_lat a = apt_lat (DST_APT r) /\ arg_lon a = apt_lon (DST_APT r).


(** The four bytes of the packet that hold the integer number [i] of
    [all_42_integers], after the four bytes of the two header shorts. *)
Definition packet_field (i : nat) (packet : list byte) : list byte :=
  firstn 4 (skipn (4 + 4 * i) packet).

(** The bytes of [MAGIC_ID] and [DATA_PACKET_TYPE] as two big-endian
    unsigned shorts. *)
Definition packet_header : list byte := [xfd; xfd; x00; x10].

(** The airport's coordinates are a latitude and a longitude. *)
Definition on_globe (a : Airport) : Prop :=
  -90 <= apt_lat a <= 90 /\ -180 <= apt_lon a <= 180.

(** A call whose position is on the globe, whose heading is a compass
    bearing and whose phase is a key of [FLIGHT_PHASES]. *)
Definition displayable_call (a : SendArgs) : Prop :=
  -90 <= arg_lat a <= 90 /\ -180 <= arg_lon a <= 180
  /\ (0 <= arg_heading a < 360)%Z /\ (1 <= arg_phase a <= 8)%Z.

(** Ticks whose elapsed times and clock readings fit the packet. *)
Definition V6_wf_ticks (ticks : list (R * V6.Clock)) : Prop :=
  Forall (fun t => 0 <= fst t <= 1000000000 /\ V6_wf_clock (snd t)) ticks.

Definition V7_wf_ticks (ticks : list (R * V7.Clock)) : Prop :=
  Forall (fun t => 0 <= fst t <= 1000000000 /\ V7_wf_clock (snd t)) ticks.

(** A directory with the two airports of the equator route only. *)
Definition equator_directory : directory :=
  [("AAA"%string, DEP_APT equator_route);
   ("BBB"%string, DST_APT equator_route)].

(** A row with a value under each of the five headers. *)
Definition complete_row (row : Row) : Prop :=
  ThreeLetId row <> None /\ FourLetId row <> None /\ Lat row <> None
  /\ Lon row <> None /\ PointGeoRefId row <> None.

(** The row describes the airport [a] under the key [key]: the key and the
    four-letter code are the upper-cased codes of the row, the coordinates
    are its parsed latitude and longitude, and the city id is the one of
    its [PointGeoRefId]. *)
Definition row_airport (upper : string -> string)
           (float_of_str : string -> option R)
           (int_of_str : string -> option Z)
           (row : Row) (key : string) (a : Airport) : Prop :=
  exists iata icao lat lon geo,
    ThreeLetId row = Some iata /\ key = upper iata
    /\ FourLetId row = Some icao /\ apt_icao a = upper icao
    /\ Lat row = Some lat /\ float_of_str lat = Some (apt_lat a)
    /\ Lon row = Some lon /\ float_of_str lon = Some (apt_lon a)
    /\ PointGeoRefId row = Some geo
    /\ apt_geoID a = geoID_of upper int_of_str (str_strip geo).

(** A small file for the loader: parsers that know a few literals, and
    three rows, the second with an unparsable latitude. *)
Definition sample_float (s : string) : option R :=
  if String.eqb s "0" then Some 0
  else if String.eqb s "90" then Some 90
  else None.

Definition sample_int (s : string) : option Z :=
  if String.eqb s "7" then Some 7%Z else None.

Definition sample_rows : list Row :=
  [ {| ThreeLetId := Some "aaa"%string; FourLetId := Some "kaaa"%string;
       Lat := Some "0"%string; Lon := Some "0"%string;
       PointGeoRefId := Some " 7 "%string |};
    {| ThreeLetId := Some "ccc"%string; FourLetId := Some "kccc"%string;
       Lat := Some "north"%string; Lon := Some "0"%string;
       PointGeoRefId := Some "7"%string |};
    {| ThreeLetId := Some "bbb"%string; FourLetId := Some "kbbb"%string;
       Lat := Some "0"%string; Lon := Some "90"%string;
       PointGeoRefId := Some "null"%string |} ].

(** A line with no field at all. *)
Definition empty_row : Row :=
  {| ThreeLetId := None; FourLetId := None; Lat := None; Lon := None;
     PointGeoRefId := None |}.

Definition sample_file : option csv_file :=
  Some {| fieldnames := Some required_fields; rows := sample_rows |}.

(** The airports that the first and the third sample row describe. *)
Definition sample_AAA : Airport :=
  {| apt_icao := "KAAA"; apt_lat := 0; apt_lon := 0; apt_geoID := 7 |}.

Definition sample_BBB : Airport :=
  {| apt_icao := "KBBB"; apt_lat := 0; apt_lon := 90;
     apt_geoID := INVALDATA |}.

(** The call's phase is the one that the schedule of [PHASE_TIMINGS] and
    the forced-terminal rule give to its elapsed time. *)
Definition on_schedule (a : SendArgs) : Prop :=
  let e := arg_elapsed a in
  let p := arg_phase a in
  (e < 30 -> p = 1%Z) /\ (30 <= e < 60 -> p = 2%Z)
  /\ (60 <= e < 180 -> p = 3%Z) /\ (180 <= e < 480 -> p = 4%Z)
  /\ (480 <= e < 540 -> p = 5%Z) /\ (540 <= e < 600 -> p = 6%Z)
  /\ (600 <= e -> p = 8%Z).

(** The term [a] of [haversine_distance]: the squared sine of half the
    central angle between the two points. *)
Definition haversine_term (lat1 lon1 lat2 lon2 : R) : R :=
  let dlat := radians (lat2 - lat1) in
  let dlon := radians (lon2 - lon1) in
  sin (dlat / 2) * sin (dlat / 2)
  + cos (radians lat1) * cos (radians lat2)
    * sin (dlon / 2) * sin (dlon / 2).

(** The second point keeps clear of the antipode of the first: the
    haversine term stays a billionth below 1, that is the second point is
    some 0.004 degrees (400 m) or more from the antipode.  Nearer than
    that the binary64 term can round above 1, and [math.sqrt(1 - a)]
    raises. *)
Definition clear_of_antipodes (lat1 lon1 lat2 lon2 : R) : Prop :=
  haversine_term lat1 lon1 lat2 lon2 <= 1 - 1 / 1000000000.

(** The destination of the route keeps clear of the antipode of the
    departure. *)
Definition clear_route (r : Route) : Prop :=
  clear_of_antipodes (apt_lat (DEP_APT r)) (apt_lon (DEP_APT r))
                     (apt_lat (DST_APT r)) (apt_lon (DST_APT r)).






(* ================================================================= *)
(** * Properties *)

(** ** The result monad *)

Lemma bind_OK {A B : Type} (m : result A) (k : A -> result B) (b : B) :
  bind m k = OK b -> exists a, m = OK a /\ k a = OK b.
Proof.
  destruct m as [a | e]; simpl; intros H.
  - exists a; split; [reflexivity | exact H].
  - discriminate H.
Qed.

Ltac inv_bind H :=
  let a := fresh "v" in
  let Ha := fresh "Hv" in
  apply bind_OK in H; destruct H as (a & Ha & H).

(** ** [int()] and [%] *)

Lemma py_int_nonneg_eq (x : R) (z : Z) :
  IZR z <= x < IZR z + 1 -> (0 <= z)%Z -> py_int x = z.
Proof.
  intros Hx Hz. unfold py_int.
  apply IZR_le in Hz.
  destruct (Rle_dec 0 x) as [_ | Hn]; [| exfalso; lra].
  apply Zfloor_eq; exact Hx.
Qed.

Lemma py_int_IZR (z : Z) : py_int (IZR z) = z.
Proof.
  unfold py_int. destruct (Rle_dec 0 (IZR z)).
  - apply ZfloorZ.
  - unfold Zceil. rewrite ZfloorNZ. lia.
Qed.

(** [int(x)] lies between [0] and [x]. *)
Lemma py_int_between (x : R) :
  (0 <= x -> 0 <= IZR (py_int x) <= x) /\
  (x <= 0 -> x <= IZR (py_int x) <= 0).
Proof.
  unfold py_int. split; intros Hx.
  - destruct (Rle_dec 0 x) as [_ | Hn]; [| exfalso; lra].
    pose proof (Zfloor_bound x) as Hb.
    split; [| lra].
    apply IZR_le. apply Zfloor_lub. simpl. exact Hx.
  - destruct (Rle_dec 0 x) as [H0 | Hn].
    + assert (x = 0) as -> by lra.
      replace 0 with (IZR 0) by reflexivity. rewrite ZfloorZ. simpl. lra.
    + pose proof (Zceil_bound x) as Hb.
      split; [lra |].
      unfold Zceil. rewrite opp_IZR.
      assert (0 <= IZR (Zfloor (- x))); [| lra].
      apply IZR_le. apply Zfloor_lub. simpl. lra.
Qed.

Lemma py_int_range (x : R) (lo hi : Z) :
  (lo <= 0 <= hi)%Z -> IZR lo <= x <= IZR hi -> (lo <= py_int x <= hi)%Z.
Proof.
  intros [Hlo Hhi] [Hl Hh].
  apply IZR_le in Hlo, Hhi.
  destruct (py_int_between x) as [Hp Hn].
  destruct (Rle_dec 0 x) as [H0 | H0].
  - specialize (Hp H0). split; apply le_IZR; lra.
  - assert (x <= 0) as Hx by lra. specialize (Hn Hx).
    split; apply le_IZR; lra.
Qed.

Lemma py_fmod_bound (a b : R) : 0 < b -> 0 <= py_fmod a b < b.
Proof.
  intros Hb. unfold py_fmod.
  pose proof (Zfloor_bound (a / b)) as [H1 H2].
  assert (a = b * (a / b)) as Ha by (field; lra).
  split; nra.
Qed.

Lemma py_fmod_small (a b : R) : 0 <= a < b -> py_fmod a b = a.
Proof.
  intros [H0 Hb]. unfold py_fmod.
  assert (Zfloor (a / b) = 0%Z) as ->.
  { apply Zfloor_eq. simpl.
    split.
    - apply Rmult_le_pos; [lra |]. left. apply Rinv_0_lt_compat. lra.
    - apply (Rmult_lt_reg_r b); [lra |]. field_simplify; lra. }
  simpl. lra.
Qed.

(** [a % b] when [a] lies [k] periods above [[0, b)]. *)
Lemma py_fmod_shift (a b : R) (k : Z) :
  0 < b -> 0 <= a - b * IZR k < b -> py_fmod a b = a - b * IZR k.
Proof.
  intros Hb [H0 H1]. unfold py_fmod.
  assert (Zfloor (a / b) = k) as ->; [| reflexivity].
  apply Zfloor_eq. split.
  - apply (Rmult_le_reg_r b); [lra |]. field_simplify; lra.
  - apply (Rmult_lt_reg_r b); [lra |]. field_simplify; lra.
Qed.

(** ** The phase table *)

Lemma sorted_PHASE_TIMINGS : sorted PHASE_TIMINGS = PHASE_TIMINGS.
Proof. reflexivity. Qed.

Lemma phase_of_mono (e1 e2 : R) : e1 <= e2 -> (phase_of e1 <= phase_of e2)%Z.
Proof.
  intros H. unfold phase_of.
  repeat match goal with
         | |- context [Rge_dec ?a ?b] => destruct (Rge_dec a b)
         end; try lia; exfalso; lra.
Qed.

Lemma phase_of_not_7 (e : R) : phase_of e <> 7%Z.
Proof.
  unfold phase_of.
  repeat match goal with
         | |- context [Rge_dec ?a ?b] => destruct (Rge_dec a b)
         end; lia.
Qed.

Lemma fraction_ge_1 (elapsed : R) : fraction elapsed >= 1 <-> elapsed >= 600.
Proof.
  unfold fraction, TOTAL_FLIGHT_SECONDS, Rmin.
  destruct (Rle_dec (elapsed / 600) 1) as [H | H]; split; intros H'; lra.
Qed.

(** The scan over the table, in closed form. *)
Lemma phase_scan_table (elapsed : R) (cp : Z) (ph : option Z) :
  phase_scan (sorted PHASE_TIMINGS) elapsed cp ph =
  ((if Rge_dec elapsed 600 then 7
    else if Rge_dec elapsed 540 then 6
    else if Rge_dec elapsed 480 then 5
    else if Rge_dec elapsed 180 then 4
    else if Rge_dec elapsed 60 then 3
    else if Rge_dec elapsed 30 then 2
    else cp)%Z, Some 7%Z).
Proof.
  rewrite sorted_PHASE_TIMINGS. unfold PHASE_TIMINGS, phase_scan.
  repeat match goal with
         | |- context [Rge_dec ?a ?b] => destruct (Rge_dec a b)
         end; try reflexivity; exfalso; lra.
Qed.

(** ** The phase machine inside the loop of [main] *)

Ltac case_thresholds :=
  repeat match goal with
         | |- context [Rge_dec ?a ?b] => destruct (Rge_dec a b)
         end.

Lemma phase_step_not_7 (e : R) (cp : Z) : cp <> 7%Z -> phase_step e cp <> 7%Z.
Proof. intros H. unfold phase_step. case_thresholds; try lia; exact H. Qed.

Lemma phase_step_reached (e : R) (cp : Z) :
  reached cp e -> phase_step e cp = phase_of e.
Proof.
  intros [-> | (e0 & Hle & ->)]; unfold phase_step, phase_of;
    case_thresholds; try reflexivity; exfalso; lra.
Qed.

Lemma V6_iteration_phase (r : Route) (cp cp' : Z) (e : R) (a : SendArgs) :
  V6.main_iteration r cp e = OK (cp', a) ->
  cp' = phase_step e cp /\ arg_phase a = phase_step e cp /\ arg_elapsed a = e.
Proof.
  unfold V6.main_iteration. rewrite phase_scan_table.
  intros H. inv_bind H. destruct v as [clat clon].
  pose proof (fraction_ge_1 e) as Hf.
  unfold phase_step.
  destruct (Rge_dec (fraction e) 1) as [Hg | Hg];
    destruct (Rge_dec e 600) as [He | He];
    try (exfalso; tauto);
    inversion H; subst; simpl; auto.
Qed.

Lemma V7_iteration_phase (r : Route) (st st' : V7.LoopState) (e : R)
      (a : SendArgs) :
  V7.main_iteration r st e = OK (st', a) ->
  V7.current_phase st' = phase_step e (V7.current_phase st)
  /\ arg_phase a = phase_step e (V7.current_phase st)
  /\ arg_elapsed a = e.
Proof.
  unfold V7.main_iteration. rewrite phase_scan_table.
  intros H. inv_bind H. destruct v as [clat clon].
  inv_bind H. simpl in Hv0.
  pose proof (fraction_ge_1 e) as Hf.
  unfold phase_step.
  destruct (negb (v =? 8)%Z);
    destruct (Rge_dec (fraction e) 1) as [Hg | Hg];
    destruct (Rge_dec e 600) as [He | He];
    try (exfalso; tauto);
    inversion H; subst; simpl; auto.
Qed.

Lemma In_firstn {A : Type} (n : nat) (l : list A) (x : A) :
  In x (firstn n l) -> In x l.
Proof.
  revert l. induction n as [| n IH]; intros [| y l]; simpl; try tauto.
  intros [H | H]; [left; exact H | right; apply IH; exact H].
Qed.

Lemma StronglySorted_firstn {A : Type} (le : A -> A -> Prop) (l : list A)
      (n : nat) :
  StronglySorted le l -> StronglySorted le (firstn n l).
Proof.
  intros H. revert n. induction H as [| x l Hs IH Hx]; intros [| n]; simpl;
    try constructor.
  - apply IH.
  - rewrite Forall_forall in *. intros y Hy. apply Hx.
    eapply In_firstn; exact Hy.
Qed.

Lemma phases_sorted (es : list R) :
  StronglySorted Rle es -> StronglySorted Z.le (map phase_of es).
Proof.
  induction 1 as [| e es Hs IH He]; simpl; constructor.
  - exact IH.
  - rewrite Forall_forall in *. intros z Hz.
    apply in_map_iff in Hz. destruct Hz as (e' & <- & Hin).
    apply phase_of_mono. apply He. exact Hin.
Qed.

Lemma sent_phases_trace (out : list (SendArgs * list byte)) :
  sent_phases out = map snd (sent_trace out).
Proof.
  unfold sent_phases, sent_trace. rewrite map_map. reflexivity.
Qed.

(** The sent calls are a prefix of the ticks, each with the phase of its
    elapsed time, when the times do not decrease. *)
Lemma V6_loop_trace (r : Route) (ticks : list (R * V6.Clock)) (cp : Z) :
  StronglySorted Rle (map fst ticks) ->
  Forall (reached cp) (map fst ticks) ->
  exists n, sent_trace (V6.main_loop r cp ticks)
            = firstn n (map (fun t => (fst t, phase_of (fst t))) ticks).
Proof.
  revert cp. induction ticks as [| [e clk] ticks IH]; intros cp Hs Hr.
  - exists O. reflexivity.
  - simpl in *. inversion Hs as [| ? ? Hs' He]; subst.
    inversion Hr as [| ? ? Hr1 Hr']; subst.
    destruct (V6.main_iteration r cp e) as [[cp' a] | ex] eqn:Hit;
      [| exists O; reflexivity].
    apply V6_iteration_phase in Hit. destruct Hit as (Hcp & Hph & Hel).
    rewrite (phase_step_reached _ _ Hr1) in Hcp, Hph.
    destruct (V6.send_data_packet _ _ _ _ _ r clk) as [pkt | ex];
      [| exists O; reflexivity].
    destruct (IH cp' Hs') as (n & Hn).
    { rewrite Forall_forall in *. intros e' He'. right.
      exists e. split; [apply He; exact He' | exact Hcp]. }
    exists (S n). simpl. rewrite Hn, Hph, Hel. reflexivity.
Qed.

Lemma V7_loop_trace (r : Route) (ticks : list (R * V7.Clock))
      (st : V7.LoopState) :
  StronglySorted Rle (map fst ticks) ->
  Forall (reached (V7.current_phase st)) (map fst ticks) ->
  exists n, sent_trace (V7.main_loop r st ticks)
            = firstn n (map (fun t => (fst t, phase_of (fst t))) ticks).
Proof.
  revert st. induction ticks as [| [e clk] ticks IH]; intros st Hs Hr.
  - exists O. reflexivity.
  - simpl in *. inversion Hs as [| ? ? Hs' He]; subst.
    inversion Hr as [| ? ? Hr1 Hr']; subst.
    destruct (V7.main_iteration r st e) as [[st' a] | ex] eqn:Hit;
      [| exists O; reflexivity].
    apply V7_iteration_phase in Hit. destruct Hit as (Hcp & Hph & Hel).
    rewrite (phase_step_reached _ _ Hr1) in Hcp, Hph.
    destruct (V7.send_data_packet _ _ _ _ _ r clk) as [pkt | ex];
      [| exists O; reflexivity].
    destruct (IH st' Hs') as (n & Hn).
    { rewrite Forall_forall in *. intros e' He'. right.
      exists e. split; [apply He; exact He' | exact Hcp]. }
    exists (S n). simpl. rewrite Hn, Hph, Hel. reflexivity.
Qed.

Lemma trace_prefix_sorted {C : Type} (ticks : list (R * C)) (n : nat)
      (out : list (SendArgs * list byte)) :
  StronglySorted Rle (map fst ticks) ->
  sent_trace out = firstn n (map (fun t => (fst t, phase_of (fst t))) ticks) ->
  StronglySorted Z.le (sent_phases out).
Proof.
  intros Hs Hn. rewrite sent_phases_trace, Hn.
  rewrite <- firstn_map. apply StronglySorted_firstn.
  rewrite map_map. simpl.
  rewrite <- (map_map fst phase_of). apply phases_sorted. exact Hs.
Qed.

Lemma reached_initial (es : list R) : Forall (reached 1%Z) es.
Proof. apply Forall_forall. intros e _. left. reflexivity. Qed.

(** C4.  For every non-decreasing sequence of elapsed times fed through the
    loop of [main] (threshold scan, then forced-terminal rule), in either
    revision, the phases of the calls sent are non-decreasing. *)
Theorem phase_non_decreasing (r : Route) :
  (forall ticks : list (R * V6.Clock),
      StronglySorted Rle (map fst ticks) ->
      StronglySorted Z.le (sent_phases (V6.main r ticks)))
  /\
  (forall ticks : list (R * V7.Clock),
      StronglySorted Rle (map fst ticks) ->
      StronglySorted Z.le (sent_phases (V7.main r ticks))).
Proof.
  split; intros ticks Hs.
  - destruct (V6_loop_trace r ticks 1%Z Hs (reached_initial _)) as (n & Hn).
    exact (trace_prefix_sorted ticks n _ Hs Hn).
  - destruct (V7_loop_trace r ticks V7.initial_state Hs (reached_initial _))
      as (n & Hn).
    exact (trace_prefix_sorted ticks n _ Hs Hn).
Qed.

Lemma V6_loop_not_7 (r : Route) (ticks : list (R * V6.Clock)) (cp : Z) :
  cp <> 7%Z ->
  Forall (fun ph => ph <> 7%Z) (sent_phases (V6.main_loop r cp ticks)).
Proof.
  revert cp. induction ticks as [| [e clk] ticks IH]; intros cp Hcp; simpl.
  - constructor.
  - destruct (V6.main_iteration r cp e) as [[cp' a] | ex] eqn:Hit;
      [| constructor].
    apply V6_iteration_phase in Hit. destruct Hit as (Hcp' & Hph & _).
    destruct (V6.send_data_packet _ _ _ _ _ r clk) as [pkt | ex];
      [| constructor].
    simpl. constructor.
    + rewrite Hph. apply phase_step_not_7. exact Hcp.
    + apply IH. rewrite Hcp'. apply phase_step_not_7. exact Hcp.
Qed.

Lemma V7_loop_not_7 (r : Route) (ticks : list (R * V7.Clock))
      (st : V7.LoopState) :
  V7.current_phase st <> 7%Z ->
  Forall (fun ph => ph <> 7%Z) (sent_phases (V7.main_loop r st ticks)).
Proof.
  revert st. induction ticks as [| [e clk] ticks IH]; intros st Hcp; simpl.
  - constructor.
  - destruct (V7.main_iteration r st e) as [[st' a] | ex] eqn:Hit;
      [| constructor].
    apply V7_iteration_phase in Hit. destruct Hit as (Hcp' & Hph & _).
    destruct (V7.send_data_packet _ _ _ _ _ r clk) as [pkt | ex];
      [| constructor].
    simpl. constructor.
    + rewrite Hph. apply phase_step_not_7. exact Hcp.
    + apply IH. rewrite Hcp'. apply phase_step_not_7. exact Hcp.
Qed.

(** C9.  Whatever the sequence of elapsed times, no call sent by the loop
    of [main] carries phase 7, in either revision: the threshold of phase 7
    is the time at which the phase is forced to 8. *)
Theorem phase_7_never_sent (r : Route) :
  (forall ticks : list (R * V6.Clock),
      Forall (fun ph => ph <> 7%Z) (sent_phases (V6.main r ticks)))
  /\
  (forall ticks : list (R * V7.Clock),
      Forall (fun ph => ph <> 7%Z) (sent_phases (V7.main r ticks))).
Proof.
  split; intros ticks.
  - apply V6_loop_not_7. discriminate.
  - apply V7_loop_not_7. simpl. discriminate.
Qed.

Lemma V6_terminal_iteration (r : Route) (cp : Z) (elapsed : R) (pos : R * R) :
  elapsed >= 600 ->
  interpolated r elapsed = OK pos ->
  V6.main_iteration r cp elapsed
  = OK (8%Z,
        {| arg_lat := apt_lat (DST_APT r); arg_lon := apt_lon (DST_APT r);
           arg_heading :=
             compute_heading (fst pos) (snd pos)
                             (apt_lat (DST_APT r)) (apt_lon (DST_APT r));
           arg_phase := 8; arg_elapsed := elapsed |}).
Proof.
  intros He Hpos. unfold interpolated in Hpos.
  apply fraction_ge_1 in He. destruct pos as [clat clon].
  unfold V6.main_iteration. rewrite phase_scan_table, Hpos. simpl.
  destruct (Rge_dec (fraction elapsed) 1) as [_ | Hn];
    [reflexivity | exfalso; exact (Hn He)].
Qed.

Lemma V7_terminal_iteration (r : Route) (st : V7.LoopState) (elapsed : R)
      (pos : R * R) :
  elapsed >= 600 ->
  interpolated r elapsed = OK pos ->
  let heading :=
    compute_heading (fst pos) (snd pos)
                    (apt_lat (DST_APT r)) (apt_lon (DST_APT r)) in
  V7.main_iteration r st elapsed
  = OK ({| V7.current_phase := 8; V7.phase := Some 7%Z;
           V7.oldheading := heading |},
        {| arg_lat := apt_lat (DST_APT r); arg_lon := apt_lon (DST_APT r);
           arg_heading := heading; arg_phase := 8; arg_elapsed := elapsed |}).
Proof.
  intros He Hpos. unfold interpolated in Hpos.
  apply fraction_ge_1 in He. destruct pos as [clat clon].
  unfold V7.main_iteration. rewrite phase_scan_table, Hpos. simpl.
  destruct (Rge_dec (fraction elapsed) 1) as [_ | Hn];
    [reflexivity | exfalso; exact (Hn He)].
Qed.

Lemma V6_iteration_terminal (r : Route) (cp cp' : Z) (e : R) (a : SendArgs) :
  V6.main_iteration r cp e = OK (cp', a) -> terminal_call r a.
Proof.
  intros H He.
  destruct (V6_iteration_phase r cp cp' e a H) as (_ & _ & Hel).
  rewrite Hel in He.
  destruct (interpolated r e) as [pos | ex] eqn:Hi.
  - rewrite (V6_terminal_iteration r cp e pos (ltac:(lra)) Hi) in H.
    inversion H; subst. simpl. auto.
  - unfold V6.main_iteration in H. rewrite phase_scan_table in H.
    unfold interpolated in Hi. rewrite Hi in H. discriminate H.
Qed.

Lemma V7_iteration_terminal (r : Route) (st st' : V7.LoopState) (e : R)
      (a : SendArgs) :
  V7.main_iteration r st e = OK (st', a) -> terminal_call r a.
Proof.
  intros H He.
  destruct (V7_iteration_phase r st st' e a H) as (_ & _ & Hel).
  rewrite Hel in He.
  destruct (interpolated r e) as [pos | ex] eqn:Hi.
  - rewrite (V7_terminal_iteration r st e pos (ltac:(lra)) Hi) in H.
    inversion H; subst. simpl. auto.
  - unfold V7.main_iteration in H. rewrite phase_scan_table in H.
    unfold interpolated in Hi. rewrite Hi in H. discriminate H.
Qed.

Lemma V6_loop_terminal (r : Route) (ticks : list (R * V6.Clock)) (cp : Z) :
  Forall (fun s => terminal_call r (fst s)) (V6.main_loop r cp ticks).
Proof.
  revert cp. induction ticks as [| [e clk] ticks IH]; intros cp; simpl.
  - constructor.
  - destruct (V6.main_iteration r cp e) as [[cp' a] | ex] eqn:Hit;
      [| constructor].
    destruct (V6.send_data_packet _ _ _ _ _ r clk) as [pkt | ex];
      [| constructor].
    constructor; [| apply IH].
    simpl. eapply V6_iteration_terminal. exact Hit.
Qed.

Lemma V7_loop_terminal (r : Route) (ticks : list (R * V7.Clock))
      (st : V7.LoopState) :
  Forall (fun s => terminal_call r (fst s)) (V7.main_loop r st ticks).
Proof.
  revert st. induction ticks as [| [e clk] ticks IH]; intros st; simpl.
  - constructor.
  - destruct (V7.main_iteration r st e) as [[st' a] | ex] eqn:Hit;
      [| constructor].
    destruct (V7.send_data_packet _ _ _ _ _ r clk) as [pkt | ex];
      [| constructor].
    constructor; [| apply IH].
    simpl. eapply V7_iteration_terminal. exact Hit.
Qed.

(** C2.  In either revision, every call sent by the loop of [main] with
    [elapsed > 600] has phase 8 and the destination's own coordinates as
    its position; and an iteration with [elapsed > 600] whose interpolation
    does not raise does make such a call. *)
Theorem terminal_phase_and_position (r : Route) :
  (forall ticks, Forall (fun s => terminal_call r (fst s)) (V6.main r ticks))
  /\
  (forall ticks, Forall (fun s => terminal_call r (fst s)) (V7.main r ticks))
  /\
  (forall elapsed pos,
      elapsed > 600 -> interpolated r elapsed = OK pos ->
      (forall cp, exists heading,
          V6.main_iteration r cp elapsed
          = OK (8%Z,
                {| arg_lat := apt_lat (DST_APT r);
                   arg_lon := apt_lon (DST_APT r);
                   arg_heading := heading; arg_phase := 8;
                   arg_elapsed := elapsed |}))
      /\
      (forall st, exists heading st',
          V7.main_iteration r st elapsed
          = OK (st',
                {| arg_lat := apt_lat (DST_APT r);
                   arg_lon := apt_lon (DST_APT r);
                   arg_heading := heading; arg_phase := 8;
                   arg_elapsed := elapsed |})
          /\ V7.current_phase st' = 8%Z)).
Proof.
  split; [| split].
  - intros ticks. apply V6_loop_terminal.
  - intros ticks. apply V7_loop_terminal.
  - intros elapsed pos He Hpos.
    assert (elapsed >= 600) as He' by lra.
    split.
    + intros cp. eexists.
      apply (V6_terminal_iteration r cp elapsed pos He' Hpos).
    + intros st. eexists. eexists. split.
      * apply (V7_terminal_iteration r st elapsed pos He' Hpos).
      * reflexivity.
Qed.

(** ** The tailwind field *)

Lemma cos_lower_quadratic (a : R) : -2 <= a <= 2 -> 1 - a * a / 2 <= cos a.
Proof.
  intros [H0 H2].
  destruct (pre_cos_bound a 0 H0 H2) as [Hlo _].
  unfold cos_approx, cos_term in Hlo. simpl in Hlo.
  lra.
Qed.

Lemma cos_PI_18_bounds : 38 <= 39 * cos (PI / 18) < 39.
Proof.
  pose proof PI_RGT_0 as Hpos. pose proof PI_4 as H4.
  split.
  - pose proof (cos_lower_quadratic (PI / 18)) as H.
    assert (-2 <= PI / 18 <= 2) as Hr by lra.
    specialize (H Hr). nra.
  - assert (cos (PI / 18) < cos 0) as H.
    { apply cos_decreasing_1; lra. }
    rewrite cos_0 in H. lra.
Qed.

(** C10.  The tailwind component does not depend on the heading: the wind
    direction is [heading + 10], the angle difference is always -10 degrees
    and the field is always 38. *)
Theorem tailwind_constant (heading : Z) :
  wind_angle_diff heading = (-10)%Z /\ tailwind heading = 38%Z.
Proof.
  assert (wind_angle_diff heading = (-10)%Z) as Hd.
  { unfold wind_angle_diff, wind_direction. lia. }
  split; [exact Hd |].
  unfold tailwind. rewrite Hd. unfold head_wind, radians.
  replace (IZR (-10) * (PI / 180)) with (- (PI / 18)) by lra.
  rewrite cos_neg.
  apply py_int_nonneg_eq; [| lia].
  pose proof cos_PI_18_bounds. simpl. lra.
Qed.

(** ** Bytes and integers *)

Lemma Z_of_byte_range (b : byte) : (0 <= Z_of_byte b <= 255)%Z.
Proof.
  unfold Z_of_byte. pose proof (Byte.to_N_bounded b). lia.
Qed.

Lemma byte_of_Z_of_byte (b : byte) : byte_of_Z (Z_of_byte b) = b.
Proof.
  unfold byte_of_Z, Z_of_byte. rewrite N2Z.id, Byte.of_to_N. reflexivity.
Qed.

Lemma Z_of_byte_of_ascii (c : ascii) :
  Z_of_byte (byte_of_ascii c) = Z.of_N (N_of_ascii c).
Proof.
  unfold Z_of_byte. f_equal. apply Byte.to_of_N.
  symmetry. apply byte_of_ascii_via_N.
Qed.

Lemma to_bytes_be_length (n : nat) (z : Z) : List.length (to_bytes_be n z) = n.
Proof. induction n as [| n IH]; simpl; [reflexivity | rewrite IH; reflexivity]. Qed.

(** The four digits of a 32-bit value are the four bytes it was read from. *)
Lemma to_bytes_be_4 (b0 b1 b2 b3 : byte) (z : Z) :
  (z mod 4294967296
   = ((Z_of_byte b0 * 256 + Z_of_byte b1) * 256 + Z_of_byte b2) * 256
     + Z_of_byte b3)%Z ->
  to_bytes_be 4 z = [b0; b1; b2; b3].
Proof.
  intros Hz.
  pose proof (Z_of_byte_range b0). pose proof (Z_of_byte_range b1).
  pose proof (Z_of_byte_range b2). pose proof (Z_of_byte_range b3).
  unfold to_bytes_be.
  change (256 ^ Z.of_nat 3)%Z with 16777216%Z.
  change (256 ^ Z.of_nat 2)%Z with 65536%Z.
  change (256 ^ Z.of_nat 1)%Z with 256%Z.
  change (256 ^ Z.of_nat 0)%Z with 1%Z.
  assert ((z / 16777216) mod 256 = Z_of_byte b0)%Z as -> by
      (revert Hz; Z.div_mod_to_equations; lia).
  assert ((z / 65536) mod 256 = Z_of_byte b1)%Z as -> by
      (revert Hz; Z.div_mod_to_equations; lia).
  assert ((z / 256) mod 256 = Z_of_byte b2)%Z as -> by
      (revert Hz; Z.div_mod_to_equations; lia).
  assert ((z / 1) mod 256 = Z_of_byte b3)%Z as -> by
      (revert Hz; Z.div_mod_to_equations; lia).
  rewrite !byte_of_Z_of_byte. reflexivity.
Qed.

Lemma from_bytes_be_4 (b0 b1 b2 b3 : byte) :
  from_bytes_be [b0; b1; b2; b3]
  = (((Z_of_byte b0 * 256 + Z_of_byte b1) * 256 + Z_of_byte b2) * 256
     + Z_of_byte b3)%Z.
Proof. unfold from_bytes_be. simpl. lia. Qed.

(** Reading one 32-bit integer from four bytes and writing it back with the
    same format gives the four bytes, in both byte orders and for both the
    signed and the unsigned code. *)
Lemma unpack_pack_4 (o : byte_order) (c : fmt_code) (b0 b1 b2 b3 : byte) :
  c = fmt_i \/ c = fmt_I ->
  exists n, struct_unpack1 o c [b0; b1; b2; b3] = OK n
            /\ struct_pack (o, [c]) [PyInt n] = OK [b0; b1; b2; b3].
Proof.
  intros Hc.
  pose proof (Z_of_byte_range b0). pose proof (Z_of_byte_range b1).
  pose proof (Z_of_byte_range b2). pose proof (Z_of_byte_range b3).
  assert (forall n a0 a1 a2 a3,
             (n mod 4294967296
              = ((Z_of_byte a0 * 256 + Z_of_byte a1) * 256 + Z_of_byte a2)
                * 256 + Z_of_byte a3)%Z ->
             fits c n = true ->
             in_order o [a0; a1; a2; a3] = [b0; b1; b2; b3] ->
             struct_pack (o, [c]) [PyInt n] = OK [b0; b1; b2; b3]) as Hpack.
  { intros n a0 a1 a2 a3 Hn Hfit Hord.
    unfold struct_pack, pack_all, pack_one. simpl fst; simpl snd.
    destruct Hc as [-> | ->]; rewrite Hfit; simpl code_size;
      rewrite (to_bytes_be_4 a0 a1 a2 a3 n Hn), Hord; reflexivity. }
  unfold struct_unpack1.
  assert ((List.length [b0; b1; b2; b3] =? code_size c)%nat = true) as ->
      by (destruct Hc as [-> | ->]; reflexivity).
  simpl negb. cbv iota.
  destruct o; simpl in_order; rewrite from_bytes_be_4;
    destruct Hc as [-> | ->];
    try match goal with
        | |- context [(?u <? 2147483648)%Z] =>
            destruct (Z.ltb_spec u 2147483648)
        end;
    eexists; (split; [reflexivity |]);
    (eapply Hpack; [| | reflexivity]);
    try (unfold fits; lia);
    try (rewrite Z.mod_small by lia; reflexivity);
    try (rewrite <- (Z.mod_add _ 1) by lia; rewrite Z.mod_small by lia; lia).
Qed.

(** ** Strings *)

Lemma length_list_ascii_of_string (s : string) :
  List.length (list_ascii_of_string s) = String.length s.
Proof. induction s as [| c s IH]; simpl; [reflexivity | rewrite IH; reflexivity]. Qed.

Lemma list_ascii_ljust (s : string) (w : nat) :
  list_ascii_of_string (str_ljust s w)
  = list_ascii_of_string s ++ repeat " "%char (w - String.length s).
Proof. unfold str_ljust. apply list_ascii_of_string_of_list_ascii. Qed.

Lemma length_ljust (s : string) (w : nat) :
  (String.length s <= w)%nat -> String.length (str_ljust s w) = w.
Proof.
  intros H. rewrite <- length_list_ascii_of_string, list_ascii_ljust.
  rewrite length_app, repeat_length, length_list_ascii_of_string. lia.
Qed.

Lemma is_ascii_ljust (s : string) (w : nat) :
  is_ascii_str s -> is_ascii_str (str_ljust s w).
Proof.
  unfold is_ascii_str. intros H. rewrite list_ascii_ljust, forallb_app, H.
  simpl. induction (w - String.length s)%nat as [| k IH]; simpl;
    [reflexivity | exact IH].
Qed.

Lemma str_prefix_all (n : nat) (s : string) :
  (String.length s <= n)%nat -> str_prefix n s = s.
Proof.
  intros H. unfold str_prefix. rewrite firstn_all2.
  - apply string_of_list_ascii_of_string.
  - rewrite length_list_ascii_of_string. exact H.
Qed.

Lemma lstrip_list_length (l : list ascii) :
  (List.length (lstrip_list l) <= List.length l)%nat.
Proof.
  induction l as [| c l IH]; simpl; [lia |].
  destruct (isspace c); simpl; lia.
Qed.

Lemma lstrip_list_ascii (l : list ascii) :
  forallb is_ascii l = true -> forallb is_ascii (lstrip_list l) = true.
Proof.
  induction l as [| c l IH]; simpl; [auto |].
  intros H. apply andb_prop in H. destruct H as [Hc Hl].
  destruct (isspace c); [auto | simpl; rewrite Hc, Hl; reflexivity].
Qed.

Lemma forallb_rev {A : Type} (f : A -> bool) (l : list A) :
  forallb f (rev l) = forallb f l.
Proof.
  induction l as [| x l IH]; simpl; [reflexivity |].
  rewrite forallb_app, IH. simpl. rewrite andb_true_r. apply andb_comm.
Qed.

Lemma strip_length (s : string) :
  (String.length (str_strip s) <= String.length s)%nat.
Proof.
  unfold str_strip.
  rewrite <- !length_list_ascii_of_string, list_ascii_of_string_of_list_ascii.
  rewrite length_rev.
  etransitivity; [apply lstrip_list_length |].
  rewrite length_rev. apply lstrip_list_length.
Qed.

Lemma strip_ascii (s : string) : is_ascii_str s -> is_ascii_str (str_strip s).
Proof.
  unfold is_ascii_str, str_strip. intros H.
  rewrite list_ascii_of_string_of_list_ascii, forallb_rev.
  apply lstrip_list_ascii. rewrite forallb_rev.
  apply lstrip_list_ascii. exact H.
Qed.

Lemma upper_char_ascii (c : ascii) :
  is_ascii c = true ->
  exists c', upper_char c = [c'] /\ is_ascii c' = true.
Proof.
  unfold is_ascii, upper_char. intros H. apply N.ltb_lt in H.
  destruct ((97 <=? N_of_ascii c) && (N_of_ascii c <=? 122))%N eqn:Hl.
  - eexists; split; [reflexivity |].
    apply andb_prop in Hl. destruct Hl as [H1 H2].
    apply N.leb_le in H1, H2.
    apply N.ltb_lt. rewrite N_ascii_embedding; lia.
  - destruct (N.eqb_spec (N_of_ascii c) 223) as [E | _]; [lia |].
    exists c; split; [reflexivity | apply N.ltb_lt; exact H].
Qed.

Lemma upper_list_ascii (l : list ascii) :
  forallb is_ascii l = true ->
  forallb is_ascii (flat_map upper_char l) = true
  /\ List.length (flat_map upper_char l) = List.length l.
Proof.
  induction l as [| c l IH]; simpl; [auto |].
  intros H. apply andb_prop in H. destruct H as [Hc Hl].
  destruct (upper_char_ascii c Hc) as (c' & -> & Hc').
  destruct (IH Hl) as [IH1 IH2]. simpl. rewrite Hc', IH1, IH2. auto.
Qed.

Lemma upper_ascii (s : string) :
  is_ascii_str s ->
  is_ascii_str (str_upper s)
  /\ String.length (str_upper s) = String.length s.
Proof.
  unfold is_ascii_str, str_upper. intros H.
  destruct (upper_list_ascii _ H) as [H1 H2].
  rewrite <- !length_list_ascii_of_string, list_ascii_of_string_of_list_ascii.
  auto.
Qed.

Lemma decode_encode_ascii (l : list ascii) :
  forallb is_ascii l = true ->
  bytes_decode_ascii (map byte_of_ascii l) = OK (string_of_list_ascii l).
Proof.
  intros H. unfold bytes_decode_ascii.
  rewrite map_map.
  rewrite (map_ext _ (fun x => x)) by (intros; apply ascii_of_byte_of_ascii).
  rewrite map_id, H. reflexivity.
Qed.

(** A four-character ASCII string survives the integer slot, in either
    byte order and with either 32-bit code. *)
Lemma slot_round_trip (o : byte_order) (c : fmt_code) (s : string) :
  c = fmt_i \/ c = fmt_I ->
  is_ascii_str s -> String.length s = 4%nat ->
  exists n,
    (do b <- str_encode_ascii s; struct_unpack1 o c b) = OK n
    /\ (do b <- struct_pack (o, [c]) [PyInt n]; bytes_decode_ascii b) = OK s.
Proof.
  intros Hc Has Hlen.
  unfold is_ascii_str in Has. unfold str_encode_ascii. rewrite Has.
  rewrite <- length_list_ascii_of_string in Hlen.
  assert (s = string_of_list_ascii (list_ascii_of_string s)) as Hs
      by (symmetry; apply string_of_list_ascii_of_string).
  remember (list_ascii_of_string s) as l eqn:Hl. clear Hl. subst s.
  destruct l as [| a0 [| a1 [| a2 [| a3 [| a4 l]]]]];
    try discriminate Hlen.
  simpl map. simpl bind.
  destruct (unpack_pack_4 o c (byte_of_ascii a0) (byte_of_ascii a1)
                          (byte_of_ascii a2) (byte_of_ascii a3) Hc)
    as (n & Hu & Hp).
  exists n. split; [exact Hu |].
  rewrite Hp. simpl bind.
  apply (decode_encode_ascii [a0; a1; a2; a3]). exact Has.
Qed.

(** C8 fails as stated for revision 7, which strips and upper-cases the
    code before it pads it: a lower-case code does not come back. *)
Lemma round_trip_fails_v7_lower_case :
  is_ascii_str "jfk" /\ (String.length "jfk" <= 4)%nat
  /\ ~ spec_round_trip V7.encode_airport V7.decode_airport "jfk".
Proof.
  split; [reflexivity |]. split; [simpl; lia |].
  intros (n & Henc & Hdec).
  vm_compute in Henc. inversion Henc; subst n.
  vm_compute in Hdec. discriminate Hdec.
Qed.

(** C8, amended.  For an ASCII code of at most four characters the slot
    decodes to the padded code in revision 6, and to the padded stripped
    and upper-cased code in revision 7; so to the padded code itself when
    stripping and upper-casing leave the code as it is. *)
Theorem airport_code_round_trip (code : string) :
  is_ascii_str code -> (String.length code <= 4)%nat ->
  spec_round_trip V6.encode_airport V6.decode_airport code
  /\ (exists n, V7.encode_airport code = OK n
                /\ V7.decode_airport n
                   = OK (str_ljust (str_upper (str_strip code)) 4))
  /\ (str_upper (str_strip code) = code ->
      spec_round_trip V7.encode_airport V7.decode_airport code).
Proof.
  intros Has Hlen.
  assert (exists n, V7.encode_airport code = OK n
                    /\ V7.decode_airport n
                       = OK (str_ljust (str_upper (str_strip code)) 4)) as H7.
  { unfold V7.encode_airport, V7.decode_airport.
    pose proof (strip_ascii code Has) as Hs.
    pose proof (strip_length code) as Hsl.
    destruct (upper_ascii _ Hs) as [Hu Hul].
    assert (String.length (str_upper (str_strip code)) <= 4)%nat as Hl4 by lia.
    rewrite str_prefix_all by (rewrite length_ljust; [lia | exact Hl4]).
    apply (slot_round_trip little_endian fmt_I).
    - right; reflexivity.
    - apply is_ascii_ljust. exact Hu.
    - apply length_ljust. exact Hl4. }
  split; [| split].
  - unfold spec_round_trip, V6.encode_airport, V6.decode_airport.
    rewrite (str_prefix_all 4 code Hlen).
    apply (slot_round_trip big_endian fmt_i).
    + left; reflexivity.
    + apply is_ascii_ljust. exact Has.
    + apply length_ljust. exact Hlen.
  - exact H7.
  - intros Hnorm. unfold spec_round_trip. rewrite Hnorm in H7. exact H7.
Qed.

Lemma airport_code_round_trip_witness :
  spec_round_trip V6.encode_airport V6.decode_airport "ORD"
  /\ (exists n, V7.encode_airport "ORD" = OK n
                /\ V7.decode_airport n
                   = OK (str_ljust (str_upper (str_strip "ORD")) 4))
  /\ (str_upper (str_strip "ORD") = "ORD"%string ->
      spec_round_trip V7.encode_airport V7.decode_airport "ORD").
Proof.
  apply (airport_code_round_trip "ORD").
  - reflexivity.
  - simpl. lia.
Defined.

(** ** Trigonometry of the navigation model *)

Lemma degrees_radians (a : R) : degrees (radians a) = a.
Proof. unfold degrees, radians. pose proof PI_neq0. field. assumption. Qed.

Lemma radians_degrees (a : R) : radians (degrees a) = a.
Proof. unfold degrees, radians. pose proof PI_neq0. field. assumption. Qed.

Lemma radians_range (a lo hi : R) :
  lo <= a <= hi -> lo * (PI / 180) <= radians a <= hi * (PI / 180).
Proof.
  intros [H1 H2]. unfold radians. pose proof PI_RGT_0. split; nra.
Qed.

(** [atan2] recovers the angle of a point given in polar form. *)
Lemma atan2_polar (c b : R) :
  0 < c -> - PI < b <= PI -> atan2 (c * sin b) (c * cos b) = b.
Proof.
  intros Hc [Hlo Hhi]. pose proof PI_RGT_0 as Hpi.
  assert (forall s t, t <> 0 -> c * s / (c * t) = s / t) as Hq
      by (intros; field; split; [assumption | lra]).
  unfold atan2.
  destruct (Rlt_le_dec b (- (PI / 2))) as [H1 | H1].
  - (* third quadrant *)
    assert (cos b < 0) as Hcos.
    { rewrite <- cos_neg. apply cos_lt_0; lra. }
    assert (sin b < 0) as Hsin by (apply sin_lt_0_var; lra).
    destruct (Rlt_dec 0 (c * cos b)); [exfalso; nra |].
    destruct (Rlt_dec (c * cos b) 0); [| exfalso; nra].
    destruct (Rle_dec 0 (c * sin b)); [exfalso; nra |].
    rewrite Hq by lra.
    replace (sin b / cos b) with (tan (b + PI)).
    + rewrite atan_tan; lra.
    + unfold tan. rewrite neg_sin, neg_cos. field. lra.
  - destruct (Req_dec_T b (- (PI / 2))) as [E | E].
    + subst b. rewrite cos_neg, sin_neg, cos_PI2, sin_PI2.
      repeat match goal with
             | |- context [Rlt_dec ?u ?v] => destruct (Rlt_dec u v)
             end; try reflexivity; exfalso; lra.
    + destruct (Rlt_le_dec b (PI / 2)) as [H2 | H2].
      * (* right half plane *)
        assert (0 < cos b) as Hcos by (apply cos_gt_0; lra).
        destruct (Rlt_dec 0 (c * cos b)); [| exfalso; nra].
        rewrite Hq by lra. apply atan_tan. lra.
      * destruct (Req_dec_T b (PI / 2)) as [E2 | E2].
        -- subst b. rewrite cos_PI2, sin_PI2.
           repeat match goal with
                  | |- context [Rlt_dec ?u ?v] => destruct (Rlt_dec u v)
                  end; try reflexivity; exfalso; lra.
        -- (* second quadrant *)
           assert (cos b < 0) as Hcos by (apply cos_lt_0; lra).
           assert (0 <= sin b) as Hsin by (apply sin_ge_0; lra).
           destruct (Rlt_dec 0 (c * cos b)); [exfalso; nra |].
           destruct (Rlt_dec (c * cos b) 0); [| exfalso; nra].
           destruct (Rle_dec 0 (c * sin b)); [| exfalso; nra].
           rewrite Hq by lra.
           assert (sin (b - PI) = - sin b) as Es.
           { pose proof (neg_sin (b - PI)) as Ens.
             replace (b - PI + PI) with b in Ens by lra. lra. }
           assert (cos (b - PI) = - cos b) as Ec.
           { pose proof (neg_cos (b - PI)) as Enc.
             replace (b - PI + PI) with b in Enc by lra. lra. }
           replace (sin b / cos b) with (tan (b - PI)).
           ++ rewrite atan_tan; lra.
           ++ unfold tan. rewrite Es, Ec. field. lra.
Qed.

(** The range of [atan2], and of its values in the right half plane. *)
Lemma atan_sign (x : R) : (x <= 0 -> atan x <= 0) /\ (0 < x -> 0 < atan x).
Proof.
  split; intros H.
  - destruct H as [H | ->]; [| rewrite atan_0; lra].
    pose proof (atan_increasing _ _ H) as Hi. rewrite atan_0 in Hi. lra.
  - pose proof (atan_increasing _ _ H) as Hi. rewrite atan_0 in Hi. exact Hi.
Qed.

Lemma atan2_range (y x : R) : - PI <= atan2 y x <= PI.
Proof.
  pose proof PI_RGT_0 as Hpi. unfold atan2.
  pose proof (atan_bound (y / x)) as [Ha Hb].
  destruct (atan_sign (y / x)) as [Hneg Hpos].
  destruct (Rlt_dec 0 x) as [Hx | Hx]; [lra |].
  destruct (Rlt_dec x 0) as [Hx' | Hx'].
  - assert (/ x < 0) as Hix by (apply Rinv_lt_0_compat; exact Hx').
    destruct (Rle_dec 0 y) as [Hy | Hy].
    + assert (y / x <= 0) as Hq by (unfold Rdiv; nra).
      specialize (Hneg Hq). lra.
    + assert (0 < y / x) as Hq by (unfold Rdiv; nra).
      specialize (Hpos Hq). lra.
  - destruct (Rlt_dec 0 y); [lra |]. destruct (Rlt_dec y 0); lra.
Qed.

Lemma atan2_right_half (y x : R) :
  0 <= x -> - (PI / 2) <= atan2 y x <= PI / 2.
Proof.
  intros Hx. pose proof PI_RGT_0 as Hpi. unfold atan2.
  pose proof (atan_bound (y / x)) as [Ha Hb].
  destruct (Rlt_dec 0 x); [lra |].
  destruct (Rlt_dec x 0); [exfalso; lra |].
  destruct (Rlt_dec 0 y); [lra |]. destruct (Rlt_dec y 0); lra.
Qed.

Lemma degrees_range (a lo hi : R) :
  lo * (PI / 180) <= a <= hi * (PI / 180) -> lo <= degrees a <= hi.
Proof.
  intros [H1 H2]. pose proof PI_RGT_0 as Hpi.
  rewrite <- (degrees_radians lo), <- (degrees_radians hi).
  unfold degrees, radians.
  assert (0 < 180 / PI) as Hk
      by (apply Rdiv_lt_0_compat; lra).
  split; apply Rmult_le_compat_r; lra.
Qed.

(** The point of the unit sphere at a latitude and longitude, and back. *)
Lemma unit_vector_back (lat lon : R) :
  -90 < lat < 90 -> -180 < lon <= 180 ->
  let x := cos (radians lat) * cos (radians lon) in
  let y := cos (radians lat) * sin (radians lon) in
  let z := sin (radians lat) in
  py_sqrt (x * x + y * y) = OK (cos (radians lat))
  /\ degrees (atan2 z (cos (radians lat))) = lat
  /\ degrees (atan2 y x) = lon.
Proof.
  intros Hlat Hlon x y z. subst x y z.
  pose proof PI_RGT_0 as Hpi.
  pose proof (radians_range lat (-90) 90 (ltac:(lra))) as Hr1.
  pose proof (radians_range lon (-180) 180 (ltac:(lra))) as Hr2.
  assert (- (PI / 2) < radians lat < PI / 2) as Hrl
      by (unfold radians in *; split; nra).
  assert (- PI < radians lon <= PI) as Hrn
      by (unfold radians in *; split; nra).
  assert (0 < cos (radians lat)) as Hc by (apply cos_gt_0; lra).
  pose proof (sin2_cos2 (radians lon)) as Hsc. unfold Rsqr in Hsc.
  split; [| split].
  - unfold py_sqrt.
    match goal with
    | |- context [Rlt_dec ?a 0] =>
        replace a with (cos (radians lat) * cos (radians lat)) by nra
    end.
    destruct (Rlt_dec (cos (radians lat) * cos (radians lat)) 0);
      [exfalso; nra |].
    rewrite sqrt_square by lra. reflexivity.
  - rewrite <- (Rmult_1_l (sin (radians lat))).
    rewrite <- (Rmult_1_l (cos (radians lat))).
    rewrite atan2_polar by lra. apply degrees_radians.
  - rewrite atan2_polar by lra. apply degrees_radians.
Qed.

(** Identical end points have central angle zero, in exact arithmetic. *)
Lemma central_angle_same (lat lon : R) : central_angle lat lon lat lon = 0.
Proof.
  unfold central_angle.
  pose proof (sin2_cos2 (radians lon)) as H1.
  pose proof (sin2_cos2 (radians lat)) as H2. unfold Rsqr in *.
  match goal with
  | |- acos (Rmax (Rmin ?d 1) (-1)) = 0 => assert (d = 1) as -> by nra
  end.
  rewrite Rmin_left by lra. rewrite Rmax_left by lra. apply acos_1.
Qed.

(** In exact arithmetic the guarded branch returns the point itself. *)
Lemma interpolate_same_point_exact (lat lon fraction : R) :
  interpolate_great_circle lat lon lat lon fraction = OK (lat, lon).
Proof.
  unfold interpolate_great_circle. rewrite central_angle_same.
  destruct (Req_dec_T 0 0) as [_ | H]; [reflexivity | exfalso; lra].
Qed.

(** C7, at a failing input.  In exact arithmetic identical end points have
    central angle 0, the guard is taken and the point is returned as it
    is, whatever the fraction.  The program tests a rounded angle.  For
    p = (40.6413, -73.7781) the dot product of the unit vector of p with
    itself rounds to 1 - 2^-52, below 1; [math.acos] of it is 2.1e-8, not
    0; the guard is not taken and the two quotients are computed, with
    the non-zero denominator [sin(omega)]; at fraction 0.5 the position
    returned has the longitude of p and, as its latitude, the binary64
    number next above 40.6413. *)
Theorem identical_end_points_in_binary64 :
  (forall lat lon fraction : R,
      interpolate_great_circle lat lon lat lon fraction = OK (lat, lon))
  /\ B64.central_dot B64.glibc B64.JFK_lat B64.JFK_lon B64.JFK_lat B64.JFK_lon
     = B64.JFK_dot
  /\ PrimFloat.ltb B64.JFK_dot B64.one = true
  /\ B64.central_angle B64.glibc B64.JFK_lat B64.JFK_lon
                       B64.JFK_lat B64.JFK_lon
     = B64.JFK_omega
  /\ PrimFloat.eqb B64.JFK_omega B64.zero = false
  /\ PrimFloat.eqb (B64.m_sin B64.glibc B64.JFK_omega) B64.zero = false
  /\ B64.py_div (B64.m_sin B64.glibc (PrimFloat.mul B64.half B64.JFK_omega))
                (B64.m_sin B64.glibc B64.JFK_omega)
     = OK B64.half
  /\ B64.interpolate_great_circle B64.glibc B64.JFK_lat B64.JFK_lon
                                  B64.JFK_lat B64.JFK_lon B64.half
     = OK (B64.JFK_lat_above, B64.JFK_lon)
  /\ PrimFloat.ltb B64.JFK_lat B64.JFK_lat_above = true.
Proof.
  split; [exact interpolate_same_point_exact |].
  repeat split; vm_compute; reflexivity.
Qed.

(** ** End points of the interpolation *)

Lemma py_div_self (a : R) : a <> 0 -> py_div a a = OK 1.
Proof.
  intros H. unfold py_div. destruct (Req_dec_T a 0); [contradiction |].
  f_equal. field. exact H.
Qed.

Lemma py_div_zero (a : R) : a <> 0 -> py_div 0 a = OK 0.
Proof.
  intros H. unfold py_div. destruct (Req_dec_T a 0); [contradiction |].
  f_equal. field. exact H.
Qed.

Lemma interpolate_at_0 (lat1 lon1 lat2 lon2 : R) :
  -90 < lat1 < 90 -> -180 < lon1 <= 180 ->
  sin (central_angle lat1 lon1 lat2 lon2) <> 0 ->
  interpolate_great_circle lat1 lon1 lat2 lon2 0 = OK (lat1, lon1).
Proof.
  intros Hlat Hlon Hs.
  destruct (unit_vector_back lat1 lon1 Hlat Hlon) as (Hr & Hla & Hlo).
  unfold interpolate_great_circle.
  set (omega := central_angle lat1 lon1 lat2 lon2) in *.
  destruct (Req_dec_T omega 0) as [_ | Hw]; [reflexivity |].
  replace ((1 - 0) * omega) with omega by lra.
  replace (0 * omega) with 0 by lra.
  rewrite sin_0, (py_div_self _ Hs), (py_div_zero _ Hs). simpl bind.
  rewrite !Rmult_1_l, !Rmult_0_l, !Rplus_0_r.
  rewrite Hr. simpl bind. rewrite Hla, Hlo. reflexivity.
Qed.

Lemma interpolate_at_1 (lat1 lon1 lat2 lon2 : R) :
  -90 < lat2 < 90 -> -180 < lon2 <= 180 ->
  sin (central_angle lat1 lon1 lat2 lon2) <> 0 ->
  interpolate_great_circle lat1 lon1 lat2 lon2 1 = OK (lat2, lon2).
Proof.
  intros Hlat Hlon Hs.
  destruct (unit_vector_back lat2 lon2 Hlat Hlon) as (Hr & Hla & Hlo).
  unfold interpolate_great_circle.
  set (omega := central_angle lat1 lon1 lat2 lon2) in *.
  destruct (Req_dec_T omega 0) as [Hw | Hw].
  { exfalso. apply Hs. rewrite Hw. apply sin_0. }
  replace ((1 - 1) * omega) with 0 by lra.
  replace (1 * omega) with omega by lra.
  rewrite sin_0, (py_div_self _ Hs), (py_div_zero _ Hs). simpl bind.
  rewrite !Rmult_1_l, !Rmult_0_l, !Rplus_0_l.
  rewrite Hr. simpl bind. rewrite Hla, Hlo. reflexivity.
Qed.

Lemma radians_0 : radians 0 = 0.
Proof. unfold radians. lra. Qed.

Lemma radians_90 : radians 90 = PI / 2.
Proof. unfold radians. lra. Qed.

Lemma radians_45 : radians 45 = PI / 4.
Proof. unfold radians. lra. Qed.

Lemma central_angle_equator_quarter : central_angle 0 0 0 90 = PI / 2.
Proof.
  unfold central_angle.
  rewrite radians_0, radians_90, cos_0, sin_0, cos_PI2, sin_PI2.
  match goal with
  | |- acos (Rmax (Rmin ?d 1) (-1)) = _ => replace d with 0 by lra
  end.
  rewrite Rmin_left by lra. rewrite Rmax_left by lra. apply acos_0.
Qed.


Lemma central_angle_bound (lat1 lon1 lat2 lon2 : R) :
  0 <= central_angle lat1 lon1 lat2 lon2 <= PI.
Proof. unfold central_angle. apply acos_bound. Qed.

Lemma central_angle_sin (lat1 lon1 lat2 lon2 : R) :
  central_angle lat1 lon1 lat2 lon2 <> 0 ->
  central_angle lat1 lon1 lat2 lon2 <> PI ->
  sin (central_angle lat1 lon1 lat2 lon2) <> 0.
Proof.
  intros H0 H1. pose proof (central_angle_bound lat1 lon1 lat2 lon2) as Hb.
  assert (0 < sin (central_angle lat1 lon1 lat2 lon2))
    by (apply sin_gt_0; lra).
  lra.
Qed.














(** At a pole two coordinate pairs name one point: (90, 0) and (90, 50)
    have central angle zero, so the guarded branch returns the first pair
    at fraction 1, with the longitude of the first pair and not of the
    second. *)
Lemma pole_pairs_take_the_guard :
  (90, 0) <> (90, 50)
  /\ interpolate_great_circle 90 0 90 50 1 = OK (90, 0)
  /\ ~ close_to 1 (90, 0) (90, 50).
Proof.
  split; [| split].
  - intros H. inversion H. lra.
  - unfold interpolate_great_circle.
    assert (central_angle 90 0 90 50 = 0) as ->.
    { unfold central_angle. rewrite radians_90, cos_PI2, sin_PI2.
      match goal with
      | |- acos (Rmax (Rmin ?d 1) (-1)) = 0 => replace d with 1 by lra
      end.
      rewrite Rmin_left by lra. rewrite Rmax_left by lra. apply acos_1. }
    destruct (Req_dec_T 0 0) as [_ | H]; [reflexivity | exfalso; lra].
  - unfold close_to, fst, snd. intros [_ H].
    unfold Rabs in H. destruct (Rcase_abs (0 - 50)); lra.
Qed.



(** Antipodal end points are outside the theorem: in exact arithmetic
    [sin PI] is 0 and the quotient raises.  In binary64 [math.sin] of the
    rounded [PI] is 1.2e-16, and the program returns the end points: from
    (0, 0) to (0, 180) it gives (0, 0) at fraction 0 and (0, 180) at
    fraction 1. *)
Example B64_antipodal_end_points :
  B64.interpolate_great_circle B64.glibc B64.zero B64.zero B64.zero
                               B64.lon_180 B64.zero
  = OK (B64.zero, B64.zero)
  /\ B64.interpolate_great_circle B64.glibc B64.zero B64.zero B64.zero
                                  B64.lon_180 B64.one
     = OK (B64.zero, B64.lon_180).
Proof. split; vm_compute; reflexivity. Qed.

(** ** A route along the equator, and the loop on it *)

Lemma fraction_650 : fraction 650 = 1.
Proof.
  unfold fraction, TOTAL_FLIGHT_SECONDS. apply Rmin_right. lra.
Qed.

Lemma fraction_300 : fraction 300 = 1 / 2.
Proof.
  unfold fraction, TOTAL_FLIGHT_SECONDS. rewrite Rmin_left; lra.
Qed.

Lemma interpolated_equator_650 : interpolated equator_route 650 = OK (0, 90).
Proof.
  unfold interpolated. simpl. rewrite fraction_650.
  apply interpolate_at_1; try lra.
  rewrite central_angle_equator_quarter, sin_PI2. lra.
Qed.

Lemma sin_PI4_sqr : sin (PI / 4) * sin (PI / 4) = 1 / 2.
Proof.
  rewrite sin_PI4. pose proof (sqrt_sqrt 2 (ltac:(lra))) as H.
  pose proof sqrt2_neq_0. field_simplify; [| assumption].
  replace (sqrt 2 ^ 2) with (sqrt 2 * sqrt 2) by ring. rewrite H. lra.
Qed.

Lemma sin_PI4_pos : 0 < sin (PI / 4).
Proof. pose proof PI_RGT_0. apply sin_gt_0; lra. Qed.

(** On the equator route the haversine term is 1 / 2. *)
Lemma haversine_term_equator : haversine_term 0 0 0 90 = 1 / 2.
Proof.
  unfold haversine_term.
  replace (radians (0 - 0) / 2) with 0 by (unfold radians; lra).
  replace (radians (90 - 0) / 2) with (PI / 4) by (unfold radians; lra).
  rewrite radians_0, sin_0, cos_0.
  pose proof sin_PI4_sqr as H. nra.
Qed.

Lemma clear_equator_route : clear_route equator_route.
Proof.
  unfold clear_route, clear_of_antipodes. simpl.
  rewrite haversine_term_equator. lra.
Qed.

Lemma interpolated_equator_300 : interpolated equator_route 300 = OK (0, 45).
Proof.
  unfold interpolated. simpl. rewrite fraction_300.
  unfold interpolate_great_circle.
  rewrite central_angle_equator_quarter.
  pose proof PI_RGT_0 as Hpi.
  destruct (Req_dec_T (PI / 2) 0) as [E | _]; [exfalso; lra |].
  replace ((1 - 1 / 2) * (PI / 2)) with (PI / 4) by lra.
  replace (1 / 2 * (PI / 2)) with (PI / 4) by lra.
  rewrite sin_PI2. unfold py_div.
  destruct (Req_dec_T 1 0) as [E | _]; [exfalso; lra |].
  simpl bind.
  rewrite radians_0, radians_90, cos_0, sin_0, cos_PI2, sin_PI2.
  pose proof sin_PI4_sqr as Hsq. pose proof sin_PI4_pos as Hpos.
  set (s := sin (PI / 4)) in *.
  replace (s / 1 * (1 * 1) + s / 1 * (1 * 0)) with s by lra.
  replace (s / 1 * (1 * 0) + s / 1 * (1 * 1)) with s by lra.
  replace (s / 1 * 0 + s / 1 * 0) with 0 by lra.
  unfold py_sqrt. replace (s * s + s * s) with 1 by lra.
  destruct (Rlt_dec 1 0) as [E | _]; [exfalso; lra |].
  simpl bind. rewrite sqrt_1.
  unfold atan2.
  destruct (Rlt_dec 0 1) as [_ | E]; [| exfalso; lra].
  destruct (Rlt_dec 0 s) as [_ | E]; [| exfalso; lra].
  replace (0 / 1) with 0 by lra. replace (s / s) with 1 by (field; lra).
  rewrite atan_0, atan_1. unfold degrees.
  f_equal. f_equal; field; lra.
Qed.

Lemma py_int_fmod_heading (d : R) (z : Z) :
  d = IZR z -> (0 <= z < 360)%Z -> py_int (py_fmod (d + 360) 360) = z.
Proof.
  intros -> Hz.
  assert (0 <= IZR z < 360) as Hr
      by (split; [apply IZR_le | apply IZR_lt]; lia).
  rewrite (py_fmod_shift _ _ 1) by lra.
  replace (IZR z + 360 - 360 * 1) with (IZR z) by lra.
  apply py_int_IZR.
Qed.

(** The bearing from a point to itself is [0]. *)
Lemma compute_heading_same (lat lon : R) : compute_heading lat lon lat lon = 0%Z.
Proof.
  unfold compute_heading.
  replace (lon - lon) with 0 by lra.
  rewrite radians_0, sin_0, cos_0.
  match goal with
  | |- context [atan2 ?x ?y] =>
      replace x with 0 by lra; replace y with 0 by lra
  end.
  unfold atan2.
  destruct (Rlt_dec 0 0) as [E | _]; [exfalso; lra |].
  apply py_int_fmod_heading; [| lia].
  unfold degrees. lra.
Qed.

Lemma compute_heading_equator_east : compute_heading 0 45 0 90 = 90%Z.
Proof.
  unfold compute_heading.
  replace (90 - 45) with 45 by lra.
  rewrite radians_0, radians_45, sin_0, cos_0.
  pose proof sin_PI4_pos as Hpos.
  match goal with
  | |- context [atan2 ?x ?y] =>
      replace x with (sin (PI / 4)) by lra; replace y with 0 by lra
  end.
  unfold atan2.
  destruct (Rlt_dec 0 0) as [E | _]; [exfalso; lra |].
  destruct (Rlt_dec 0 (sin (PI / 4))) as [_ | E]; [| exfalso; lra].
  apply py_int_fmod_heading; [| lia].
  unfold degrees. pose proof PI_neq0. field. assumption.
Qed.

Lemma terminal_phase_and_position_witness :
  650 > 600
  /\ interpolated equator_route 650 = OK (0, 90)
  /\ (exists heading,
         V6.main_iteration equator_route 1 650
         = OK (8%Z, {| arg_lat := 0; arg_lon := 90; arg_heading := heading;
                       arg_phase := 8; arg_elapsed := 650 |}))
  /\ (exists heading st',
         V7.main_iteration equator_route V7.initial_state 650
         = OK (st', {| arg_lat := 0; arg_lon := 90; arg_heading := heading;
                       arg_phase := 8; arg_elapsed := 650 |})
         /\ V7.current_phase st' = 8%Z).
Proof.
  assert (650 > 600) as H1 by lra.
  pose proof interpolated_equator_650 as H2.
  destruct (terminal_phase_and_position equator_route) as (_ & _ & H).
  destruct (H 650 (0, 90) H1 H2) as [H6 H7].
  split; [exact H1 |]. split; [exact H2 |]. split.
  - exact (H6 1%Z).
  - exact (H7 V7.initial_state).
Defined.

(** In revision 7 the [else] branch that would hold the heading is never
    taken: the test reads the variable of the [for] loop, which is 7 after
    the loop, so the iteration does not depend on [oldheading]. *)
Lemma V7_iteration_ignores_oldheading (r : Route) (cp : Z) (ph : option Z)
      (h1 h2 : Z) (elapsed : R) :
  V7.main_iteration r {| V7.current_phase := cp; V7.phase := ph;
                         V7.oldheading := h1 |} elapsed
  = V7.main_iteration r {| V7.current_phase := cp; V7.phase := ph;
                           V7.oldheading := h2 |} elapsed.
Proof.
  unfold V7.main_iteration. rewrite !phase_scan_table. simpl.
  destruct (interpolate_great_circle _ _ _ _ _) as [[clat clon] | e];
    reflexivity.
Qed.

(** ** [struct.pack]: when it succeeds and how long its result is *)

Lemma pack_one_accepts (o : byte_order) (c : fmt_code) (v : py_val) :
  accepts c v = true ->
  exists b, pack_one o c v = OK b /\ List.length b = code_size c.
Proof.
  destruct c, v; simpl; intros H; try discriminate H;
    try (rewrite H; eexists; split; [reflexivity |];
         destruct o; simpl; reflexivity).
  eexists; split; [reflexivity |].
  rewrite length_app, length_firstn, repeat_length. lia.
Qed.

Lemma pack_one_rejects (o : byte_order) (c : fmt_code) (v : py_val) :
  accepts c v = false -> pack_one o c v = Raise StructError.
Proof.
  destruct c, v; simpl; intros H; try discriminate H;
    try (rewrite H; reflexivity); reflexivity.
Qed.

Lemma pack_all_accepts (o : byte_order) (cs : list fmt_code)
      (vs : list py_val) :
  Forall2 (fun c v => accepts c v = true) cs vs ->
  exists b, pack_all o cs vs = OK b
            /\ List.length b = calcsize (o, cs).
Proof.
  induction 1 as [| c v cs vs Hcv _ IH]; simpl.
  - exists []. split; reflexivity.
  - destruct (pack_one_accepts o c v Hcv) as (b1 & -> & Hl1).
    destruct IH as (b2 & -> & Hl2). simpl.
    eexists; split; [reflexivity |].
    rewrite length_app, Hl1, Hl2. reflexivity.
Qed.

Lemma pack_all_length (o : byte_order) (cs : list fmt_code)
      (vs : list py_val) (b : list byte) :
  pack_all o cs vs = OK b -> List.length b = calcsize (o, cs).
Proof.
  revert vs b. induction cs as [| c cs IH]; intros [| v vs] b H; simpl in H;
    try discriminate H.
  - inversion H. reflexivity.
  - inv_bind H. inv_bind H. inversion H; subst b.
    destruct (accepts c v) eqn:Ha.
    + destruct (pack_one_accepts o c v Ha) as (b1 & Hb1 & Hl1).
      rewrite Hb1 in Hv. inversion Hv; subst v0.
      rewrite length_app, Hl1, (IH _ _ Hv0). reflexivity.
    + rewrite (pack_one_rejects o c v Ha) in Hv. discriminate Hv.
Qed.


Lemma accepts_ints (zs : list Z) :
  Forall int32 zs ->
  Forall2 (fun c v => accepts c v = true)
          (repeat fmt_i (List.length zs)) (map PyInt zs).
Proof.
  induction 1 as [| z zs Hz _ IH]; simpl; constructor; [| exact IH].
  unfold int32 in Hz. unfold fits.
  apply andb_true_intro. split; apply Z.leb_le; lia.
Qed.

Lemma int32_py_int (x : R) :
  -2147483648 <= x <= 2147483647 -> int32 (py_int x).
Proof.
  intros H. unfold int32. apply py_int_range; [lia | exact H].
Qed.

(** Four ASCII bytes read as one integer, in either order, fit a signed
    32-bit slot. *)
Lemma unpack_ascii_int32 (o : byte_order) (c : fmt_code) (s : string) :
  c = fmt_i \/ c = fmt_I ->
  is_ascii_str s -> String.length s = 4%nat ->
  exists n, (do b <- str_encode_ascii s; struct_unpack1 o c b) = OK n
            /\ int32 n.
Proof.
  intros Hc Has Hlen.
  unfold is_ascii_str in Has. unfold str_encode_ascii. rewrite Has.
  rewrite <- length_list_ascii_of_string in Hlen.
  destruct (list_ascii_of_string s) as [| a0 [| a1 [| a2 [| a3 [| a4 l]]]]];
    try discriminate Hlen.
  simpl in Has.
  repeat match goal with
         | H : (_ && _)%bool = true |- _ =>
             apply andb_prop in H; destruct H
         end.
  unfold is_ascii in *.
  repeat match goal with
         | H : (_ <? _)%N = true |- _ => apply N.ltb_lt in H
         end.
  simpl map. simpl bind. unfold struct_unpack1.
  assert ((List.length [byte_of_ascii a0; byte_of_ascii a1; byte_of_ascii a2;
                        byte_of_ascii a3] =? code_size c)%nat = true) as ->
      by (destruct Hc as [-> | ->]; reflexivity).
  simpl negb. cbv iota.
  destruct o; simpl in_order; rewrite from_bytes_be_4;
    rewrite !Z_of_byte_of_ascii;
    destruct Hc as [-> | ->];
    try match goal with
        | |- context [(?u <? 2147483648)%Z] =>
            destruct (Z.ltb_spec u 2147483648)
        end;
    eexists; (split; [reflexivity |]); unfold int32; lia.
Qed.

(** ** Ranges of the derived values *)

Lemma fraction_le_1 (e : R) : fraction e <= 1.
Proof. unfold fraction. apply Rmin_r. Qed.

Lemma fraction_nonneg (e : R) : 0 <= e -> 0 <= fraction e.
Proof.
  intros H. unfold fraction, TOTAL_FLIGHT_SECONDS.
  apply Rmin_glb; lra.
Qed.

Lemma altitude_bound (e : R) : -35000 <= altitude e <= 35000.
Proof.
  unfold altitude. destruct (Rlt_dec (fraction e) 1); [| lra].
  pose proof (SIN_bound (PI * fraction e)). lra.
Qed.

Lemma vertical_speed_rate_bound (e : R) :
  -3000 <= vertical_speed_rate e <= 3000.
Proof.
  unfold vertical_speed_rate. destruct (Rlt_dec (fraction e) 1); [| lra].
  pose proof (COS_bound (PI * fraction e)). lra.
Qed.

Lemma true_airspeed_bound (e : R) : 360 <= true_airspeed e <= 450.
Proof.
  unfold true_airspeed.
  pose proof (Rabs_pos (cos (PI * fraction e))) as H0.
  assert (Rabs (cos (PI * fraction e)) <= 1) as H1.
  { apply Rabs_le. apply COS_bound. }
  lra.
Qed.

Lemma div_bound (a b A B : R) :
  0 <= a <= A -> 0 < B <= b -> 0 <= a / b <= A / B.
Proof.
  intros [Ha0 HaA] [HB Hb].
  assert (0 < / b) as Hib by (apply Rinv_0_lt_compat; lra).
  assert (/ b <= / B) as Hle by (apply Rinv_le_contravar; lra).
  assert (0 < / B) as HiB by (apply Rinv_0_lt_compat; lra).
  unfold Rdiv. split; nra.
Qed.

Lemma py_sqrt_nonneg (x : R) : 0 <= x -> py_sqrt x = OK (sqrt x).
Proof.
  intros H. unfold py_sqrt. destruct (Rlt_dec x 0); [exfalso; lra | reflexivity].
Qed.

Lemma sqrt_ge_1 (x : R) : 1 <= x -> 1 <= sqrt x.
Proof. intros H. rewrite <- sqrt_1. apply sqrt_le_1_alt. exact H. Qed.

Lemma cos_radians_nonneg (lat : R) : -90 <= lat <= 90 -> 0 <= cos (radians lat).
Proof.
  intros H. pose proof PI_RGT_0.
  pose proof (radians_range lat (-90) 90 H) as [H1 H2].
  apply cos_ge_0; lra.
Qed.

(** The haversine term lies in [[0, 1]] for latitudes within range, so
    neither square root raises. *)
Lemma haversine_term_range (u v w : R) :
  0 <= cos u -> 0 <= cos v ->
  0 <= sin ((v - u) / 2) * sin ((v - u) / 2)
       + cos u * cos v * sin w * sin w <= 1.
Proof.
  intros Hu Hv.
  pose proof (cos_2a_sin ((v - u) / 2)) as Hh.
  replace (2 * ((v - u) / 2)) with (v - u) in Hh by lra.
  rewrite cos_minus in Hh.
  pose proof (cos_plus u v) as Hp.
  pose proof (COS_bound (u + v)) as [_ Hb1].
  pose proof (COS_bound (v - u)) as [_ Hb2].
  rewrite cos_minus in Hb2.
  pose proof (sin2_cos2 w) as Hw. unfold Rsqr in Hw.
  assert (0 <= sin w * sin w <= 1) as Hq by nra.
  assert (0 <= cos u * cos v) as Hc by nra.
  split; nra.
Qed.

Lemma haversine_ok (lat1 lon1 lat2 lon2 : R) :
  -90 <= lat1 <= 90 -> -90 <= lat2 <= 90 ->
  exists d, haversine_distance lat1 lon1 lat2 lon2 = OK d
            /\ -42000 <= d <= 42000.
Proof.
  intros H1 H2. unfold haversine_distance.
  pose proof (haversine_term_range (radians lat1) (radians lat2)
                (radians (lon2 - lon1) / 2)
                (cos_radians_nonneg _ H1) (cos_radians_nonneg _ H2)) as Ha.
  replace (radians (lat2 - lat1)) with (radians lat2 - radians lat1)
    by (unfold radians; lra).
  match goal with
  | |- context [py_sqrt ?a] =>
      match type of Ha with
      | 0 <= ?a' <= 1 => replace a with a' by lra
      end
  end.
  destruct Ha as [Ha0 Ha1].
  rewrite py_sqrt_nonneg by exact Ha0. simpl bind.
  rewrite py_sqrt_nonneg by lra. simpl bind.
  eexists. split; [reflexivity |].
  match goal with
  | |- context [atan2 ?y ?x] => pose proof (atan2_range y x) as Hb
  end.
  pose proof PI_RGT_0. pose proof PI_4. lra.
Qed.

Lemma scaled_coordinate_int32 (x : R) :
  -180 <= x <= 180 -> int32 (py_int (x * LAT_LON_SCALE_FACTOR)).
Proof.
  intros H. apply int32_py_int. unfold LAT_LON_SCALE_FACTOR. lra.
Qed.

Lemma ground_speed_int32 (e : R) : int32 (ground_speed e).
Proof.
  apply int32_py_int. pose proof (true_airspeed_bound e). lra.
Qed.

Lemma true_airspeed_int32 (e : R) : int32 (py_int (true_airspeed e)).
Proof.
  apply int32_py_int. pose proof (true_airspeed_bound e). lra.
Qed.

Lemma altitude_int32 (e : R) : int32 (py_int (altitude e)).
Proof. apply int32_py_int. pose proof (altitude_bound e). lra. Qed.

Lemma altitude_scaled_int32 (e : R) : int32 (altitude_scaled e).
Proof. apply int32_py_int. pose proof (altitude_bound e). lra. Qed.

Lemma vertical_speed_range (e : R) : (-3000 <= vertical_speed e <= 3000)%Z.
Proof.
  apply py_int_range; [lia |]. apply vertical_speed_rate_bound.
Qed.

Lemma vertical_speed_int32 (e : R) : int32 (vertical_speed e).
Proof. pose proof (vertical_speed_range e). unfold int32. lia. Qed.

Lemma vertical_speed_scaled_int32 (e : R) : int32 (vertical_speed_scaled e).
Proof.
  pose proof (vertical_speed_range e). unfold int32, vertical_speed_scaled. lia.
Qed.

Lemma distance_to_destination_int32 (total e : R) :
  -42000 <= total <= 42000 -> 0 <= e ->
  int32 (distance_to_destination total e).
Proof.
  intros Ht He. apply int32_py_int. unfold dist_traveled.
  pose proof (fraction_le_1 e). pose proof (fraction_nonneg e He). nra.
Qed.

Lemma dist_traveled_int32 (total e : R) :
  -42000 <= total <= 42000 -> 0 <= e ->
  int32 (py_int (dist_traveled total e)).
Proof.
  intros Ht He. apply int32_py_int. unfold dist_traveled.
  pose proof (fraction_le_1 e). pose proof (fraction_nonneg e He). nra.
Qed.

Lemma dist_traveled_scaled_int32 (total e : R) :
  -42000 <= total <= 42000 -> 0 <= e ->
  int32 (py_int (dist_traveled total e * 100)).
Proof.
  intros Ht He. apply int32_py_int. unfold dist_traveled.
  pose proof (fraction_le_1 e). pose proof (fraction_nonneg e He). nra.
Qed.

Lemma tailwind_int32 (heading : Z) : int32 (tailwind heading).
Proof.
  apply int32_py_int. unfold head_wind.
  pose proof (COS_bound (radians (IZR (wind_angle_diff heading)))). lra.
Qed.

Lemma takeoff_pitch_int32 (e : R) :
  0 <= e -> int32 (py_int (5 + 5 * Rmin e 30 / 30)).
Proof.
  intros He. apply int32_py_int.
  pose proof (Rmin_r e 30). assert (0 <= Rmin e 30) by (apply Rmin_glb; lra).
  lra.
Qed.

Lemma roll_int32 (e : R) : int32 (py_int (5 * sin (e / 10))).
Proof. apply int32_py_int. pose proof (SIN_bound (e / 10)). lra. Qed.

(** ** Well-formed inputs *)

Lemma is_ascii_prefix (n : nat) (s : string) :
  is_ascii_str s -> is_ascii_str (str_prefix n s).
Proof.
  unfold is_ascii_str, str_prefix. intros H.
  rewrite list_ascii_of_string_of_list_ascii.
  revert n. induction (list_ascii_of_string s) as [| c l IH]; intros [| n];
    simpl; try reflexivity.
  simpl in H. apply andb_prop in H. destruct H as [Hc Hl].
  rewrite Hc, (IH Hl). reflexivity.
Qed.

Lemma length_prefix (n : nat) (s : string) :
  (String.length (str_prefix n s) <= n)%nat.
Proof.
  unfold str_prefix.
  rewrite <- length_list_ascii_of_string, list_ascii_of_string_of_list_ascii.
  apply firstn_le_length.
Qed.

Lemma V6_encode_airport_ok (code : string) :
  is_ascii_str code -> exists n, V6.encode_airport code = OK n /\ int32 n.
Proof.
  intros H. unfold V6.encode_airport.
  apply unpack_ascii_int32.
  - left; reflexivity.
  - apply is_ascii_ljust, is_ascii_prefix, H.
  - apply length_ljust, length_prefix.
Qed.

Lemma V7_encode_airport_ok (code : string) :
  is_ascii_str code -> exists n, V7.encode_airport code = OK n /\ int32 n.
Proof.
  intros H. unfold V7.encode_airport.
  pose proof (strip_ascii code H) as Hs.
  destruct (upper_ascii _ Hs) as [Hu _].
  set (s := str_upper (str_strip code)) in *.
  apply unpack_ascii_int32.
  - right; reflexivity.
  - apply is_ascii_prefix, is_ascii_ljust, Hu.
  - destruct (Nat.le_gt_cases (String.length s) 4) as [Hle | Hgt].
    + rewrite str_prefix_all by (rewrite length_ljust; [lia | exact Hle]).
      apply length_ljust. exact Hle.
    + unfold str_prefix, str_ljust.
      rewrite <- length_list_ascii_of_string.
      rewrite !list_ascii_of_string_of_list_ascii.
      rewrite length_firstn, length_app, repeat_length.
      rewrite length_list_ascii_of_string. lia.
Qed.

(** *** Revision 6 *)

Lemma V6_temperature_bound (e : R) : 60 <= V6.temperature e <= 516.
Proof. unfold V6.temperature. pose proof (altitude_bound e). lra. Qed.

Lemma V6_mach_ok (e : R) : exists m, V6.mach e = OK m /\ int32 m.
Proof.
  unfold V6.mach, V6.speed_of_sound.
  pose proof (V6_temperature_bound e) as Ht.
  rewrite py_sqrt_nonneg by lra. simpl bind.
  pose proof (sqrt_ge_1 (V6.temperature e) (ltac:(lra))) as Hs.
  set (s := sqrt (V6.temperature e)) in *.
  destruct (Req_dec_T (20.05 * s * 1.944) 0) as [E | _].
  - exists 0%Z. split; [reflexivity | unfold int32; lia].
  - eexists. split; [reflexivity |].
    apply int32_py_int.
    pose proof (true_airspeed_bound e) as [Hl Hh].
    pose proof (div_bound (true_airspeed e) (20.05 * s * 1.944) 450 38
                          (ltac:(lra)) (ltac:(lra))) as Hd.
    lra.
Qed.

Lemma V6_remaining_time_bound (e : R) :
  0 <= e -> 0 <= V6.remaining_time e <= 600.
Proof.
  intros He. unfold V6.remaining_time, TOTAL_FLIGHT_SECONDS.
  split; [apply Rmax_r | apply Rmax_lub; lra].
Qed.

Lemma lor_bound (a b : Z) :
  (0 <= a)%Z -> (0 <= b)%Z -> (0 <= Z.lor a b <= a + b)%Z.
Proof.
  intros Ha Hb.
  pose proof (Z.add_lor_land a b) as E.
  assert (0 <= Z.land a b)%Z by (apply Z.land_nonneg; left; exact Ha).
  assert (0 <= Z.lor a b)%Z by (apply Z.lor_nonneg; split; assumption).
  lia.
Qed.

Lemma V6_date_enc_int32 (clk : V6.Clock) :
  V6_wf_clock clk -> int32 (V6.date_enc clk).
Proof.
  intros (_ & _ & Hy & Hm & Hd). unfold V6.date_enc.
  rewrite !Z.shiftl_mul_pow2 by lia.
  change (2 ^ 16)%Z with 65536%Z. change (2 ^ 8)%Z with 256%Z.
  pose proof (lor_bound (V6.tm_year clk * 65536) (V6.tm_mon clk * 256)
                        (ltac:(lia)) (ltac:(lia))) as H1.
  pose proof (lor_bound (Z.lor (V6.tm_year clk * 65536)
                               (V6.tm_mon clk * 256))
                        (V6.tm_mday clk) (ltac:(lia)) (ltac:(lia))) as H2.
  unfold int32. lia.
Qed.

Lemma V6_pitch_roll_int32 (phase : Z) (e : R) :
  0 <= e ->
  int32 (fst (V6.pitch_roll phase e)) /\ int32 (snd (V6.pitch_roll phase e)).
Proof.
  intros He. unfold V6.pitch_roll.
  repeat match goal with
         | |- context [(phase =? ?k)%Z] => destruct (phase =? k)%Z
         end; simpl; split;
    try (unfold int32; lia);
    try apply takeoff_pitch_int32; try apply roll_int32; exact He.
Qed.

Ltac split_all := repeat match goal with |- _ /\ _ => split end.

Lemma V6_fields_ok (lat lon : R) (heading phase : Z) (e : R) (r : Route)
      (clk : V6.Clock) :
  wf_call lat lon heading phase e -> wf_route r -> V6_wf_clock clk ->
  exists ints,
    V6.all_42_integers lat lon heading phase e r clk = OK ints
    /\ Forall int32 ints /\ List.length ints = 42%nat.
Proof.
  intros (Hlat & Hlon & Hh & Hp & He0 & He1)
         (Hdep & Hdst & (Hdlat & Hdlon & Hdg & Hdi)
          & (Hslat & Hslon & Hsg & Hsi))
         Hclk.
  pose proof Hclk as (Ht1 & Ht2 & _).
  unfold V6.all_42_integers.
  destruct (V6_mach_ok e) as (m & -> & Hm). simpl bind.
  unfold total_dist_nm.
  destruct (haversine_ok (apt_lat (DEP_APT r)) (apt_lon (DEP_APT r))
                         (apt_lat (DST_APT r)) (apt_lon (DST_APT r))
                         Hdlat Hslat) as (d & -> & Hd).
  simpl bind.
  destruct (V6_encode_airport_ok _ Hdep) as (n1 & -> & Hn1). simpl bind.
  destruct (V6_encode_airport_ok _ Hdi) as (n2 & -> & Hn2). simpl bind.
  destruct (V6_encode_airport_ok _ Hdst) as (n3 & -> & Hn3). simpl bind.
  destruct (V6_encode_airport_ok _ Hsi) as (n4 & -> & Hn4). simpl bind.
  pose proof (V6_pitch_roll_int32 phase e He0) as [Hpi Hro].
  destruct (V6.pitch_roll phase e) as [pitch roll]. simpl in Hpi, Hro.
  eexists. split; [reflexivity |]. split; [| reflexivity].
  pose proof (V6_temperature_bound e) as Htemp.
  pose proof (V6_remaining_time_bound e He0) as Hrem.
  assert (int32 (py_int (V6.remaining_time e))) as Hrem32
      by (apply int32_py_int; lra).
  repeat (apply Forall_cons || apply Forall_nil);
    try assumption;
    try (unfold int32, FPA, head_wind; lia);
    try (apply scaled_coordinate_int32; lra);
    try apply ground_speed_int32;
    try apply true_airspeed_int32;
    try (apply distance_to_destination_int32; assumption);
    try apply altitude_scaled_int32;
    try apply vertical_speed_scaled_int32;
    try apply vertical_speed_int32;
    try apply tailwind_int32;
    try (apply dist_traveled_scaled_int32; assumption);
    try (apply V6_date_enc_int32; assumption);
    try (apply int32_py_int; lra).
  unfold V6.estimated_arrival_time, V6.epoch_time.
  pose proof (py_int_range (V6.time_time_1 clk) 0 2000000000
                           (ltac:(lia)) (ltac:(simpl; lra))).
  pose proof (py_int_range (V6.remaining_time e) 0 600
                           (ltac:(lia)) (ltac:(simpl; lra))).
  unfold int32. lia.
Qed.


Lemma V6_send_ok (lat lon : R) (heading phase : Z) (e : R) (r : Route)
      (clk : V6.Clock) :
  wf_call lat lon heading phase e -> wf_route r -> V6_wf_clock clk ->
  exists packet,
    V6.send_data_packet lat lon heading phase e r clk = OK packet.
Proof.
  intros Hc Hr Hk.
  destruct (V6_fields_ok lat lon heading phase e r clk Hc Hr Hk)
    as (ints & Hints & H32 & Hlen).
  unfold V6.send_data_packet. rewrite Hints. cbn [bind].
  rewrite Hlen. cbn [Nat.eqb negb].
  assert (Forall2 (fun c v => accepts c v = true)
                  (snd V6.DATA_FULL_FORMAT)
                  ([PyInt MAGIC_ID; PyInt DATA_PACKET_TYPE]
                     ++ map PyInt ints ++ [PyBytes V6.flight_str])) as Hacc.
  { change (snd V6.DATA_FULL_FORMAT)
      with ([fmt_H; fmt_H] ++ repeat fmt_i 42 ++ [fmt_s 5]).
    apply Forall2_app; [repeat constructor |].
    apply Forall2_app; [| repeat constructor].
    rewrite <- Hlen. apply accepts_ints. exact H32. }
  destruct (pack_all_accepts big_endian _ _ Hacc) as (b & Hb & Hbl).
  unfold struct_pack. change (fst V6.DATA_FULL_FORMAT) with big_endian.
  rewrite Hb. cbn [bind].
  unfold V6.EXPECTED_PACKET_SIZE.
  change (calcsize V6.DATA_FULL_FORMAT)
    with (calcsize (big_endian, snd V6.DATA_FULL_FORMAT)).
  rewrite Hbl, Nat.eqb_refl. cbn [negb]. eexists. reflexivity.
Qed.

(** *** Revision 7 *)

Lemma Z_of_byte_of_Z (z : Z) : (0 <= z <= 255)%Z -> Z_of_byte (byte_of_Z z) = z.
Proof.
  intros Hz. unfold Z_of_byte, byte_of_Z.
  destruct (Byte.of_N (Z.to_N z)) as [b |] eqn:E.
  - apply Byte.to_of_N in E. rewrite E. lia.
  - apply Byte.of_N_None_iff in E. lia.
Qed.

Lemma mod_256_range (z : Z) : (0 <= z mod 256 <= 255)%Z.
Proof. pose proof (Z.mod_pos_bound z 256 (ltac:(lia))). lia. Qed.

(** The packed date is [year * 65536 + month * 256 + day]. *)
Lemma V7_date_enc_ok (clk : V7.Clock) :
  V7_wf_clock clk ->
  V7.date_enc clk
  = OK (V7.now_year clk * 65536 + V7.now_month clk * 256 + V7.now_day clk)%Z.
Proof.
  intros (Hy & Hm & Hd). unfold V7.date_enc, struct_pack.
  cbn [fst snd pack_all pack_one fits code_size].
  assert ((0 <=? V7.now_year clk)%Z && (V7.now_year clk <=? 65535)%Z = true)
    as -> by (apply andb_true_intro; split; apply Z.leb_le; lia).
  assert ((0 <=? V7.now_month clk)%Z && (V7.now_month clk <=? 255)%Z = true)
    as -> by (apply andb_true_intro; split; apply Z.leb_le; lia).
  assert ((0 <=? V7.now_day clk)%Z && (V7.now_day clk <=? 255)%Z = true)
    as -> by (apply andb_true_intro; split; apply Z.leb_le; lia).
  cbn [bind in_order to_bytes_be app].
  unfold struct_unpack1. cbn [List.length code_size Nat.eqb negb in_order].
  rewrite from_bytes_be_4.
  change (256 ^ Z.of_nat 1)%Z with 256%Z.
  change (256 ^ Z.of_nat 0)%Z with 1%Z.
  rewrite !Z_of_byte_of_Z by apply mod_256_range.
  f_equal. rewrite !Z.div_1_r.
  rewrite (Z.mod_small (V7.now_month clk)) by lia.
  rewrite (Z.mod_small (V7.now_day clk)) by lia.
  rewrite (Z.mod_small (V7.now_year clk / 256)) by
      (split; [apply Z.div_pos; lia | apply Z.div_lt_upper_bound; lia]).
  pose proof (Z.div_mod (V7.now_year clk) 256 (ltac:(lia))). lia.
Qed.

Lemma V7_mach_ok (e : R) : exists m, V7.mach e = OK m /\ int32 m.
Proof.
  unfold V7.mach, V7.speed_of_sound, V7.temperature.
  rewrite py_sqrt_nonneg by lra. cbn [bind].
  pose proof (sqrt_ge_1 5 (ltac:(lra))) as Hs.
  set (s := sqrt 5) in *.
  unfold py_div.
  destruct (Req_dec_T (20.05 * s * 1.944) 0) as [E | _]; [exfalso; lra |].
  cbn [bind]. eexists. split; [reflexivity |].
  apply int32_py_int.
  pose proof (true_airspeed_bound e) as [Hl Hh].
  pose proof (div_bound (true_airspeed e) (20.05 * s * 1.944) 450 38
                        (ltac:(lra)) (ltac:(lra))) as Hd.
  lra.
Qed.

Lemma V7_remaining_time_bound (e : R) :
  0 <= e -> 0 <= V7.remaining_time e <= 10.
Proof.
  intros He. unfold V7.remaining_time, TOTAL_FLIGHT_SECONDS.
  pose proof (Rmax_r (600 - e) 0).
  assert (Rmax (600 - e) 0 <= 600) by (apply Rmax_lub; lra).
  lra.
Qed.

Lemma V7_estimated_arrival_time_range (clk : V7.Clock) :
  (0 <= py_int (V7.estimated_arrival_time clk) <= 1439)%Z.
Proof.
  unfold V7.estimated_arrival_time.
  match goal with
  | |- context [py_fmod ?a 1440] =>
      pose proof (py_fmod_bound a 1440 (ltac:(lra))) as [H0 H1]
  end.
  destruct (py_int_between (py_fmod
              (V7.current_minutes_today clk
               + IZR TOTAL_FLIGHT_SECONDS / 60) 1440)) as [Hp _].
  specialize (Hp H0). destruct Hp as [Hp0 Hp1].
  split.
  - apply le_IZR. exact Hp0.
  - assert (py_int (py_fmod (V7.current_minutes_today clk
                             + IZR TOTAL_FLIGHT_SECONDS / 60) 1440) < 1440)%Z;
      [| lia].
    apply lt_IZR. lra.
Qed.

Lemma V7_pitch_roll_int32 (phase : Z) (e : R) :
  0 <= e ->
  int32 (fst (V7.pitch_roll phase e)) /\ int32 (snd (V7.pitch_roll phase e)).
Proof.
  intros He. unfold V7.pitch_roll.
  repeat match goal with
         | |- context [(phase =? ?k)%Z] => destruct (phase =? k)%Z
         end; simpl; split;
    try (unfold int32; lia);
    try apply takeoff_pitch_int32; exact He.
Qed.

(** The arguments of [struct.pack] in revision 7 fit their slots: field 20
    goes to the unsigned slot, the others to signed ones. *)
Lemma V7_fields_ok (lat lon : R) (heading phase : Z) (e : R) (r : Route)
      (clk : V7.Clock) :
  wf_call lat lon heading phase e -> wf_route r -> V7_wf_clock clk ->
  exists l1 d l2,
    V7.all_42_integers lat lon heading phase e r clk = OK (l1 ++ d :: l2)
    /\ Forall int32 l1 /\ List.length l1 = 20%nat
    /\ (0 <= d <= 4294967295)%Z
    /\ Forall int32 l2 /\ List.length l2 = 21%nat.
Proof.
  intros (Hlat & Hlon & Hh & Hp & He0 & He1)
         (Hdep & Hdst & (Hdlat & Hdlon & Hdg & Hdi)
          & (Hslat & Hslon & Hsg & Hsi))
         Hclk.
  unfold V7.all_42_integers.
  destruct (V7_mach_ok e) as (m & -> & Hm). cbn [bind].
  unfold total_dist_nm.
  destruct (haversine_ok (apt_lat (DEP_APT r)) (apt_lon (DEP_APT r))
                         (apt_lat (DST_APT r)) (apt_lon (DST_APT r))
                         Hdlat Hslat) as (d & -> & Hd).
  cbn [bind].
  rewrite (V7_date_enc_ok clk Hclk). cbn [bind].
  destruct (V7_encode_airport_ok _ Hdep) as (n1 & -> & Hn1). cbn [bind].
  destruct (V7_encode_airport_ok _ Hdi) as (n2 & -> & Hn2). cbn [bind].
  destruct (V7_encode_airport_ok _ Hdst) as (n3 & -> & Hn3). cbn [bind].
  destruct (V7_encode_airport_ok _ Hsi) as (n4 & -> & Hn4). cbn [bind].
  pose proof (V7_pitch_roll_int32 phase e He0) as [Hpi Hro].
  destruct (V7.pitch_roll phase e) as [pitch roll]. simpl in Hpi, Hro.
  pose proof (V7_remaining_time_bound e He0) as Hrem.
  pose proof (V7_estimated_arrival_time_range clk) as Heta.
  pose proof (Z.mod_pos_bound (V7.seconds_today clk) 86400 (ltac:(lia)))
    as Htime.
  destruct Hclk as (Hy & Hmo & Hda).
  match goal with
  | |- exists l1 d l2, OK (?a0 :: ?a1 :: ?a2 :: ?a3 :: ?a4 :: ?a5 :: ?a6
                             :: ?a7 :: ?a8 :: ?a9 :: ?a10 :: ?a11 :: ?a12
                             :: ?a13 :: ?a14 :: ?a15 :: ?a16 :: ?a17
                             :: ?a18 :: ?a19 :: ?dd :: ?rest) = _ /\ _ =>
      exists [a0; a1; a2; a3; a4; a5; a6; a7; a8; a9; a10; a11; a12; a13;
              a14; a15; a16; a17; a18; a19], dd, rest
  end.
  split; [reflexivity |].
  split_all; try reflexivity; try lia;
    repeat (apply Forall_cons || apply Forall_nil);
    try assumption;
    try (unfold int32, FPA, head_wind, V7.temperature, V7.acars_phase_id,
         V7.miqat_phase, V7.profile_mode, V7.time_enc; lia);
    try (apply scaled_coordinate_int32; lra);
    try apply ground_speed_int32;
    try apply true_airspeed_int32;
    try (apply distance_to_destination_int32; assumption);
    try (apply dist_traveled_int32; assumption);
    try apply altitude_int32;
    try apply altitude_scaled_int32;
    try apply vertical_speed_int32;
    try apply tailwind_int32;
    try (apply dist_traveled_scaled_int32; assumption);
    try (apply int32_py_int; lra).
Qed.


Lemma V7_send_ok (lat lon : R) (heading phase : Z) (e : R) (r : Route)
      (clk : V7.Clock) :
  wf_call lat lon heading phase e -> wf_route r -> V7_wf_clock clk ->
  exists packet,
    V7.send_data_packet lat lon heading phase e r clk = OK packet.
Proof.
  intros Hc Hr Hk.
  destruct (V7_fields_ok lat lon heading phase e r clk Hc Hr Hk)
    as (l1 & d & l2 & Hints & H1 & Hlen1 & Hd & H2 & Hlen2).
  unfold V7.send_data_packet. rewrite Hints. cbn [bind].
  assert (Forall2 (fun c v => accepts c v = true)
                  (snd V7.DATA_FULL_FORMAT)
                  ([PyInt MAGIC_ID; PyInt DATA_PACKET_TYPE]
                     ++ map PyInt (l1 ++ d :: l2))) as Hacc.
  { change (snd V7.DATA_FULL_FORMAT)
      with ([fmt_H; fmt_H] ++ repeat fmt_i 20 ++ [fmt_I] ++ repeat fmt_i 21).
    apply Forall2_app; [repeat constructor |].
    rewrite map_app. apply Forall2_app.
    - rewrite <- Hlen1. apply accepts_ints. exact H1.
    - cbn [map app]. constructor.
      + unfold accepts, fits. apply andb_true_intro.
        split; apply Z.leb_le; lia.
      + rewrite <- Hlen2. apply accepts_ints. exact H2. }
  destruct (pack_all_accepts big_endian _ _ Hacc) as (b & Hb & Hbl).
  unfold struct_pack. change (fst V7.DATA_FULL_FORMAT) with big_endian.
  rewrite Hb. cbn [bind].
  unfold V7.EXPECTED_PACKET_SIZE.
  change (calcsize V7.DATA_FULL_FORMAT)
    with (calcsize (big_endian, snd V7.DATA_FULL_FORMAT)).
  rewrite Hbl, Nat.eqb_refl. cbn [negb]. eexists. reflexivity.
Qed.

(** ** The packet encoder *)



Lemma wf_equator_route : wf_route equator_route.
Proof.
  unfold wf_route, wf_airport, equator_route, int32; simpl.
  split_all; try reflexivity; try lra; try lia.
Qed.

Lemma wf_V6_sample_clock : V6_wf_clock V6_sample_clock.
Proof.
  unfold V6_wf_clock, V6_sample_clock; simpl. split_all; try lra; try lia.
Qed.

Lemma wf_V7_sample_clock : V7_wf_clock V7_sample_clock.
Proof.
  unfold V7_wf_clock, V7_sample_clock; simpl. split_all; lia.
Qed.

Lemma wf_call_at_gate : wf_call 0 0 0 1 0.
Proof. unfold wf_call, int32. split_all; try lra; try lia. Qed.





(** ** The estimated-arrival-time field *)

(** What revision 7 computes: the departure minute enters scaled by 1.2. *)
Lemma V7_estimated_arrival_time_closed_form (clk : V7.Clock) :
  (0 <= V7.start_hour clk <= 23)%Z -> (0 <= V7.start_minute clk <= 59)%Z ->
  py_int (V7.estimated_arrival_time clk)
  = ((V7.start_hour clk * 60 + V7.start_minute clk + V7.start_minute clk / 5
      + TOTAL_FLIGHT_SECONDS / 60) mod 1440)%Z.
Proof.
  intros Hh Hm.
  unfold V7.estimated_arrival_time, V7.current_minutes_today,
    TOTAL_FLIGHT_SECONDS.
  set (h := V7.start_hour clk) in *. set (m := V7.start_minute clk) in *.
  change (600 / 60)%Z with 10%Z.
  pose proof (Z.div_mod m 5 (ltac:(lia))) as Hdm.
  pose proof (Z.mod_pos_bound m 5 (ltac:(lia))) as Hrm.
  set (q := (m / 5)%Z) in *. set (rm := (m mod 5)%Z) in *.
  set (N := (h * 60 + m + q + 10)%Z).
  assert (IZR (h * 60) + IZR m * 1.2 + 600 / 60 = IZR N + IZR rm / 5) as Hx.
  { unfold N. rewrite !plus_IZR, !mult_IZR.
    apply (f_equal IZR) in Hdm. rewrite plus_IZR, mult_IZR in Hdm. lra. }
  rewrite Hx.
  assert (0 <= IZR rm <= 4) as Hrr
      by (split; [apply (IZR_le 0) | apply (IZR_le _ 4)]; lia).
  assert (10 <= N <= 1460)%Z as HN by (unfold N; lia).
  destruct (Z_lt_le_dec N 1440) as [Hlt | Hge].
  - assert (IZR N <= 1439) as H1 by (apply (IZR_le _ 1439); lia).
    assert (10 <= IZR N) as H0 by (apply (IZR_le 10); lia).
    rewrite py_fmod_small by lra.
    rewrite Z.mod_small by lia.
    apply py_int_nonneg_eq; [lra | lia].
  - assert (1440 <= IZR N) as H0 by (apply (IZR_le 1440); lia).
    assert (IZR N <= 1460) as H1 by (apply (IZR_le _ 1460); lia).
    rewrite (py_fmod_shift _ _ 1) by lra.
    replace (N mod 1440)%Z with (N - 1440)%Z
      by (symmetry; rewrite <- (Z.mod_add _ (-1)) by lia;
          apply Z.mod_small; lia).
    apply py_int_nonneg_eq; [rewrite minus_IZR; lra | lia].
Qed.

Lemma V7_field_16 (lat lon : R) (heading phase : Z) (e : R) (r : Route)
      (clk : V7.Clock) (ints : list Z) :
  V7.all_42_integers lat lon heading phase e r clk = OK ints ->
  nth 16 ints 0%Z = py_int (V7.estimated_arrival_time clk).
Proof.
  unfold V7.all_42_integers. intros H.
  repeat inv_bind H.
  destruct (V7.pitch_roll phase e) as [pitch roll].
  inversion H. reflexivity.
Qed.

Lemma V6_field_16 (lat lon : R) (heading phase : Z) (e : R) (r : Route)
      (clk : V6.Clock) (ints : list Z) :
  V6.all_42_integers lat lon heading phase e r clk = OK ints ->
  nth 16 ints 0%Z = V6.estimated_arrival_time clk e.
Proof.
  unfold V6.all_42_integers. intros H.
  repeat inv_bind H.
  destruct (V6.pitch_roll phase e) as [pitch roll].
  inversion H. reflexivity.
Qed.

Lemma V7_fields_exist (lat lon : R) (heading phase : Z) (e : R) (r : Route)
      (clk : V7.Clock) :
  wf_call lat lon heading phase e -> wf_route r -> V7_wf_clock clk ->
  exists ints, V7.all_42_integers lat lon heading phase e r clk = OK ints.
Proof.
  intros Hc Hr Hk.
  destruct (V7_fields_ok lat lon heading phase e r clk Hc Hr Hk)
    as (l1 & d & l2 & H & _).
  eexists. exact H.
Qed.

(** With departure at 10:30 the field of revision 7 is 646, where the
    departure time plus the duration is (10 * 60 + 30 + 10) mod 1440 =
    640. *)
Lemma arrival_field_is_not_departure_plus_duration :
  exists ints,
    V7.all_42_integers 0 0 0 1 0 equator_route V7_sample_clock = OK ints
    /\ nth 16 ints 0%Z = 646%Z
    /\ spec_estimated_arrival_time (V7.start_hour V7_sample_clock)
                                   (V7.start_minute V7_sample_clock) = 640%Z
    /\ nth 16 ints 0%Z
       <> spec_estimated_arrival_time (V7.start_hour V7_sample_clock)
                                      (V7.start_minute V7_sample_clock).
Proof.
  destruct (V7_fields_exist 0 0 0 1 0 equator_route V7_sample_clock
                            wf_call_at_gate wf_equator_route
                            wf_V7_sample_clock) as (ints & H).
  exists ints. split; [exact H |].
  assert (nth 16 ints 0%Z = 646%Z) as E.
  { rewrite (V7_field_16 _ _ _ _ _ _ _ _ H).
    rewrite V7_estimated_arrival_time_closed_form by (simpl; lia).
    reflexivity. }
  split; [exact E |]. split; [reflexivity |].
  rewrite E. discriminate.
Qed.

(** C5, at a failing input.  In revision 7 the field is a minutes-of-day
    value, at least 0 and below 1440.  For a departure at [h]:[m] it is
    [(60 * h + m + m / 5 + 10) mod 1440], with the whole quotient [m / 5]:
    the program adds the departure minute scaled by 1.2.  The departure
    time plus the flight duration is [(60 * h + m + 10) mod 1440]; the
    field is that value when the departure minute is below 5 and differs
    from it for every other minute.  A departure at 10:30 gives 646, not
    640.  In revision 6 the field is the epoch second of the call plus the
    whole remaining seconds. *)
Theorem estimated_arrival_time_field :
  (forall lat lon heading phase elapsed r clk ints,
      V7.all_42_integers lat lon heading phase elapsed r clk = OK ints ->
      (0 <= nth 16 ints 0 < 1440)%Z
      /\ ((0 <= V7.start_hour clk <= 23)%Z ->
          (0 <= V7.start_minute clk <= 59)%Z ->
          nth 16 ints 0%Z
          = ((V7.start_hour clk * 60 + V7.start_minute clk
              + V7.start_minute clk / 5 + TOTAL_FLIGHT_SECONDS / 60)
               mod 1440)%Z
          /\ ((V7.start_minute clk < 5)%Z ->
              nth 16 ints 0%Z
              = spec_estimated_arrival_time (V7.start_hour clk)
                                            (V7.start_minute clk))
          /\ ((5 <= V7.start_minute clk)%Z ->
              nth 16 ints 0%Z
              <> spec_estimated_arrival_time (V7.start_hour clk)
                                             (V7.start_minute clk))))
  /\
  (forall lat lon heading phase elapsed r clk ints,
      V6.all_42_integers lat lon heading phase elapsed r clk = OK ints ->
      0 <= elapsed ->
      nth 16 ints 0%Z
      = (py_int (V6.time_time_1 clk)
         + py_int (Rmax (IZR TOTAL_FLIGHT_SECONDS - elapsed) 0))%Z
      /\ (py_int (V6.time_time_1 clk) <= nth 16 ints 0
          <= py_int (V6.time_time_1 clk) + 600)%Z).
Proof.
  split.
  - intros lat lon heading phase elapsed r clk ints H.
    rewrite (V7_field_16 _ _ _ _ _ _ _ _ H).
    split.
    + pose proof (V7_estimated_arrival_time_range clk). lia.
    + intros Hh Hm.
      rewrite (V7_estimated_arrival_time_closed_form clk Hh Hm).
      split; [reflexivity |].
      unfold spec_estimated_arrival_time, TOTAL_FLIGHT_SECONDS.
      change (600 / 60)%Z with 10%Z.
      set (h := V7.start_hour clk) in *. set (m := V7.start_minute clk) in *.
      split.
      * intros Hlt. rewrite (Z.div_small m 5) by lia. f_equal. lia.
      * intros Hge E.
        assert (1 <= m / 5 <= 11)%Z as Hq.
        { split; [apply Z.div_le_lower_bound; lia |].
          assert (m / 5 < 12)%Z by (apply Z.div_lt_upper_bound; lia).
          lia. }
        pose proof (Z.div_mod (h * 60 + m + m / 5 + 10) 1440
                              (ltac:(lia))) as H1.
        pose proof (Z.div_mod (h * 60 + m + 10) 1440 (ltac:(lia))) as H2.
        rewrite E in H1. lia.
  - intros lat lon heading phase elapsed r clk ints H He.
    rewrite (V6_field_16 _ _ _ _ _ _ _ _ H).
    unfold V6.estimated_arrival_time, V6.epoch_time.
    split; [reflexivity |].
    pose proof (V6_remaining_time_bound elapsed He) as Hr.
    pose proof (py_int_range (V6.remaining_time elapsed) 0 600
                             (ltac:(lia)) (ltac:(simpl; lra))).
    lia.
Qed.

Lemma wf_V7_late_clock : V7_wf_clock V7_late_clock.
Proof.
  unfold V7_wf_clock, V7_late_clock; simpl. split_all; lia.
Qed.

Lemma estimated_arrival_time_field_witness :
  exists ints ints',
    V7.all_42_integers 0 0 0 1 0 equator_route V7_sample_clock = OK ints
    /\ nth 16 ints 0%Z = 646%Z
    /\ nth 16 ints 0%Z <> spec_estimated_arrival_time 10 30
    /\ V7.all_42_integers 0 0 0 1 0 equator_route V7_late_clock = OK ints'
    /\ nth 16 ints' 0%Z = spec_estimated_arrival_time 23 2.
Proof.
  destruct (V7_fields_exist 0 0 0 1 0 equator_route V7_sample_clock
                            wf_call_at_gate wf_equator_route
                            wf_V7_sample_clock) as (ints & H).
  destruct (V7_fields_exist 0 0 0 1 0 equator_route V7_late_clock
                            wf_call_at_gate wf_equator_route
                            wf_V7_late_clock) as (ints' & H').
  exists ints, ints'.
  destruct estimated_arrival_time_field as [H7 _].
  destruct (H7 0 0 0%Z 1%Z 0 equator_route V7_sample_clock ints H)
    as [_ E].
  destruct (E ltac:(simpl; lia) ltac:(simpl; lia)) as (E1 & _ & E3).
  destruct (H7 0 0 0%Z 1%Z 0 equator_route V7_late_clock ints' H')
    as [_ E'].
  destruct (E' ltac:(simpl; lia) ltac:(simpl; lia)) as (_ & E2' & _).
  split; [exact H |]. split; [rewrite E1; reflexivity |].
  split; [apply E3; simpl; lia |].
  split; [exact H' | apply E2'; simpl; lia].
Defined.

(** ** Sampled runs of the loop *)

Lemma phase_non_decreasing_witness :
  StronglySorted Z.le
    (sent_phases (V6.main equator_route
                    [(0, V6_sample_clock); (300, V6_sample_clock);
                     (650, V6_sample_clock)]))
  /\ StronglySorted Z.le
       (sent_phases (V7.main equator_route
                       [(0, V7_sample_clock); (300, V7_sample_clock);
                        (650, V7_sample_clock)])).
Proof.
  destruct (phase_non_decreasing equator_route) as [H6 H7].
  split; [apply H6 | apply H7]; simpl;
    repeat (apply SSorted_cons || apply SSorted_nil
            || apply Forall_cons || apply Forall_nil); lra.
Defined.

(** ** Every iteration on a well-formed route sends its packet *)

(** The bearing is a whole number of degrees in [[0, 360)]. *)
Lemma compute_heading_range (lat1 lon1 lat2 lon2 : R) :
  (0 <= compute_heading lat1 lon1 lat2 lon2 <= 359)%Z.
Proof.
  unfold compute_heading.
  match goal with
  | |- context [py_fmod ?a 360] =>
      pose proof (py_fmod_bound a 360 (ltac:(lra))) as [H0 H1];
      destruct (py_int_between (py_fmod a 360)) as [Hp _];
      specialize (Hp H0); destruct Hp as [Hp0 Hp1];
      assert (py_int (py_fmod a 360) < 360)%Z
        by (apply lt_IZR; lra);
      assert (0 <= py_int (py_fmod a 360))%Z by (apply le_IZR; exact Hp0)
  end.
  lia.
Qed.

(** With a non-zero sine of the central angle the interpolation never
    raises, and its result is a position on the globe. *)
Lemma interpolate_ok (lat1 lon1 lat2 lon2 f : R) :
  sin (central_angle lat1 lon1 lat2 lon2) <> 0 ->
  exists lat lon,
    interpolate_great_circle lat1 lon1 lat2 lon2 f = OK (lat, lon)
    /\ -90 <= lat <= 90 /\ -180 <= lon <= 180.
Proof.
  intros Hs. unfold interpolate_great_circle.
  set (omega := central_angle lat1 lon1 lat2 lon2) in *.
  destruct (Req_dec_T omega 0) as [Hw | Hw].
  { exfalso. apply Hs. rewrite Hw. apply sin_0. }
  unfold py_div. destruct (Req_dec_T (sin omega) 0) as [E | _];
    [contradiction |].
  cbn [bind].
  assert (forall u v : R, 0 <= u * u + v * v) as Hss by (intros; nra).
  match goal with
  | |- context [py_sqrt ?a] => rewrite (py_sqrt_nonneg a (Hss _ _))
  end.
  cbn [bind]. eexists. eexists. split; [reflexivity |].
  pose proof PI_RGT_0 as Hpi.
  split; apply degrees_range.
  - match goal with
    | |- _ <= atan2 ?y (sqrt ?x) <= _ =>
        pose proof (atan2_right_half y (sqrt x) (sqrt_pos x))
    end.
    lra.
  - match goal with
    | |- _ <= atan2 ?y ?x <= _ => pose proof (atan2_range y x)
    end.
    lra.
Qed.

Lemma phase_step_int32 (e : R) (cp : Z) : int32 cp -> int32 (phase_step e cp).
Proof.
  unfold int32, phase_step. intros H. case_thresholds; lia.
Qed.

Lemma V6_iteration_ok (r : Route) (cp : Z) (e : R) :
  wf_route r -> proper_route r -> int32 cp -> 0 <= e <= 1000000000 ->
  exists cp' a,
    V6.main_iteration r cp e = OK (cp', a)
    /\ int32 cp'
    /\ wf_call (arg_lat a) (arg_lon a) (arg_heading a) (arg_phase a)
               (arg_elapsed a).
Proof.
  intros Hr Hp Hcp He.
  destruct (interpolate_ok _ _ _ _ (fraction e) Hp)
    as (lat & lon & Hi & Hlat & Hlon).
  destruct Hr as (_ & _ & _ & (Hslat & Hslon & _)).
  unfold V6.main_iteration. rewrite phase_scan_table, Hi. cbn [bind].
  pose proof (compute_heading_range lat lon (apt_lat (DST_APT r))
                                    (apt_lon (DST_APT r))) as Hh.
  destruct He as [He0 He1].
  destruct (Rge_dec (fraction e) 1) as [Hg | Hg];
    eexists; eexists; (split; [reflexivity |]);
    unfold wf_call; cbn [arg_lat arg_lon arg_heading arg_phase arg_elapsed];
    split_all; try assumption; try lra;
    try (unfold int32 in *; case_thresholds; lia).
Qed.

Lemma V7_iteration_ok (r : Route) (st : V7.LoopState) (e : R) :
  wf_route r -> proper_route r -> int32 (V7.current_phase st) ->
  0 <= e <= 1000000000 ->
  exists st' a,
    V7.main_iteration r st e = OK (st', a)
    /\ int32 (V7.current_phase st')
    /\ wf_call (arg_lat a) (arg_lon a) (arg_heading a) (arg_phase a)
               (arg_elapsed a).
Proof.
  intros Hr Hp Hcp He.
  destruct (interpolate_ok _ _ _ _ (fraction e) Hp)
    as (lat & lon & Hi & Hlat & Hlon).
  destruct Hr as (_ & _ & _ & (Hslat & Hslon & _)).
  unfold V7.main_iteration. rewrite phase_scan_table, Hi. cbn [bind].
  pose proof (compute_heading_range lat lon (apt_lat (DST_APT r))
                                    (apt_lon (DST_APT r))) as Hh.
  destruct He as [He0 He1].
  cbn [Z.eqb negb].
  destruct (Rge_dec (fraction e) 1) as [Hg | Hg];
    eexists; eexists; (split; [reflexivity |]);
    unfold wf_call;
    cbn [arg_lat arg_lon arg_heading arg_phase arg_elapsed V7.current_phase];
    split_all; try assumption; try lra;
    try (unfold int32 in *; case_thresholds; lia).
Qed.

(** On a well-formed proper route, with elapsed times in range and
    well-formed clock readings, the loop sends a packet at every tick. *)
Lemma V6_loop_sends_all (r : Route) (ticks : list (R * V6.Clock)) (cp : Z) :
  wf_route r -> proper_route r -> int32 cp ->
  Forall (fun t => 0 <= fst t <= 1000000000 /\ V6_wf_clock (snd t)) ticks ->
  List.length (V6.main_loop r cp ticks) = List.length ticks.
Proof.
  intros Hr Hp. revert cp.
  induction ticks as [| [e clk] ticks IH]; intros cp Hcp Hall;
    [reflexivity |].
  inversion Hall as [| ? ? [He Hk] Hall']; subst. simpl in He, Hk.
  destruct (V6_iteration_ok r cp e Hr Hp Hcp He) as (cp' & a & Hit & Hcp' & Ha).
  cbn [V6.main_loop]. rewrite Hit.
  destruct (V6_send_ok _ _ _ _ _ r clk Ha Hr Hk) as (packet & ->).
  cbn [List.length]. rewrite (IH cp' Hcp' Hall'). reflexivity.
Qed.

Lemma V7_loop_sends_all (r : Route) (ticks : list (R * V7.Clock))
      (st : V7.LoopState) :
  wf_route r -> proper_route r -> int32 (V7.current_phase st) ->
  Forall (fun t => 0 <= fst t <= 1000000000 /\ V7_wf_clock (snd t)) ticks ->
  List.length (V7.main_loop r st ticks) = List.length ticks.
Proof.
  intros Hr Hp. revert st.
  induction ticks as [| [e clk] ticks IH]; intros st Hcp Hall;
    [reflexivity |].
  inversion Hall as [| ? ? [He Hk] Hall']; subst. simpl in He, Hk.
  destruct (V7_iteration_ok r st e Hr Hp Hcp He) as (st' & a & Hit & Hcp' & Ha).
  cbn [V7.main_loop]. rewrite Hit.
  destruct (V7_send_ok _ _ _ _ _ r clk Ha Hr Hk) as (packet & ->).
  cbn [List.length]. rewrite (IH st' Hcp' Hall'). reflexivity.
Qed.

Lemma firstn_full {A : Type} (n : nat) (l : list A) :
  List.length (firstn n l) = List.length l -> firstn n l = l.
Proof.
  revert l. induction n as [| n IH]; intros [| x l] H; simpl in *;
    try reflexivity; try discriminate H.
  f_equal. apply IH. lia.
Qed.

(** On a well-formed proper route the phases sent are exactly the phases
    of the elapsed times, tick by tick, when the times do not decrease. *)
Lemma V6_main_phases (r : Route) (ticks : list (R * V6.Clock)) :
  wf_route r -> proper_route r ->
  Forall (fun t => 0 <= fst t <= 1000000000 /\ V6_wf_clock (snd t)) ticks ->
  StronglySorted Rle (map fst ticks) ->
  sent_phases (V6.main r ticks) = map (fun t => phase_of (fst t)) ticks.
Proof.
  intros Hr Hp Hall Hs.
  destruct (V6_loop_trace r ticks 1%Z Hs (reached_initial _)) as (n & Hn).
  assert (List.length (V6.main r ticks) = List.length ticks) as Hlen
      by (apply V6_loop_sends_all; try assumption; unfold int32; lia).
  rewrite sent_phases_trace. unfold V6.main in *. rewrite Hn.
  rewrite firstn_full.
  - rewrite map_map. reflexivity.
  - rewrite <- Hn. unfold sent_trace. rewrite !length_map. exact Hlen.
Qed.

Lemma V7_main_phases (r : Route) (ticks : list (R * V7.Clock)) :
  wf_route r -> proper_route r ->
  Forall (fun t => 0 <= fst t <= 1000000000 /\ V7_wf_clock (snd t)) ticks ->
  StronglySorted Rle (map fst ticks) ->
  sent_phases (V7.main r ticks) = map (fun t => phase_of (fst t)) ticks.
Proof.
  intros Hr Hp Hall Hs.
  destruct (V7_loop_trace r ticks V7.initial_state Hs (reached_initial _))
    as (n & Hn).
  assert (List.length (V7.main r ticks) = List.length ticks) as Hlen
      by (apply V7_loop_sends_all; try assumption; simpl; unfold int32; lia).
  rewrite sent_phases_trace. unfold V7.main in *. rewrite Hn.
  rewrite firstn_full.
  - rewrite map_map. reflexivity.
  - rewrite <- Hn. unfold sent_trace. rewrite !length_map. exact Hlen.
Qed.

Lemma proper_equator_route : proper_route equator_route.
Proof.
  unfold proper_route. simpl.
  rewrite central_angle_equator_quarter, sin_PI2. lra.
Qed.

(** A flight on the equator route sampled before take-off, in cruise, at
    the scheduled end and after it: phase 7 is skipped. *)
Lemma equator_flight_phases :
  sent_phases (V7.main equator_route
                 [(0, V7_sample_clock); (300, V7_sample_clock);
                  (600, V7_sample_clock); (650, V7_sample_clock)])
  = [1; 4; 8; 8]%Z.
Proof.
  rewrite V7_main_phases.
  - unfold phase_of. simpl. case_thresholds; try reflexivity; exfalso; lra.
  - exact wf_equator_route.
  - exact proper_equator_route.
  - repeat (apply Forall_cons || apply Forall_nil);
      (split; [simpl; lra | exact wf_V7_sample_clock]).
  - simpl. repeat (apply SSorted_cons || apply SSorted_nil
                   || apply Forall_cons || apply Forall_nil); lra.
Qed.

(** ** Where the call's arguments and the clock go in the packet *)


Lemma V7_fields_of_call (lat lon : R) (heading phase : Z) (e : R) (r : Route)
      (clk : V7.Clock) (ints : list Z) :
  V7.all_42_integers lat lon heading phase e r clk = OK ints ->
  nth 1 ints 0%Z = py_int (lat * LAT_LON_SCALE_FACTOR)
  /\ nth 2 ints 0%Z = py_int (lon * LAT_LON_SCALE_FACTOR)
  /\ nth 13 ints 0%Z = heading
  /\ nth 15 ints 0%Z = tailwind heading
  /\ nth 19 ints 0%Z = V7.time_enc clk
  /\ nth 26 ints 0%Z = py_int (apt_lat (DST_APT r) * LAT_LON_SCALE_FACTOR)
  /\ nth 27 ints 0%Z = py_int (apt_lon (DST_APT r) * LAT_LON_SCALE_FACTOR)
  /\ nth 31 ints 0%Z = phase.
Proof.
  unfold V7.all_42_integers. intros H.
  repeat inv_bind H.
  destruct (V7.pitch_roll phase e) as [pitch roll].
  inversion H. repeat split; reflexivity.
Qed.

(** The same call one second later has another time field: the clock is an
    input of the encoder. *)
Lemma V7_time_field_follows_the_clock :
  let later :=
    {| V7.start_hour := 10; V7.start_minute := 30;
       V7.now_year := 2025; V7.now_month := 6; V7.now_day := 15;
       V7.now_hour := 10; V7.now_minute := 45; V7.now_second := 21 |} in
  exists ints ints',
    V7.all_42_integers 0 0 0 1 0 equator_route V7_sample_clock = OK ints
    /\ V7.all_42_integers 0 0 0 1 0 equator_route later = OK ints'
    /\ nth 19 ints 0%Z = 38720%Z
    /\ nth 19 ints' 0%Z = 38721%Z.
Proof.
  intros later.
  assert (V7_wf_clock later) as Hl
      by (unfold V7_wf_clock, later; simpl; split_all; lia).
  destruct (V7_fields_exist 0 0 0 1 0 equator_route V7_sample_clock
                            wf_call_at_gate wf_equator_route
                            wf_V7_sample_clock) as (ints & H).
  destruct (V7_fields_exist 0 0 0 1 0 equator_route later
                            wf_call_at_gate wf_equator_route Hl)
    as (ints' & H').
  exists ints, ints'. split; [exact H |]. split; [exact H' |].
  destruct (V7_fields_of_call _ _ _ _ _ _ _ _ H) as (_ & _ & _ & _ & E & _).
  destruct (V7_fields_of_call _ _ _ _ _ _ _ _ H') as (_ & _ & _ & _ & E' & _).
  rewrite E, E'. split; reflexivity.
Qed.

(** ** The heading in the terminal phase *)

(** C3, at a failing input.  On the route from (0, 0) to (0, 90), with
    ticks at 300 s and 650 s, revision 7 sends heading 90 in phase 4 and
    then heading 0 in phase 8: the heading of the terminal phase is
    recomputed, from the destination to itself, and is not the 90 held
    before phase 8 was entered. *)
Theorem heading_not_frozen_in_phase_8 :
  exists packet1 packet2,
    V7.main equator_route [(300, V7_sample_clock); (650, V7_sample_clock)]
    = [({| arg_lat := 0; arg_lon := 45; arg_heading := 90; arg_phase := 4;
           arg_elapsed := 300 |}, packet1);
       ({| arg_lat := 0; arg_lon := 90; arg_heading := 0; arg_phase := 8;
           arg_elapsed := 650 |}, packet2)].
Proof.
  pose proof interpolated_equator_300 as H300.
  pose proof interpolated_equator_650 as H650.
  assert (V7.main_iteration equator_route V7.initial_state 300
          = OK ({| V7.current_phase := 4; V7.phase := Some 7%Z;
                   V7.oldheading := 90 |},
                {| arg_lat := 0; arg_lon := 45; arg_heading := 90;
                   arg_phase := 4; arg_elapsed := 300 |})) as E1.
  { unfold V7.main_iteration. rewrite phase_scan_table.
    unfold interpolated in H300. rewrite H300. simpl.
    rewrite compute_heading_equator_east.
    destruct (Rge_dec (fraction 300) 1) as [Hg | _].
    { rewrite fraction_300 in Hg. exfalso; lra. }
    case_thresholds; try (exfalso; lra). reflexivity. }
  pose proof (V7_terminal_iteration equator_route
                {| V7.current_phase := 4; V7.phase := Some 7%Z;
                   V7.oldheading := 90 |} 650 (0, 90)
                (ltac:(lra)) H650) as E2.
  cbn [fst snd equator_route DST_APT apt_lat apt_lon] in E2.
  rewrite compute_heading_same in E2.
  destruct (V7_send_ok 0 45 90 4 300 equator_route V7_sample_clock)
    as (packet1 & Hp1).
  { unfold wf_call, int32. split_all; try lra; lia. }
  { exact wf_equator_route. }
  { exact wf_V7_sample_clock. }
  destruct (V7_send_ok 0 90 0 8 650 equator_route V7_sample_clock)
    as (packet2 & Hp2).
  { unfold wf_call, int32. split_all; try lra; lia. }
  { exact wf_equator_route. }
  { exact wf_V7_sample_clock. }
  exists packet1, packet2.
  unfold V7.main. cbn [V7.main_loop].
  rewrite E1.
  cbn [arg_lat arg_lon arg_heading arg_phase arg_elapsed].
  rewrite Hp1, E2.
  cbn [arg_lat arg_lon arg_heading arg_phase arg_elapsed].
  rewrite Hp2. reflexivity.
Qed.

(** ** The byte-level functions on concrete inputs *)

Example encode_JFK_v6 : V6.encode_airport "JFK" = OK 1246120736%Z.
Proof. reflexivity. Qed.

Example encode_JFK_v7 : V7.encode_airport "JFK" = OK 541804106%Z.
Proof. reflexivity. Qed.

Example encode_KORD : V6.encode_airport "KORD" = OK 1263489604%Z
                      /\ V7.encode_airport "KORD" = OK 1146244939%Z.
Proof. split; reflexivity. Qed.

Example encode_strips_and_cuts_v7 :
  V7.encode_airport " ab " = V7.encode_airport "AB"
  /\ V7.encode_airport "abcdef" = V7.encode_airport "ABCD"
  /\ V6.encode_airport "abcdef" = V6.encode_airport "abcd".
Proof. repeat split; reflexivity. Qed.

Example encode_rejects_non_ascii :
  V6.encode_airport (String (ascii_of_N 233) "AB") = Raise UnicodeEncodeError.
Proof. reflexivity. Qed.

Example pack_header :
  struct_pack (big_endian, [fmt_H; fmt_H; fmt_i])
              [PyInt MAGIC_ID; PyInt DATA_PACKET_TYPE; PyInt (-2)]
  = OK [xfd; xfd; x00; x10; xff; xff; xff; xfe].
Proof. reflexivity. Qed.

Example pack_flight_string :
  struct_pack (big_endian, [fmt_s 5]) [PyBytes V6.flight_str]
  = OK [x52; x43; x39; x30; x31]
  /\ struct_pack (big_endian, [fmt_s 5]) [PyBytes [x52; x43]]
     = OK [x52; x43; x00; x00; x00]
  /\ struct_pack (big_endian, [fmt_s 3]) [PyBytes V6.flight_str]
     = OK [x52; x43; x39].
Proof. repeat split; reflexivity. Qed.

Example pack_rejects :
  struct_pack (big_endian, [fmt_i]) [PyInt 2147483648] = Raise StructError
  /\ struct_pack (big_endian, [fmt_H]) [PyInt (-1)] = Raise StructError
  /\ struct_pack (big_endian, [fmt_i; fmt_i]) [PyInt 1] = Raise StructError.
Proof. repeat split; reflexivity. Qed.

Example date_enc_sample :
  V7.date_enc V7_sample_clock = OK 132711951%Z
  /\ V6.date_enc V6_sample_clock = 132711951%Z.
Proof. split; reflexivity. Qed.

(* ================================================================= *)
(** * Further properties: navigation *)

(** ** [compute_heading] *)

(** X1.  [compute_heading] returns a whole compass bearing: for every pair
    of points, whatever their coordinates, the result is an integer from 0
    to 359. *)
Theorem heading_is_a_compass_bearing (lat1 lon1 lat2 lon2 : R) :
  (0 <= compute_heading lat1 lon1 lat2 lon2 < 360)%Z.
Proof.
  pose proof (compute_heading_range lat1 lon1 lat2 lon2). lia.
Qed.

Lemma heading_meridian_terms (lat1 lat2 lon : R) :
  compute_heading lat1 lon lat2 lon
  = py_int (py_fmod (degrees (atan2 0 (sin (radians lat2 - radians lat1)))
                     + 360) 360).
Proof.
  unfold compute_heading.
  replace (lon - lon) with 0 by lra.
  rewrite radians_0, sin_0, cos_0.
  replace (0 * cos (radians lat2)) with 0 by ring.
  replace (cos (radians lat1) * sin (radians lat2)
           - sin (radians lat1) * cos (radians lat2) * 1)
    with (sin (radians lat2 - radians lat1)) by (rewrite sin_minus; ring).
  reflexivity.
Qed.

(** X2.  Along a meridian the bearing is due north or due south: between
    two points of the same longitude, with latitudes in range,
    [compute_heading] is 0 when the target is not south of the origin (in
    particular from a point to itself), and 180 when it is south of it by
    a millionth of a degree or more and the two points are that far from
    being the two poles.  (For a target less than that to the south the
    bearing is 180 in exact arithmetic, but in binary64 the two products
    of the formula can cancel to zero, and the program then returns 0:
    lemma [B64_heading_cancels].) *)
Theorem heading_along_a_meridian (lat1 lat2 lon : R) :
  -90 <= lat1 <= 90 -> -90 <= lat2 <= 90 ->
  (lat1 <= lat2 -> compute_heading lat1 lon lat2 lon = 0%Z)
  /\ (1 / 1000000 <= lat1 - lat2 <= 180 - 1 / 1000000 ->
      compute_heading lat1 lon lat2 lon = 180%Z).
Proof.
  intros H1 H2. pose proof PI_RGT_0 as Hpi.
  rewrite heading_meridian_terms.
  assert (radians lat2 - radians lat1 = (lat2 - lat1) * (PI / 180)) as Hd
      by (unfold radians; ring).
  split.
  - intros Hle.
    assert (0 <= sin (radians lat2 - radians lat1)) as Hs.
    { apply sin_ge_0; rewrite Hd; nra. }
    apply py_int_fmod_heading; [| lia].
    unfold atan2.
    destruct (Rlt_dec 0 (sin (radians lat2 - radians lat1))) as [Hp | Hn].
    + unfold Rdiv. rewrite Rmult_0_l, atan_0. unfold degrees. lra.
    + destruct (Rlt_dec (sin (radians lat2 - radians lat1)) 0);
        [exfalso; lra |].
      destruct (Rlt_dec 0 0); [exfalso; lra |]. unfold degrees. lra.
  - intros [Hlt Hfar].
    assert (sin (radians lat2 - radians lat1) < 0) as Hs.
    { apply sin_lt_0_var; rewrite Hd; nra. }
    apply py_int_fmod_heading; [| lia].
    unfold atan2.
    destruct (Rlt_dec 0 (sin (radians lat2 - radians lat1)));
      [exfalso; lra |].
    destruct (Rlt_dec (sin (radians lat2 - radians lat1)) 0);
      [| exfalso; lra].
    destruct (Rle_dec 0 0); [| exfalso; lra].
    unfold Rdiv. rewrite Rmult_0_l, atan_0. unfold degrees. field. lra.
Qed.

Lemma heading_along_a_meridian_witness :
  compute_heading 10 20 50 20 = 0%Z
  /\ compute_heading 50 20 10 20 = 180%Z.
Proof.
  split.
  - apply (heading_along_a_meridian 10 50 20); lra.
  - apply (heading_along_a_meridian 50 10 20); lra.
Defined.

(** Two latitudes one binary64 number apart, the target to the south: the
    two products of [y] are the same number, [x] and [y] are both 0,
    [math.atan2(0.0, 0.0)] is 0 and the value reduced modulo 360 is 360:
    the program returns 0 where the exact bearing is 180. *)
Example B64_heading_cancels :
  PrimFloat.ltb B64.lower_lat B64.upper_lat = true
  /\ B64.heading_terms B64.glibc B64.upper_lat B64.meridian
                       B64.lower_lat B64.meridian
     = (B64.zero, B64.zero)
  /\ B64.heading_angle B64.glibc B64.upper_lat B64.meridian
                       B64.lower_lat B64.meridian
     = B64.full_turn.
Proof. repeat split; vm_compute; reflexivity. Qed.

(** ** [haversine_distance] *)

(** The haversine term lies in [[0, 1]] whatever the angles: it is a mean
    of [sin^2((v - u) / 2)] and [cos^2((u + v) / 2)]. *)
Lemma haversine_term_unit (u v w : R) :
  0 <= sin ((v - u) / 2) * sin ((v - u) / 2)
       + cos u * cos v * sin w * sin w <= 1.
Proof.
  pose proof (cos_2a_sin ((v - u) / 2)) as Hh.
  replace (2 * ((v - u) / 2)) with (v - u) in Hh by lra.
  rewrite cos_minus in Hh.
  pose proof (cos_plus u v) as Hp.
  pose proof (COS_bound (u + v)) as [Hb0 Hb1].
  pose proof (sin2_cos2 w) as Hw. unfold Rsqr in Hw.
  pose proof (sin2_cos2 ((v - u) / 2)) as Hd. unfold Rsqr in Hd.
  assert (forall t : R, 0 <= t * t) as Hsq by (intros; nra).
  pose proof (Hsq (sin w)) as Hq0. pose proof (Hsq (cos w)) as Hq1.
  pose proof (Hsq (sin ((v - u) / 2))) as Hs0.
  pose proof (Hsq (cos ((v - u) / 2))) as Hs1.
  set (s2 := sin ((v - u) / 2) * sin ((v - u) / 2)) in *.
  set (q := sin w * sin w) in *.
  assert (0 <= q <= 1) as Hq by lra.
  assert (0 <= s2 <= 1) as Hs by lra.
  replace (cos u * cos v * sin w * sin w) with (cos u * cos v * q)
    by (unfold q; ring).
  assert (cos u * cos v = (1 - 2 * s2 + cos (u + v)) / 2) as Hc
      by (unfold s2; nra).
  rewrite Hc. split; nra.
Qed.

Lemma atan2_first_quadrant (y x : R) :
  0 <= y -> 0 <= x -> 0 <= atan2 y x <= PI / 2.
Proof.
  intros Hy Hx. pose proof PI_RGT_0 as Hpi.
  split; [| apply atan2_right_half; exact Hx].
  unfold atan2.
  destruct (Rlt_dec 0 x) as [Hp | Hn].
  - destruct (Rle_lt_or_eq_dec 0 y Hy) as [Hy' | <-].
    + left. apply (proj2 (atan_sign (y / x))).
      apply Rdiv_lt_0_compat; assumption.
    + unfold Rdiv. rewrite Rmult_0_l, atan_0. lra.
  - destruct (Rlt_dec x 0); [exfalso; lra |].
    destruct (Rlt_dec 0 y); [lra |].
    destruct (Rlt_dec y 0); [exfalso; lra | lra].
Qed.

Lemma haversine_distance_value (lat1 lon1 lat2 lon2 : R) :
  let a := sin ((radians lat2 - radians lat1) / 2)
           * sin ((radians lat2 - radians lat1) / 2)
           + cos (radians lat1) * cos (radians lat2)
             * sin (radians (lon2 - lon1) / 2)
             * sin (radians (lon2 - lon1) / 2) in
  0 <= a <= 1
  /\ haversine_distance lat1 lon1 lat2 lon2
     = OK (6371 * (2 * atan2 (sqrt a) (sqrt (1 - a))) * 0.539957).
Proof.
  intros a.
  assert (0 <= a <= 1) as Ha by apply haversine_term_unit.
  split; [exact Ha |].
  unfold haversine_distance.
  replace (radians (lat2 - lat1)) with (radians lat2 - radians lat1)
    by (unfold radians; lra).
  fold a.
  rewrite py_sqrt_nonneg by lra. cbn [bind].
  rewrite py_sqrt_nonneg by lra. cbn [bind].
  reflexivity.
Qed.

(** The haversine term, as [haversine_distance_value] writes it. *)
Lemma haversine_term_value (lat1 lon1 lat2 lon2 : R) :
  haversine_term lat1 lon1 lat2 lon2
  = sin ((radians lat2 - radians lat1) / 2)
    * sin ((radians lat2 - radians lat1) / 2)
    + cos (radians lat1) * cos (radians lat2)
      * sin (radians (lon2 - lon1) / 2)
      * sin (radians (lon2 - lon1) / 2).
Proof.
  unfold haversine_term.
  replace (radians (lat2 - lat1)) with (radians lat2 - radians lat1)
    by (unfold radians; lra).
  reflexivity.
Qed.

(** In binary64 the term can round above 1 near the antipode, and
    [math.sqrt(1 - a)] raises: from (-87.5, 0) to (87.5, 180), which is
    antipodal, and to (87.5, 179.999999), which is not. *)
Example B64_haversine_raises_near_antipodes :
  B64.haversine_term B64.glibc B64.south_lat B64.zero
                     B64.north_lat B64.lon_180
  = B64.above_one
  /\ PrimFloat.ltb B64.one B64.above_one = true
  /\ B64.haversine_distance B64.glibc B64.south_lat B64.zero
                            B64.north_lat B64.lon_180
     = Raise ValueError
  /\ B64.haversine_term B64.glibc B64.south_lat B64.zero
                        B64.north_lat B64.lon_near_180
     = B64.above_one
  /\ B64.haversine_distance B64.glibc B64.south_lat B64.zero
                            B64.north_lat B64.lon_near_180
     = Raise ValueError.
Proof. repeat split; vm_compute; reflexivity. Qed.

(** X3.  For two points with latitudes in [[-90, 90]], the second clear of
    the antipode of the first (the haversine term is at most 1 - 10^-9),
    [haversine_distance] returns: the term lies in [[0, 1]], so neither
    square root raises.  The distance returned is never negative and
    stays below half the circumference of the Earth,
    [6371 * PI * 0.539957] nautical miles.  (Nearer the antipode the
    binary64 term can round above 1, and the program raises: lemma
    [B64_haversine_raises_near_antipodes].) *)
Theorem haversine_distance_total_and_bounded (lat1 lon1 lat2 lon2 : R) :
  -90 <= lat1 <= 90 -> -90 <= lat2 <= 90 ->
  clear_of_antipodes lat1 lon1 lat2 lon2 ->
  exists d, haversine_distance lat1 lon1 lat2 lon2 = OK d
            /\ 0 <= d < 6371 * PI * 0.539957.
Proof.
  intros _ _ Hclear. unfold clear_of_antipodes in Hclear.
  rewrite haversine_term_value in Hclear.
  destruct (haversine_distance_value lat1 lon1 lat2 lon2) as [Ha Hv].
  cbv zeta in Ha, Hv. rewrite Hv. eexists. split; [reflexivity |].
  match goal with
  | |- context [atan2 (sqrt ?a) (sqrt ?b)] =>
      pose proof (atan2_first_quadrant (sqrt a) (sqrt b)
                    (sqrt_pos a) (sqrt_pos b)) as Hq;
      assert (0 < sqrt b) as Hb by (apply sqrt_lt_R0; lra);
      assert (atan2 (sqrt a) (sqrt b) < PI / 2) as Hlt
  end.
  { unfold atan2.
    match goal with
    | |- context [Rlt_dec 0 ?x] => destruct (Rlt_dec 0 x); [| contradiction]
    end.
    apply atan_bound. }
  pose proof PI_RGT_0. split; nra.
Qed.

Lemma haversine_distance_total_and_bounded_witness :
  exists d, haversine_distance 0 0 0 90 = OK d
            /\ 0 <= d < 6371 * PI * 0.539957.
Proof.
  apply (haversine_distance_total_and_bounded 0 0 0 90); try lra.
  unfold clear_of_antipodes. rewrite haversine_term_equator. lra.
Defined.

(** X4.  [haversine_distance] is symmetric in its two points, and the
    distance from a point to itself is exactly 0. *)
Theorem haversine_distance_symmetric (lat1 lon1 lat2 lon2 : R) :
  haversine_distance lat1 lon1 lat2 lon2
  = haversine_distance lat2 lon2 lat1 lon1
  /\ haversine_distance lat1 lon1 lat1 lon1 = OK 0.
Proof.
  split.
  - destruct (haversine_distance_value lat1 lon1 lat2 lon2) as [_ ->].
    destruct (haversine_distance_value lat2 lon2 lat1 lon1) as [_ ->].
    cbv zeta.
    replace ((radians lat1 - radians lat2) / 2)
      with (- ((radians lat2 - radians lat1) / 2)) by lra.
    replace (radians (lon1 - lon2) / 2)
      with (- (radians (lon2 - lon1) / 2)) by (unfold radians; lra).
    rewrite !sin_neg.
    match goal with
    | |- OK (_ * (_ * atan2 (sqrt ?a) _) * _)
         = OK (_ * (_ * atan2 (sqrt ?b) _) * _) =>
        replace b with a by ring
    end.
    reflexivity.
  - destruct (haversine_distance_value lat1 lon1 lat1 lon1) as [_ ->].
    cbv zeta.
    replace ((radians lat1 - radians lat1) / 2) with 0 by lra.
    replace (radians (lon1 - lon1) / 2) with 0 by (unfold radians; lra).
    rewrite sin_0.
    match goal with
    | |- context [atan2 (sqrt ?a) _] => replace a with 0 by ring
    end.
    replace (1 - 0) with 1 by ring.
    rewrite sqrt_0, sqrt_1. unfold atan2.
    destruct (Rlt_dec 0 1); [| exfalso; lra].
    unfold Rdiv. rewrite Rmult_0_l, atan_0. f_equal. ring.
Qed.

(** ** [interpolate_great_circle] *)

(** Whatever the interpolation returns from a first point on the globe is
    on the globe. *)
Lemma interpolate_on_globe (lat1 lon1 lat2 lon2 f lat lon : R) :
  -90 <= lat1 <= 90 -> -180 <= lon1 <= 180 ->
  interpolate_great_circle lat1 lon1 lat2 lon2 f = OK (lat, lon) ->
  -90 <= lat <= 90 /\ -180 <= lon <= 180.
Proof.
  intros Hlat Hlon H.
  destruct (Req_dec_T (sin (central_angle lat1 lon1 lat2 lon2)) 0) as [E | E].
  - unfold interpolate_great_circle in H.
    destruct (Req_dec_T (central_angle lat1 lon1 lat2 lon2) 0) as [_ | _].
    + inversion H; subst. split; assumption.
    + unfold py_div in H.
      destruct (Req_dec_T (sin (central_angle lat1 lon1 lat2 lon2)) 0);
        [discriminate H | contradiction].
  - destruct (interpolate_ok lat1 lon1 lat2 lon2 f E)
      as (lat' & lon' & H' & Hr).
    rewrite H' in H. inversion H; subst. exact Hr.
Qed.

(** X5.  From a first point on the globe, and for two points that are not
    antipodal (their central angle is not [PI]), [interpolate_great_circle]
    never raises, whatever the fraction, and the position it returns has a
    latitude in [[-90, 90]] and a longitude in [[-180, 180]]. *)
Theorem interpolation_stays_on_the_globe (lat1 lon1 lat2 lon2 f : R) :
  -90 <= lat1 <= 90 -> -180 <= lon1 <= 180 ->
  central_angle lat1 lon1 lat2 lon2 <> PI ->
  exists lat lon,
    interpolate_great_circle lat1 lon1 lat2 lon2 f = OK (lat, lon)
    /\ -90 <= lat <= 90 /\ -180 <= lon <= 180.
Proof.
  intros Hlat Hlon Hpi.
  destruct (Req_dec_T (central_angle lat1 lon1 lat2 lon2) 0) as [E | E].
  - exists lat1, lon1. unfold interpolate_great_circle.
    destruct (Req_dec_T (central_angle lat1 lon1 lat2 lon2) 0);
      [| contradiction].
    split; [reflexivity | split; assumption].
  - apply interpolate_ok. apply central_angle_sin; assumption.
Qed.

Lemma interpolation_stays_on_the_globe_witness :
  exists lat lon,
    interpolate_great_circle 0 0 0 90 (1 / 3) = OK (lat, lon)
    /\ -90 <= lat <= 90 /\ -180 <= lon <= 180.
Proof.
  apply (interpolation_stays_on_the_globe 0 0 0 90 (1 / 3)); try lra.
  rewrite central_angle_equator_quarter. pose proof PI_RGT_0. lra.
Defined.





(* ================================================================= *)
(** * Further properties: the telemetry derived by [send_data_packet] *)

Lemma fraction_before_end (e : R) : e <= 600 -> fraction e = e / 600.
Proof.
  intros H. unfold fraction, TOTAL_FLIGHT_SECONDS. apply Rmin_left. lra.
Qed.

Lemma fraction_after_end (e : R) : 600 <= e -> fraction e = 1.
Proof.
  intros H. unfold fraction, TOTAL_FLIGHT_SECONDS. apply Rmin_right. lra.
Qed.

Lemma fraction_mono (e1 e2 : R) : e1 <= e2 -> fraction e1 <= fraction e2.
Proof.
  intros H. unfold fraction, TOTAL_FLIGHT_SECONDS.
  apply Rle_min_compat_r. lra.
Qed.

Lemma py_int_mono (x y : R) : x <= y -> (py_int x <= py_int y)%Z.
Proof.
  intros H. unfold py_int.
  destruct (Rle_dec 0 x) as [Hx | Hx]; destruct (Rle_dec 0 y) as [Hy | Hy].
  - apply Zfloor_le. exact H.
  - exfalso. lra.
  - pose proof (py_int_between x) as [_ Hn]. pose proof (py_int_between y)
      as [Hp _].
    unfold py_int in Hn, Hp.
    destruct (Rle_dec 0 x); [contradiction |].
    destruct (Rle_dec 0 y); [| contradiction].
    apply le_IZR. specialize (Hn ltac:(lra)). specialize (Hp Hy). lra.
  - apply Zceil_le. exact H.
Qed.

Lemma altitude_value (e : R) :
  e < 600 -> altitude e = 35000 * sin (PI * (e / 600)).
Proof.
  intros H. unfold altitude. rewrite fraction_before_end by lra.
  destruct (Rlt_dec (e / 600) 1); [reflexivity | exfalso; lra].
Qed.

Lemma altitude_after_end (e : R) : 600 <= e -> altitude e = 0.
Proof.
  intros H. unfold altitude. rewrite fraction_after_end by exact H.
  destruct (Rlt_dec 1 1); [exfalso; lra | reflexivity].
Qed.

Lemma altitude_nonneg (e : R) : 0 <= e -> 0 <= altitude e.
Proof.
  intros H. destruct (Rlt_dec e 600) as [Hlt | Hge].
  - rewrite altitude_value by exact Hlt. pose proof PI_RGT_0 as Hpi.
    assert (0 <= sin (PI * (e / 600))) by (apply sin_ge_0; nra).
    lra.
  - rewrite altitude_after_end by lra. lra.
Qed.

(** X7.  For a non-negative elapsed time the altitude is never negative and
    never above 35000 ft, in the real value and in both integer fields
    (feet, and feet times 100); it is 0 at the start and from the scheduled
    end on, and it reaches 35000 ft at mid-flight. *)
Theorem altitude_profile (e : R) :
  0 <= e ->
  0 <= altitude e <= 35000
  /\ (0 <= py_int (altitude e) <= 35000)%Z
  /\ (0 <= altitude_scaled e <= 3500000)%Z
  /\ (600 <= e -> altitude e = 0)
  /\ altitude 0 = 0 /\ altitude 300 = 35000.
Proof.
  intros He.
  pose proof (altitude_nonneg e He) as H0.
  pose proof (altitude_bound e) as [_ H1].
  split; [lra |].
  split; [apply (py_int_range _ 0 35000); [lia | lra] |].
  split; [unfold altitude_scaled; apply (py_int_range _ 0 3500000);
          [lia | lra] |].
  split; [apply altitude_after_end |].
  split.
  - rewrite altitude_value by lra.
    replace (PI * (0 / 600)) with 0 by lra. rewrite sin_0. lra.
  - rewrite altitude_value by lra.
    replace (PI * (300 / 600)) with (PI / 2) by lra. rewrite sin_PI2. lra.
Qed.

Lemma altitude_profile_witness :
  0 <= altitude 450 <= 35000
  /\ (0 <= py_int (altitude 450) <= 35000)%Z
  /\ (0 <= altitude_scaled 450 <= 3500000)%Z
  /\ (600 <= 450 -> altitude 450 = 0)
  /\ altitude 0 = 0 /\ altitude 300 = 35000.
Proof. apply (altitude_profile 450). lra. Defined.

Lemma vertical_speed_rate_value (e : R) :
  e < 600 -> vertical_speed_rate e = 3000 * cos (PI * (e / 600)).
Proof.
  intros H. unfold vertical_speed_rate. rewrite fraction_before_end by lra.
  destruct (Rlt_dec (e / 600) 1); [reflexivity | exfalso; lra].
Qed.

Lemma vertical_speed_rate_after_end (e : R) :
  600 <= e -> vertical_speed_rate e = 0.
Proof.
  intros H. unfold vertical_speed_rate. rewrite fraction_after_end by exact H.
  destruct (Rlt_dec 1 1); [exfalso; lra | reflexivity].
Qed.

(** X8.  The altitude rises during the first half of the flight and falls
    during the second, and the sign of the vertical-speed field agrees with
    it: between 0 s and 300 s the altitude does not decrease and the
    vertical speed is in [[0, 3000]]; from 300 s on the altitude does not
    increase and the vertical speed is in [[-3000, 0]]; from 600 s on the
    vertical speed is 0. *)
Theorem climb_then_descent (e1 e2 : R) :
  (0 <= e1 <= e2 -> e2 <= 300 ->
   altitude e1 <= altitude e2 /\ (0 <= vertical_speed e1 <= 3000)%Z)
  /\ (300 <= e1 <= e2 ->
      altitude e2 <= altitude e1 /\ (-3000 <= vertical_speed e1 <= 0)%Z)
  /\ (600 <= e1 -> vertical_speed e1 = 0%Z).
Proof.
  pose proof PI_RGT_0 as Hpi.
  split; [| split].
  - intros [H0 H12] H2. split.
    + rewrite !altitude_value by lra.
      assert (sin (PI * (e1 / 600)) <= sin (PI * (e2 / 600)))
        by (apply sin_incr_1; nra).
      lra.
    + unfold vertical_speed. rewrite vertical_speed_rate_value by lra.
      assert (0 <= cos (PI * (e1 / 600))) by (apply cos_ge_0; nra).
      pose proof (COS_bound (PI * (e1 / 600))).
      apply (py_int_range _ 0 3000); [lia | lra].
  - intros [H1 H12]. split.
    + destruct (Rlt_dec e2 600) as [Hlt | Hge].
      * rewrite !altitude_value by lra.
        assert (sin (PI * (e2 / 600)) <= sin (PI * (e1 / 600)))
          by (apply sin_decr_1; nra).
        lra.
      * rewrite (altitude_after_end e2) by lra.
        apply altitude_nonneg. lra.
    + unfold vertical_speed. destruct (Rlt_dec e1 600) as [Hlt | Hge].
      * rewrite vertical_speed_rate_value by lra.
        assert (cos (PI * (e1 / 600)) <= 0) by (apply cos_le_0; nra).
        pose proof (COS_bound (PI * (e1 / 600))).
        apply (py_int_range _ (-3000) 0); [lia | lra].
      * rewrite vertical_speed_rate_after_end by lra.
        rewrite py_int_IZR. lia.
  - intros H. unfold vertical_speed.
    rewrite vertical_speed_rate_after_end by exact H. apply py_int_IZR.
Qed.

Lemma py_int_lower (x : R) (lo : Z) :
  (0 <= lo)%Z -> IZR lo <= x -> (lo <= py_int x)%Z.
Proof.
  intros Hlo Hx. rewrite <- (py_int_IZR lo). apply py_int_mono. exact Hx.
Qed.

Lemma py_int_upper (x : R) (hi : Z) :
  0 <= x -> x < IZR hi + 1 -> (py_int x <= hi)%Z.
Proof.
  intros H0 Hx. destruct (py_int_between x) as [Hp _].
  specialize (Hp H0).
  assert (py_int x < hi + 1)%Z by (apply lt_IZR; rewrite plus_IZR; lra).
  lia.
Qed.

(** X9.  The speed fields stay in a fixed band whatever the elapsed time:
    the true airspeed is between 360 and 450 knots and the ground speed,
    95 percent of it truncated, between 342 and 427 knots; the airspeed is
    360 at the start and from the scheduled end on, and 450 at mid-flight. *)
Theorem speed_fields_range (e : R) :
  (360 <= py_int (true_airspeed e) <= 450)%Z
  /\ (342 <= ground_speed e <= 427)%Z
  /\ true_airspeed 0 = 360 /\ true_airspeed 300 = 450
  /\ (600 <= e -> true_airspeed e = 360).
Proof.
  pose proof (true_airspeed_bound e) as [H0 H1].
  split; [split; [apply py_int_lower | apply py_int_upper]; try lia; lra |].
  split; [unfold ground_speed;
          split; [apply py_int_lower | apply py_int_upper]; try lia; lra |].
  split; [| split].
  - unfold true_airspeed. rewrite fraction_before_end by lra.
    replace (PI * (0 / 600)) with 0 by lra.
    rewrite cos_0, Rabs_R1. lra.
  - unfold true_airspeed. rewrite fraction_before_end by lra.
    replace (PI * (300 / 600)) with (PI / 2) by lra.
    rewrite cos_PI2, Rabs_R0. lra.
  - intros H. unfold true_airspeed. rewrite fraction_after_end by exact H.
    rewrite Rmult_1_r, cos_PI.
    unfold Rabs. destruct (Rcase_abs (-1)); lra.
Qed.

Lemma total_dist_nm_nonneg (r : Route) :
  exists total, total_dist_nm r = OK total /\ 0 <= total.
Proof.
  unfold total_dist_nm.
  destruct (haversine_distance_value
              (apt_lat (DEP_APT r)) (apt_lon (DEP_APT r))
              (apt_lat (DST_APT r)) (apt_lon (DST_APT r))) as [Ha Hv].
  cbv zeta in Ha, Hv. rewrite Hv. eexists. split; [reflexivity |].
  match goal with
  | |- context [atan2 (sqrt ?a) (sqrt ?b)] =>
      pose proof (atan2_first_quadrant (sqrt a) (sqrt b)
                    (sqrt_pos a) (sqrt_pos b)) as Hq
  end.
  nra.
Qed.

(** X10.  The distance-to-destination field counts down: for a route
    between two airports with latitudes in [[-90, 90]], the destination
    clear of the antipode of the departure, the total distance is computed
    and is not negative; the field starts at the whole nautical miles of
    the total, never increases as the elapsed time grows, stays between 0
    and its starting value, and is 0 from the scheduled end on. *)
Theorem remaining_distance_counts_down (r : Route) :
  -90 <= apt_lat (DEP_APT r) <= 90 -> -90 <= apt_lat (DST_APT r) <= 90 ->
  clear_route r ->
  exists total,
    total_dist_nm r = OK total /\ 0 <= total
    /\ distance_to_destination total 0 = py_int total
    /\ (forall e1 e2, e1 <= e2 ->
          (distance_to_destination total e2
           <= distance_to_destination total e1)%Z)
    /\ (forall e, 0 <= e ->
          (0 <= distance_to_destination total e <= py_int total)%Z)
    /\ (forall e, 600 <= e -> distance_to_destination total e = 0%Z).
Proof.
  intros _ _ _.
  destruct (total_dist_nm_nonneg r) as (total & Ht & Hpos).
  exists total. split; [exact Ht |]. split; [exact Hpos |].
  unfold distance_to_destination, dist_traveled.
  split; [| split; [| split]].
  - rewrite fraction_before_end by lra. f_equal. lra.
  - intros e1 e2 H. apply py_int_mono.
    pose proof (fraction_mono e1 e2 H). nra.
  - intros e He. pose proof (fraction_nonneg e He).
    pose proof (fraction_le_1 e).
    split.
    + apply py_int_lower; [lia | nra].
    + apply py_int_mono. nra.
  - intros e He. rewrite fraction_after_end by exact He.
    replace (total - total * 1) with 0 by lra. apply py_int_IZR.
Qed.

Lemma remaining_distance_counts_down_witness :
  exists total,
    total_dist_nm equator_route = OK total /\ 0 <= total
    /\ distance_to_destination total 0 = py_int total
    /\ (forall e1 e2, e1 <= e2 ->
          (distance_to_destination total e2
           <= distance_to_destination total e1)%Z)
    /\ (forall e, 0 <= e ->
          (0 <= distance_to_destination total e <= py_int total)%Z)
    /\ (forall e, 600 <= e -> distance_to_destination total e = 0%Z).
Proof.
  apply (remaining_distance_counts_down equator_route).
  - simpl. lra.
  - simpl. lra.
  - exact clear_equator_route.
Defined.

(** ** Pitch and roll *)

Lemma takeoff_pitch_range (e : R) :
  0 <= e -> (5 <= py_int (5 + 5 * Rmin e 30 / 30) <= 10)%Z.
Proof.
  intros He.
  assert (0 <= Rmin e 30 <= 30) as [H0 H1]
      by (split; [apply Rmin_glb; lra | apply Rmin_r]).
  split; [apply py_int_lower | apply py_int_upper]; try lia; lra.
Qed.

Lemma roll_range (e : R) : (-5 <= py_int (5 * sin (e / 10)) <= 5)%Z.
Proof.
  pose proof (SIN_bound (e / 10)).
  apply (py_int_range _ (-5) 5); [lia | lra].
Qed.

(** X12.  For a non-negative elapsed time and any phase number, the pitch
    field is the same in both revisions and lies between -2 and 10 degrees;
    the roll field of revision 6 lies between -5 and 5 degrees, and the
    roll field of revision 7 is always 0. *)
Theorem pitch_and_roll_range (phase : Z) (e : R) :
  0 <= e ->
  fst (V6.pitch_roll phase e) = fst (V7.pitch_roll phase e)
  /\ (-2 <= fst (V6.pitch_roll phase e) <= 10)%Z
  /\ (-5 <= snd (V6.pitch_roll phase e) <= 5)%Z
  /\ snd (V7.pitch_roll phase e) = 0%Z.
Proof.
  intros He.
  pose proof (takeoff_pitch_range e He) as Hp.
  pose proof (roll_range e) as Hr.
  unfold V6.pitch_roll, V7.pitch_roll.
  repeat match goal with
         | |- context [(phase =? ?k)%Z] => destruct (phase =? k)%Z
         end; cbn [fst snd]; repeat split; try reflexivity; lia.
Qed.

Lemma pitch_and_roll_range_witness :
  fst (V6.pitch_roll 3 100) = fst (V7.pitch_roll 3 100)
  /\ (-2 <= fst (V6.pitch_roll 3 100) <= 10)%Z
  /\ (-5 <= snd (V6.pitch_roll 3 100) <= 5)%Z
  /\ snd (V7.pitch_roll 3 100) = 0%Z.
Proof. apply (pitch_and_roll_range 3 100). lra. Defined.

Lemma phase_of_takeoff (e : R) : phase_of e = 2%Z -> 30 <= e < 60.
Proof.
  unfold phase_of. case_thresholds; intros H; try discriminate H; lra.
Qed.

Lemma takeoff_pitch_at_full (e : R) :
  30 <= e -> py_int (5 + 5 * Rmin e 30 / 30) = 10%Z.
Proof.
  intros H. rewrite Rmin_right by exact H.
  replace (5 + 5 * 30 / 30) with 10 by lra. apply py_int_IZR.
Qed.

(** In a sent trace that is a prefix of the ticks with their phases, every
    call carries the phase of its own elapsed time. *)
Lemma trace_phase_of {C : Type} (ticks : list (R * C)) (n : nat)
      (out : list (SendArgs * list byte)) :
  sent_trace out
  = firstn n (map (fun t => (fst t, phase_of (fst t))) ticks) ->
  Forall (fun s => arg_phase (fst s) = phase_of (arg_elapsed (fst s))) out.
Proof.
  intros H. apply Forall_forall. intros s Hs.
  assert (In (arg_elapsed (fst s), arg_phase (fst s)) (sent_trace out)) as Hi.
  { unfold sent_trace. apply in_map_iff. exists s. split; [reflexivity |].
    exact Hs. }
  rewrite H in Hi. apply In_firstn in Hi. apply in_map_iff in Hi.
  destruct Hi as (t & Ht & _). injection Ht as E1 E2.
  rewrite <- E1, <- E2. reflexivity.
Qed.

(** X11.  The take-off ramp of the pitch is never seen on the wire: when
    the elapsed times do not decrease, every call that [main] sends in
    phase 2 has an elapsed time of at least 30 s, so that its pitch is the
    full 10 degrees and its roll 0, in both revisions. *)
Theorem takeoff_pitch_is_always_10 (r : Route) :
  (forall ticks : list (R * V6.Clock),
      StronglySorted Rle (map fst ticks) ->
      Forall (fun s =>
                arg_phase (fst s) = 2%Z ->
                30 <= arg_elapsed (fst s)
                /\ V6.pitch_roll (arg_phase (fst s)) (arg_elapsed (fst s))
                   = (10%Z, 0%Z))
             (V6.main r ticks))
  /\
  (forall ticks : list (R * V7.Clock),
      StronglySorted Rle (map fst ticks) ->
      Forall (fun s =>
                arg_phase (fst s) = 2%Z ->
                30 <= arg_elapsed (fst s)
                /\ V7.pitch_roll (arg_phase (fst s)) (arg_elapsed (fst s))
                   = (10%Z, 0%Z))
             (V7.main r ticks)).
Proof.
  split; intros ticks Hs.
  - destruct (V6_loop_trace r ticks 1%Z Hs (reached_initial _)) as (n & Hn).
    apply trace_phase_of in Hn.
    eapply Forall_impl; [| exact Hn].
    intros s Hph H2. cbv beta in Hph. rewrite H2 in Hph.
    symmetry in Hph. apply phase_of_takeoff in Hph.
    split; [lra |]. rewrite H2. unfold V6.pitch_roll. cbn [Z.eqb Pos.eqb].
    rewrite takeoff_pitch_at_full by lra. reflexivity.
  - destruct (V7_loop_trace r ticks V7.initial_state Hs (reached_initial _))
      as (n & Hn).
    apply trace_phase_of in Hn.
    eapply Forall_impl; [| exact Hn].
    intros s Hph H2. cbv beta in Hph. rewrite H2 in Hph.
    symmetry in Hph. apply phase_of_takeoff in Hph.
    split; [lra |]. rewrite H2. unfold V7.pitch_roll. cbn [Z.eqb Pos.eqb].
    rewrite takeoff_pitch_at_full by lra. reflexivity.
Qed.

Lemma takeoff_pitch_is_always_10_witness :
  sent_phases (V6.main equator_route [(45, V6_sample_clock)]) = [2%Z]
  /\ Forall (fun s =>
               arg_phase (fst s) = 2%Z ->
               30 <= arg_elapsed (fst s)
               /\ V6.pitch_roll (arg_phase (fst s)) (arg_elapsed (fst s))
                  = (10%Z, 0%Z))
            (V6.main equator_route [(45, V6_sample_clock)]).
Proof.
  assert (StronglySorted Rle (map fst [(45, V6_sample_clock)])) as Hs
      by (simpl; repeat (apply SSorted_cons || apply SSorted_nil
                         || apply Forall_nil)).
  split.
  - rewrite V6_main_phases.
    + unfold phase_of. simpl. case_thresholds; try reflexivity; exfalso; lra.
    + exact wf_equator_route.
    + exact proper_equator_route.
    + repeat (apply Forall_cons || apply Forall_nil);
        (split; [simpl; lra | exact wf_V6_sample_clock]).
    + exact Hs.
  - apply (proj1 (takeoff_pitch_is_always_10 equator_route)). exact Hs.
Defined.

(** Called directly with phase 2 before 30 s, the function does ramp. *)
Example takeoff_pitch_ramps_when_called_early :
  V6.pitch_roll 2 15 = (7%Z, 0%Z) /\ V7.pitch_roll 2 15 = (7%Z, 0%Z).
Proof.
  unfold V6.pitch_roll, V7.pitch_roll. cbn [Z.eqb Pos.eqb].
  rewrite Rmin_left by lra.
  replace (5 + 5 * 15 / 30) with (IZR 7 + 1 / 2) by lra.
  assert (py_int (IZR 7 + 1 / 2) = 7%Z) as ->
      by (apply py_int_nonneg_eq; [lra | lia]).
  split; reflexivity.
Qed.

(** ** The date field *)

Lemma lor_low_bits (a b n : Z) :
  (0 <= n)%Z -> (0 <= b < 2 ^ n)%Z -> Z.lor (a * 2 ^ n) b = (a * 2 ^ n + b)%Z.
Proof.
  intros Hn Hb.
  assert (Z.land (a * 2 ^ n) b = 0%Z) as Hl.
  { apply Z.bits_inj'. intros k Hk.
    rewrite Z.land_spec, Z.bits_0.
    destruct (Z.lt_ge_cases k n) as [Hlt | Hge].
    - rewrite Z.mul_pow2_bits_low by exact Hlt. reflexivity.
    - assert (Z.testbit b k = false) as ->; [| apply andb_false_r].
      destruct (Z.eq_dec b 0) as [-> | Hne]; [apply Z.bits_0 |].
      apply Z.bits_above_log2; [lia |].
      apply Z.lt_le_trans with n; [| exact Hge].
      apply Z.log2_lt_pow2; lia. }
  pose proof (Z.add_lor_land (a * 2 ^ n) b) as E. lia.
Qed.

Lemma V6_date_enc_value (clk : V6.Clock) :
  (0 <= V6.tm_mon clk < 256)%Z -> (0 <= V6.tm_mday clk < 256)%Z ->
  V6.date_enc clk
  = (V6.tm_year clk * 65536 + V6.tm_mon clk * 256 + V6.tm_mday clk)%Z.
Proof.
  intros Hm Hd. unfold V6.date_enc.
  set (y := V6.tm_year clk). set (m := V6.tm_mon clk) in *.
  set (d := V6.tm_mday clk) in *.
  assert (Z.lor (Z.shiftl y 16) (Z.shiftl m 8) = ((y * 256 + m) * 2 ^ 8)%Z)
    as E.
  { replace (Z.shiftl y 16) with (Z.shiftl (y * 2 ^ 8) 8)
      by (rewrite !Z.shiftl_mul_pow2 by lia;
          change (2 ^ 16)%Z with 65536%Z; change (2 ^ 8)%Z with 256%Z; lia).
    rewrite <- Z.shiftl_lor.
    rewrite lor_low_bits by (change (2 ^ 8)%Z with 256%Z; lia).
    rewrite Z.shiftl_mul_pow2 by lia.
    change (2 ^ 8)%Z with 256%Z. lia. }
  rewrite E.
  rewrite lor_low_bits by (change (2 ^ 8)%Z with 256%Z; lia).
  change (2 ^ 8)%Z with 256%Z. lia.
Qed.

(** X13.  Both revisions put the same number in the date field: for a
    calendar date (month and day below 256, year from 0 to 65535) the
    shift-and-or of revision 6 and the pack-and-unpack of revision 7 both
    give [year * 65536 + month * 256 + day], from which the year, the month
    and the day are read back by division. *)
Theorem date_field_layout (c6 : V6.Clock) (c7 : V7.Clock) :
  (0 <= V6.tm_year c6 <= 65535)%Z ->
  (0 <= V6.tm_mon c6 < 256)%Z -> (0 <= V6.tm_mday c6 < 256)%Z ->
  V7.now_year c7 = V6.tm_year c6 ->
  V7.now_month c7 = V6.tm_mon c6 ->
  V7.now_day c7 = V6.tm_mday c6 ->
  V7.date_enc c7 = OK (V6.date_enc c6)
  /\ V6.date_enc c6
     = (V6.tm_year c6 * 65536 + V6.tm_mon c6 * 256 + V6.tm_mday c6)%Z
  /\ (V6.date_enc c6 / 65536 = V6.tm_year c6)%Z
  /\ ((V6.date_enc c6 / 256) mod 256 = V6.tm_mon c6)%Z
  /\ (V6.date_enc c6 mod 256 = V6.tm_mday c6)%Z.
Proof.
  intros Hy Hm Hd Ey Em Ed.
  pose proof (V6_date_enc_value c6 Hm Hd) as E6.
  split.
  - rewrite V7_date_enc_ok by (unfold V7_wf_clock; lia).
    rewrite Ey, Em, Ed, E6. reflexivity.
  - split; [exact E6 |]. rewrite E6.
    set (y := V6.tm_year c6) in *. set (m := V6.tm_mon c6) in *.
    set (d := V6.tm_mday c6) in *.
    split; [| split].
    + symmetry. apply (Z.div_unique _ 65536 y (m * 256 + d)); lia.
    + replace ((y * 65536 + m * 256 + d) / 256)%Z with (y * 256 + m)%Z
        by (apply (Z.div_unique _ 256 _ d); lia).
      symmetry. apply (Z.mod_unique _ 256 y m); lia.
    + symmetry. apply (Z.mod_unique _ 256 (y * 256 + m) d); lia.
Qed.

Lemma date_field_layout_witness :
  V7.date_enc V7_sample_clock = OK (V6.date_enc V6_sample_clock)
  /\ V6.date_enc V6_sample_clock = (2025 * 65536 + 6 * 256 + 15)%Z
  /\ (V6.date_enc V6_sample_clock / 65536 = 2025)%Z
  /\ ((V6.date_enc V6_sample_clock / 256) mod 256 = 6)%Z
  /\ (V6.date_enc V6_sample_clock mod 256 = 15)%Z.
Proof.
  apply (date_field_layout V6_sample_clock V7_sample_clock);
    simpl; try reflexivity; lia.
Defined.

(* ================================================================= *)
(** * Further properties: the encoders *)

(** ** Airport codes *)

(** The bytes of a big-endian [i] slot holding the value unpacked from four
    ASCII characters: the characters in the order of the unpacking. *)
Lemma slot_wire_bytes (o : byte_order) (c : fmt_code) (s : string) :
  c = fmt_i \/ c = fmt_I ->
  is_ascii_str s -> String.length s = 4%nat ->
  exists n b,
    str_encode_ascii s = OK b
    /\ struct_unpack1 o c b = OK n
    /\ List.length b = 4%nat
    /\ struct_pack (big_endian, [fmt_i]) [PyInt n] = OK (in_order o b).
Proof.
  intros Hc Has Hlen.
  unfold is_ascii_str in Has. unfold str_encode_ascii. rewrite Has.
  rewrite <- length_list_ascii_of_string in Hlen.
  destruct (list_ascii_of_string s) as [| a0 [| a1 [| a2 [| a3 [| a4 l]]]]];
    try discriminate Hlen.
  simpl in Has.
  repeat match goal with
         | H : (_ && _)%bool = true |- _ =>
             apply andb_prop in H; destruct H
         end.
  unfold is_ascii in *.
  repeat match goal with
         | H : (_ <? _)%N = true |- _ => apply N.ltb_lt in H
         end.
  simpl map.
  set (b0 := byte_of_ascii a0). set (b1 := byte_of_ascii a1).
  set (b2 := byte_of_ascii a2). set (b3 := byte_of_ascii a3).
  assert (0 <= Z_of_byte b0 < 128)%Z
    by (unfold b0; rewrite Z_of_byte_of_ascii; lia).
  assert (0 <= Z_of_byte b1 < 128)%Z
    by (unfold b1; rewrite Z_of_byte_of_ascii; lia).
  assert (0 <= Z_of_byte b2 < 128)%Z
    by (unfold b2; rewrite Z_of_byte_of_ascii; lia).
  assert (0 <= Z_of_byte b3 < 128)%Z
    by (unfold b3; rewrite Z_of_byte_of_ascii; lia).
  assert (forall n x0 x1 x2 x3,
             n = (((Z_of_byte x0 * 256 + Z_of_byte x1) * 256 + Z_of_byte x2)
                  * 256 + Z_of_byte x3)%Z ->
             (0 <= n < 2147483648)%Z ->
             struct_pack (big_endian, [fmt_i]) [PyInt n]
             = OK [x0; x1; x2; x3]) as Hpack.
  { intros n x0 x1 x2 x3 Hn Hr.
    unfold struct_pack, pack_all, pack_one, fits.
    cbn [fst snd code_size in_order].
    assert ((-2147483648 <=? n)%Z && (n <=? 2147483647)%Z = true) as ->
        by (apply andb_true_intro; split; apply Z.leb_le; lia).
    rewrite (to_bytes_be_4 x0 x1 x2 x3)
      by (rewrite Z.mod_small by lia; exact Hn).
    reflexivity. }
  assert (exists n,
             struct_unpack1 o c [b0; b1; b2; b3] = OK n
             /\ struct_pack (big_endian, [fmt_i]) [PyInt n]
                = OK (in_order o [b0; b1; b2; b3])) as (n & Hu & Hp).
  { unfold struct_unpack1.
    assert ((List.length [b0; b1; b2; b3] =? code_size c)%nat = true) as ->
        by (destruct Hc as [-> | ->]; reflexivity).
    cbn [negb].
    destruct o; cbn [in_order rev app]; rewrite from_bytes_be_4;
      destruct Hc as [-> | ->];
      try match goal with
          | |- context [(?u <? 2147483648)%Z] =>
              destruct (Z.ltb_spec u 2147483648); [| exfalso; lia]
          end;
      eexists; (split; [reflexivity |]);
      (apply Hpack; [reflexivity | lia]). }
  exists n, [b0; b1; b2; b3].
  repeat split; assumption.
Qed.

Lemma length_ljust_prefix (code : string) :
  String.length (str_ljust (str_prefix 4 code) 4) = 4%nat.
Proof. apply length_ljust, length_prefix. Qed.

Lemma length_prefix_ljust (s : string) :
  String.length (str_prefix 4 (str_ljust s 4)) = 4%nat.
Proof.
  unfold str_prefix, str_ljust.
  rewrite <- length_list_ascii_of_string.
  rewrite !list_ascii_of_string_of_list_ascii.
  rewrite length_firstn, length_app, repeat_length.
  rewrite length_list_ascii_of_string. lia.
Qed.

(** X15.  What an airport code looks like in the packet.  For an ASCII
    code, revision 6 yields a value whose big-endian [i] slot holds the
    first four characters of the code, padded with spaces, in reading
    order; revision 7 yields a value whose big-endian [i] slot holds the
    stripped, upper-cased and padded code with its four characters in
    reverse order. *)
Theorem airport_code_on_the_wire (code : string) :
  is_ascii_str code ->
  (exists n b,
      V6.encode_airport code = OK n
      /\ str_encode_ascii (str_ljust (str_prefix 4 code) 4) = OK b
      /\ List.length b = 4%nat
      /\ struct_pack (big_endian, [fmt_i]) [PyInt n] = OK b)
  /\
  (exists n b,
      V7.encode_airport code = OK n
      /\ str_encode_ascii
           (str_prefix 4 (str_ljust (str_upper (str_strip code)) 4)) = OK b
      /\ List.length b = 4%nat
      /\ struct_pack (big_endian, [fmt_i]) [PyInt n] = OK (rev b)).
Proof.
  intros H. split.
  - destruct (slot_wire_bytes big_endian fmt_i
                (str_ljust (str_prefix 4 code) 4))
      as (n & b & Hb & Hn & Hl & Hp).
    + left; reflexivity.
    + apply is_ascii_ljust, is_ascii_prefix, H.
    + apply length_ljust_prefix.
    + exists n, b. unfold V6.encode_airport. rewrite Hb. cbn [bind].
      repeat split; assumption.
  - pose proof (strip_ascii code H) as Hs.
    destruct (upper_ascii _ Hs) as [Hu _].
    destruct (slot_wire_bytes little_endian fmt_I
                (str_prefix 4 (str_ljust (str_upper (str_strip code)) 4)))
      as (n & b & Hb & Hn & Hl & Hp).
    + right; reflexivity.
    + apply is_ascii_prefix, is_ascii_ljust, Hu.
    + apply length_prefix_ljust.
    + exists n, b. unfold V7.encode_airport. rewrite Hb. cbn [bind].
      repeat split; assumption.
Qed.

Lemma airport_code_on_the_wire_witness :
  (exists n b,
      V6.encode_airport "jfk" = OK n
      /\ str_encode_ascii (str_ljust (str_prefix 4 "jfk") 4) = OK b
      /\ List.length b = 4%nat
      /\ struct_pack (big_endian, [fmt_i]) [PyInt n] = OK b)
  /\
  (exists n b,
      V7.encode_airport "jfk" = OK n
      /\ str_encode_ascii
           (str_prefix 4 (str_ljust (str_upper (str_strip "jfk")) 4)) = OK b
      /\ List.length b = 4%nat
      /\ struct_pack (big_endian, [fmt_i]) [PyInt n] = OK (rev b)).
Proof. apply (airport_code_on_the_wire "jfk"). reflexivity. Defined.

(** The wire bytes of "JFK": [b'JFK '] in revision 6, [b' KFJ'] in
    revision 7. *)
Example JFK_on_the_wire :
  (do n <- V6.encode_airport "JFK";
   struct_pack (big_endian, [fmt_i]) [PyInt n])
  = OK [x4a; x46; x4b; x20]
  /\ (do n <- V7.encode_airport "JFK";
      struct_pack (big_endian, [fmt_i]) [PyInt n])
     = OK [x20; x4b; x46; x4a].
Proof. split; reflexivity. Qed.

Lemma not_ascii_raises (s : string) :
  ~ is_ascii_str s -> str_encode_ascii s = Raise UnicodeEncodeError.
Proof.
  unfold is_ascii_str, str_encode_ascii. intros H.
  destruct (forallb is_ascii (list_ascii_of_string s));
    [exfalso; apply H; reflexivity | reflexivity].
Qed.

Lemma prefix_prefix (n : nat) (s : string) :
  str_prefix n (str_prefix n s) = str_prefix n s.
Proof.
  unfold str_prefix. rewrite list_ascii_of_string_of_list_ascii.
  rewrite firstn_firstn, Nat.min_id. reflexivity.
Qed.

(** X14.  [encode_airport] can only fail on a character outside ASCII.
    The string it encodes always has exactly four characters, so the
    unpacking never raises [struct.error]: the call raises
    [UnicodeEncodeError] when one of those four characters is not ASCII and
    otherwise returns a value that fits a signed 32-bit slot.  Revision 6
    silently ignores everything after the fourth character of the code. *)
Theorem encode_airport_only_fails_on_non_ascii (code : string) :
  let s6 := str_ljust (str_prefix 4 code) 4 in
  let s7 := str_prefix 4 (str_ljust (str_upper (str_strip code)) 4) in
  (is_ascii_str s6 -> exists n, V6.encode_airport code = OK n /\ int32 n)
  /\ (~ is_ascii_str s6 -> V6.encode_airport code = Raise UnicodeEncodeError)
  /\ (is_ascii_str s7 -> exists n, V7.encode_airport code = OK n /\ int32 n)
  /\ (~ is_ascii_str s7 -> V7.encode_airport code = Raise UnicodeEncodeError)
  /\ V6.encode_airport (str_prefix 4 code) = V6.encode_airport code.
Proof.
  intros s6 s7. split; [| split; [| split; [| split]]].
  - intros H. unfold V6.encode_airport. fold s6.
    apply unpack_ascii_int32;
      [left; reflexivity | exact H | apply length_ljust_prefix].
  - intros H. unfold V6.encode_airport. fold s6.
    rewrite not_ascii_raises by exact H. reflexivity.
  - intros H. unfold V7.encode_airport. fold s7.
    apply unpack_ascii_int32;
      [right; reflexivity | exact H | apply length_prefix_ljust].
  - intros H. unfold V7.encode_airport. fold s7.
    rewrite not_ascii_raises by exact H. reflexivity.
  - unfold V6.encode_airport. rewrite prefix_prefix. reflexivity.
Qed.

(** ** Flight names (revision 7) *)

Lemma slot_parts (o : byte_order) (c : fmt_code) (l : list ascii) :
  c = fmt_i \/ c = fmt_I ->
  forallb is_ascii l = true -> List.length l = 4%nat ->
  exists n b,
    str_encode_ascii (string_of_list_ascii l) = OK b
    /\ struct_unpack1 o c b = OK n
    /\ struct_pack (o, [c]) [PyInt n] = OK b
    /\ map ascii_of_byte b = l.
Proof.
  intros Hc Has Hlen.
  unfold str_encode_ascii.
  rewrite list_ascii_of_string_of_list_ascii, Has.
  destruct l as [| a0 [| a1 [| a2 [| a3 [| a4 l]]]]]; try discriminate Hlen.
  destruct (unpack_pack_4 o c (byte_of_ascii a0) (byte_of_ascii a1)
                          (byte_of_ascii a2) (byte_of_ascii a3) Hc)
    as (n & Hu & Hp).
  exists n. eexists. split; [reflexivity |].
  split; [exact Hu |]. split; [exact Hp |].
  cbn [map]. rewrite !ascii_of_byte_of_ascii. reflexivity.
Qed.

Lemma forallb_firstn {A : Type} (f : A -> bool) (n : nat) (l : list A) :
  forallb f l = true -> forallb f (firstn n l) = true.
Proof.
  revert n. induction l as [| x l IH]; intros [| n] H; simpl in *;
    try reflexivity.
  apply andb_prop in H. destruct H as [Hx Hl].
  rewrite Hx, (IH n Hl). reflexivity.
Qed.

Lemma forallb_skipn {A : Type} (f : A -> bool) (n : nat) (l : list A) :
  forallb f l = true -> forallb f (skipn n l) = true.
Proof.
  revert n. induction l as [| x l IH]; intros [| n] H; simpl in *;
    try reflexivity; try exact H.
  apply andb_prop in H. destruct H as [_ Hl]. apply IH. exact Hl.
Qed.

Lemma firstn_8_split {A : Type} (l : list A) :
  firstn 4 l ++ firstn 4 (skipn 4 l) = firstn 8 l.
Proof.
  destruct l as [| x0 [| x1 [| x2 [| x3 l]]]]; reflexivity.
Qed.

(** X16.  [encode_flight_name] round trip: for an ASCII name the function
    returns two unsigned values which, packed little-endian one after the
    other, are the bytes of the name padded with spaces to eight characters
    and cut after the eighth; characters beyond the eighth are dropped
    silently. *)
Theorem flight_name_round_trip (name : string) :
  is_ascii_str name ->
  exists v1 v2 b1 b2,
    V7.encode_flight_name name = OK (v1, v2)
    /\ struct_pack (little_endian, [fmt_I]) [PyInt v1] = OK b1
    /\ struct_pack (little_endian, [fmt_I]) [PyInt v2] = OK b2
    /\ bytes_decode_ascii (b1 ++ b2) = OK (str_prefix 8 (str_ljust name 8)).
Proof.
  intros H.
  pose proof (is_ascii_ljust name 8 H) as Hp. unfold is_ascii_str in Hp.
  assert (8 <= List.length (list_ascii_of_string (str_ljust name 8)))%nat
    as Hlen.
  { rewrite list_ascii_ljust, length_app, repeat_length,
      length_list_ascii_of_string. lia. }
  unfold V7.encode_flight_name, str_slice, str_prefix.
  set (l := list_ascii_of_string (str_ljust name 8)) in *.
  change (4 - 0)%nat with 4%nat. change (8 - 4)%nat with 4%nat.
  change (skipn 0 l) with l.
  destruct (slot_parts little_endian fmt_I (firstn 4 l))
    as (v1 & b1 & He1 & Hu1 & Hp1 & Hd1).
  { right; reflexivity. }
  { apply forallb_firstn. exact Hp. }
  { rewrite length_firstn. lia. }
  destruct (slot_parts little_endian fmt_I (firstn 4 (skipn 4 l)))
    as (v2 & b2 & He2 & Hu2 & Hp2 & Hd2).
  { right; reflexivity. }
  { apply forallb_firstn, forallb_skipn. exact Hp. }
  { rewrite length_firstn, length_skipn. lia. }
  exists v1, v2, b1, b2.
  rewrite He1, He2. cbn [bind]. rewrite Hu1, Hu2. cbn [bind].
  split; [reflexivity |]. split; [exact Hp1 |]. split; [exact Hp2 |].
  unfold bytes_decode_ascii.
  rewrite map_app, Hd1, Hd2, firstn_8_split.
  rewrite (forallb_firstn is_ascii 8 l Hp). reflexivity.
Qed.

Lemma flight_name_round_trip_witness :
  exists v1 v2 b1 b2,
    V7.encode_flight_name "TK  1920" = OK (v1, v2)
    /\ struct_pack (little_endian, [fmt_I]) [PyInt v1] = OK b1
    /\ struct_pack (little_endian, [fmt_I]) [PyInt v2] = OK b2
    /\ bytes_decode_ascii (b1 ++ b2)
       = OK (str_prefix 8 (str_ljust "TK  1920" 8)).
Proof. apply (flight_name_round_trip "TK  1920"). reflexivity. Defined.

Example flight_name_values :
  V7.encode_flight_name "TK  1920" = OK (538987348, 808597809)%Z
  /\ V7.encode_flight_name "AB" = OK (538985025, 538976288)%Z
  /\ V7.encode_flight_name "ABCDEFGHIJKL" = OK (1145258561, 1212630597)%Z.
Proof. repeat split; reflexivity. Qed.

(* ================================================================= *)
(** * Further properties: the layout of the packet *)

Lemma pack_all_app (o : byte_order) (cs1 cs2 : list fmt_code)
      (vs1 vs2 : list py_val) (b : list byte) :
  List.length cs1 = List.length vs1 ->
  pack_all o (cs1 ++ cs2) (vs1 ++ vs2) = OK b ->
  exists b1 b2,
    pack_all o cs1 vs1 = OK b1 /\ pack_all o cs2 vs2 = OK b2
    /\ b = b1 ++ b2.
Proof.
  revert vs1 b. induction cs1 as [| c cs1 IH]; intros [| v vs1] b Hlen H;
    try discriminate Hlen.
  - exists [], b. cbn [app] in H. repeat split; [exact H].
  - cbn [app pack_all] in H. inv_bind H. inv_bind H.
    inversion H; subst b.
    destruct (IH vs1 v1 ltac:(simpl in Hlen; lia) Hv0)
      as (b1 & b2 & H1 & H2 & ->).
    exists (v0 ++ b1), b2. cbn [pack_all]. rewrite Hv, H1. cbn [bind].
    split; [reflexivity |]. split; [exact H2 |]. apply app_assoc.
Qed.

(** Integer slots packed big-endian one after the other. *)
Lemma pack_all_ints (cs : list fmt_code) (zs : list Z) (b : list byte) :
  Forall (fun c => c = fmt_i \/ c = fmt_I) cs ->
  pack_all big_endian cs (map PyInt zs) = OK b ->
  b = flat_map (to_bytes_be 4) zs.
Proof.
  intros Hcs. revert zs b.
  induction Hcs as [| c cs Hc _ IH]; intros [| z zs] b H; cbn [map] in H;
    try discriminate H.
  - inversion H. reflexivity.
  - cbn [pack_all] in H. inv_bind H. inv_bind H. inversion H; subst b.
    cbn [flat_map]. rewrite <- (IH zs v0 Hv0). f_equal.
    unfold pack_one in Hv.
    destruct Hc as [-> | ->]; destruct (fits _ z); try discriminate Hv;
      inversion Hv; reflexivity.
Qed.

Lemma Forall_repeat {A : Type} (P : A -> Prop) (x : A) (n : nat) :
  P x -> Forall P (repeat x n).
Proof. intros H. induction n; simpl; constructor; assumption. Qed.

Lemma field_of_flat_map (zs : list Z) (tail : list byte) (i : nat) :
  (i < List.length zs)%nat ->
  firstn 4 (skipn (4 * i) (flat_map (to_bytes_be 4) zs ++ tail))
  = to_bytes_be 4 (nth i zs 0%Z).
Proof.
  revert i. induction zs as [| z zs IH]; intros i Hi; simpl in Hi; [lia |].
  destruct i as [| i].
  - reflexivity.
  - replace (4 * S i)%nat with (4 + 4 * i)%nat by lia.
    cbn [nth]. rewrite <- (IH i) by lia. reflexivity.
Qed.

Lemma field_of_packet (zs : list Z) (tail : list byte) (i : nat) :
  (i < List.length zs)%nat ->
  packet_field i (packet_header ++ flat_map (to_bytes_be 4) zs ++ tail)
  = to_bytes_be 4 (nth i zs 0%Z).
Proof.
  intros Hi. unfold packet_field, packet_header.
  rewrite <- (field_of_flat_map zs tail i Hi). reflexivity.
Qed.

Lemma V6_all_42_length (lat lon : R) (heading phase : Z) (e : R) (r : Route)
      (clk : V6.Clock) (ints : list Z) :
  V6.all_42_integers lat lon heading phase e r clk = OK ints ->
  List.length ints = 42%nat.
Proof.
  unfold V6.all_42_integers. intros H.
  repeat inv_bind H.
  destruct (V6.pitch_roll phase e) as [pitch roll].
  inversion H. reflexivity.
Qed.

Lemma V7_all_42_length (lat lon : R) (heading phase : Z) (e : R) (r : Route)
      (clk : V7.Clock) (ints : list Z) :
  V7.all_42_integers lat lon heading phase e r clk = OK ints ->
  List.length ints = 42%nat.
Proof.
  unfold V7.all_42_integers. intros H.
  repeat inv_bind H.
  destruct (V7.pitch_roll phase e) as [pitch roll].
  inversion H. reflexivity.
Qed.

(** Whenever revision 6 produces a packet, the packet is the header, the
    42 integers in their order and the flight number. *)
Lemma V6_send_layout (lat lon : R) (heading phase : Z) (e : R) (r : Route)
      (clk : V6.Clock) (packet : list byte) :
  V6.send_data_packet lat lon heading phase e r clk = OK packet ->
  exists ints,
    V6.all_42_integers lat lon heading phase e r clk = OK ints
    /\ List.length ints = 42%nat
    /\ packet
       = packet_header ++ flat_map (to_bytes_be 4) ints ++ V6.flight_str.
Proof.
  intros Hsend. unfold V6.send_data_packet in Hsend.
  inv_bind Hsend. rename v into ints. rename Hv into Hints.
  pose proof (V6_all_42_length _ _ _ _ _ _ _ _ Hints) as Hlen.
  exists ints. split; [exact Hints |]. split; [exact Hlen |].
  rewrite Hlen in Hsend. cbn [Nat.eqb negb] in Hsend.
  inv_bind Hsend.
  destruct (negb (List.length v =? V6.EXPECTED_PACKET_SIZE)%nat);
    [discriminate Hsend |].
  inversion Hsend; subst v. clear Hsend.
  unfold struct_pack in Hv.
  change (fst V6.DATA_FULL_FORMAT) with big_endian in Hv.
  change (snd V6.DATA_FULL_FORMAT)
    with ([fmt_H; fmt_H] ++ repeat fmt_i 42 ++ [fmt_s 5]) in Hv.
  apply pack_all_app in Hv; [| reflexivity].
  destruct Hv as (b1 & b2 & H1 & H2 & ->).
  apply pack_all_app in H2; [| rewrite repeat_length, length_map; lia].
  destruct H2 as (b3 & b4 & H3 & H4 & ->).
  apply pack_all_ints in H3; [| apply Forall_repeat; left; reflexivity].
  subst b3.
  cbv in H1. inversion H1; subst b1.
  cbv in H4. inversion H4; subst b4.
  reflexivity.
Qed.

(** Whenever revision 7 produces a packet, the packet is the header and
    the 42 integers in their order. *)
Lemma V7_send_layout (lat lon : R) (heading phase : Z) (e : R) (r : Route)
      (clk : V7.Clock) (packet : list byte) :
  V7.send_data_packet lat lon heading phase e r clk = OK packet ->
  exists ints,
    V7.all_42_integers lat lon heading phase e r clk = OK ints
    /\ List.length ints = 42%nat
    /\ packet = packet_header ++ flat_map (to_bytes_be 4) ints.
Proof.
  intros Hsend. unfold V7.send_data_packet in Hsend.
  inv_bind Hsend. rename v into ints. rename Hv into Hints.
  pose proof (V7_all_42_length _ _ _ _ _ _ _ _ Hints) as Hlen.
  exists ints. split; [exact Hints |]. split; [exact Hlen |].
  inv_bind Hsend.
  destruct (negb (List.length v =? V7.EXPECTED_PACKET_SIZE)%nat);
    [discriminate Hsend |].
  inversion Hsend; subst v. clear Hsend.
  unfold struct_pack in Hv.
  change (fst V7.DATA_FULL_FORMAT) with big_endian in Hv.
  change (snd V7.DATA_FULL_FORMAT)
    with ([fmt_H; fmt_H]
            ++ (repeat fmt_i 20 ++ [fmt_I] ++ repeat fmt_i 21)) in Hv.
  apply pack_all_app in Hv; [| reflexivity].
  destruct Hv as (b1 & b2 & H1 & H2 & ->).
  apply pack_all_ints in H2.
  - subst b2. cbv in H1. inversion H1; subst b1. reflexivity.
  - apply Forall_app. split; [apply Forall_repeat; left; reflexivity |].
    apply Forall_app. split; [repeat constructor; right; reflexivity |].
    apply Forall_repeat; left; reflexivity.
Qed.







(** X17.  The layout of a revision 6 packet.  Whenever [send_data_packet]
    produces a packet, whatever its inputs, the packet is the four header
    bytes FD FD 00 10, then the 42 integers of [all_42_integers] in their
    order, each as four big-endian bytes, then the five bytes of the
    flight number RC901; integer number [i] therefore sits at byte offset
    [4 + 4 * i].  And a packet is produced for well-formed inputs on a
    route whose destination keeps clear of the antipode of the
    departure. *)
Theorem V6_packet_layout (lat lon : R) (heading phase : Z) (e : R)
        (r : Route) (clk : V6.Clock) :
  (forall packet,
      V6.send_data_packet lat lon heading phase e r clk = OK packet ->
      exists ints,
        V6.all_42_integers lat lon heading phase e r clk = OK ints
        /\ List.length ints = 42%nat
        /\ packet
           = packet_header ++ flat_map (to_bytes_be 4) ints ++ V6.flight_str
        /\ forall i, (i < 42)%nat ->
                     packet_field i packet = to_bytes_be 4 (nth i ints 0%Z))
  /\ (wf_call lat lon heading phase e -> wf_route r -> clear_route r ->
      V6_wf_clock clk ->
      exists packet,
        V6.send_data_packet lat lon heading phase e r clk = OK packet).
Proof.
  split.
  - intros packet Hsend.
    destruct (V6_send_layout _ _ _ _ _ _ _ _ Hsend) as (ints & Hi & Hl & Hk).
    exists ints. split; [exact Hi |]. split; [exact Hl |].
    split; [exact Hk |].
    intros i Hi'. rewrite Hk. apply field_of_packet. lia.
  - intros Hc Hr _ Hk. apply V6_send_ok; assumption.
Qed.

Lemma V6_packet_layout_witness :
  exists ints packet,
    V6.all_42_integers 0 0 0 1 0 equator_route V6_sample_clock = OK ints
    /\ List.length ints = 42%nat
    /\ V6.send_data_packet 0 0 0 1 0 equator_route V6_sample_clock
       = OK packet
    /\ packet
       = packet_header ++ flat_map (to_bytes_be 4) ints ++ V6.flight_str
    /\ forall i, (i < 42)%nat ->
                 packet_field i packet = to_bytes_be 4 (nth i ints 0%Z).
Proof.
  destruct (V6_packet_layout 0 0 0 1 0 equator_route V6_sample_clock)
    as [Hlay Hex].
  destruct (Hex wf_call_at_gate wf_equator_route clear_equator_route
                wf_V6_sample_clock) as (packet & Hp).
  destruct (Hlay packet Hp) as (ints & Hi & Hl & Hk & Hf).
  exists ints, packet.
  split; [exact Hi |]. split; [exact Hl |]. split; [exact Hp |].
  split; [exact Hk | exact Hf].
Defined.

(** X18.  The layout of a revision 7 packet.  Whenever [send_data_packet]
    produces a packet, whatever its inputs, the packet is the four header
    bytes FD FD 00 10 followed by the 42 integers of [all_42_integers] in
    their order, each as four big-endian bytes, and nothing else: no
    flight number follows, and integer number [i] sits at byte offset
    [4 + 4 * i].  And a packet is produced for well-formed inputs on a
    route whose destination keeps clear of the antipode of the
    departure. *)
Theorem V7_packet_layout (lat lon : R) (heading phase : Z) (e : R)
        (r : Route) (clk : V7.Clock) :
  (forall packet,
      V7.send_data_packet lat lon heading phase e r clk = OK packet ->
      exists ints,
        V7.all_42_integers lat lon heading phase e r clk = OK ints
        /\ List.length ints = 42%nat
        /\ packet = packet_header ++ flat_map (to_bytes_be 4) ints
        /\ forall i, (i < 42)%nat ->
                     packet_field i packet = to_bytes_be 4 (nth i ints 0%Z))
  /\ (wf_call lat lon heading phase e -> wf_route r -> clear_route r ->
      V7_wf_clock clk ->
      exists packet,
        V7.send_data_packet lat lon heading phase e r clk = OK packet).
Proof.
  split.
  - intros packet Hsend.
    destruct (V7_send_layout _ _ _ _ _ _ _ _ Hsend) as (ints & Hi & Hl & Hk).
    exists ints. split; [exact Hi |]. split; [exact Hl |].
    split; [exact Hk |].
    intros i Hi'. rewrite Hk.
    rewrite <- (app_nil_r (flat_map (to_bytes_be 4) ints)).
    apply field_of_packet. lia.
  - intros Hc Hr _ Hk. apply V7_send_ok; assumption.
Qed.

Lemma V7_packet_layout_witness :
  exists ints packet,
    V7.all_42_integers 0 0 0 1 0 equator_route V7_sample_clock = OK ints
    /\ List.length ints = 42%nat
    /\ V7.send_data_packet 0 0 0 1 0 equator_route V7_sample_clock
       = OK packet
    /\ packet = packet_header ++ flat_map (to_bytes_be 4) ints
    /\ forall i, (i < 42)%nat ->
                 packet_field i packet = to_bytes_be 4 (nth i ints 0%Z).
Proof.
  destruct (V7_packet_layout 0 0 0 1 0 equator_route V7_sample_clock)
    as [Hlay Hex].
  destruct (Hex wf_call_at_gate wf_equator_route clear_equator_route
                wf_V7_sample_clock) as (packet & Hp).
  destruct (Hlay packet Hp) as (ints & Hi & Hl & Hk & Hf).
  exists ints, packet.
  split; [exact Hi |]. split; [exact Hl |]. split; [exact Hp |].
  split; [exact Hk | exact Hf].
Defined.

(** ** Size of the packet, and what it depends on *)




(* ================================================================= *)
(** * Further properties: the loop of [main] *)

Lemma phase_step_displayable (e : R) (cp : Z) :
  (1 <= cp <= 8)%Z -> (1 <= phase_step e cp <= 8)%Z.
Proof. intros H. unfold phase_step. case_thresholds; lia. Qed.

Lemma V6_iteration_call (r : Route) (cp cp' : Z) (e : R) (a : SendArgs) :
  on_globe (DEP_APT r) -> on_globe (DST_APT r) ->
  V6.main_iteration r cp e = OK (cp', a) ->
  -90 <= arg_lat a <= 90 /\ -180 <= arg_lon a <= 180
  /\ (0 <= arg_heading a < 360)%Z.
Proof.
  intros [Hd1 Hd2] [Hs1 Hs2]. unfold V6.main_iteration.
  rewrite phase_scan_table. intros H. inv_bind H.
  destruct v as [clat clon].
  destruct (interpolate_on_globe _ _ _ _ _ _ _ Hd1 Hd2 Hv) as [Hlat Hlon].
  pose proof (compute_heading_range clat clon (apt_lat (DST_APT r))
                                    (apt_lon (DST_APT r))) as Hh.
  destruct (Rge_dec (fraction e) 1); inversion H; subst;
    cbn [arg_lat arg_lon arg_heading]; repeat split; try lra; lia.
Qed.

Lemma V7_iteration_call (r : Route) (st st' : V7.LoopState) (e : R)
      (a : SendArgs) :
  on_globe (DEP_APT r) -> on_globe (DST_APT r) ->
  V7.main_iteration r st e = OK (st', a) ->
  -90 <= arg_lat a <= 90 /\ -180 <= arg_lon a <= 180
  /\ (0 <= arg_heading a < 360)%Z.
Proof.
  intros [Hd1 Hd2] [Hs1 Hs2]. unfold V7.main_iteration.
  rewrite phase_scan_table. intros H. inv_bind H.
  destruct v as [clat clon]. cbn [bind Z.eqb negb] in H.
  destruct (interpolate_on_globe _ _ _ _ _ _ _ Hd1 Hd2 Hv) as [Hlat Hlon].
  pose proof (compute_heading_range clat clon (apt_lat (DST_APT r))
                                    (apt_lon (DST_APT r))) as Hh.
  destruct (Rge_dec (fraction e) 1); inversion H; subst;
    cbn [arg_lat arg_lon arg_heading]; repeat split; try lra; lia.
Qed.

Lemma V6_loop_displayable (r : Route) (ticks : list (R * V6.Clock))
      (cp : Z) :
  on_globe (DEP_APT r) -> on_globe (DST_APT r) -> (1 <= cp <= 8)%Z ->
  Forall (fun s => displayable_call (fst s)) (V6.main_loop r cp ticks).
Proof.
  intros Hd Hs. revert cp.
  induction ticks as [| [e clk] ticks IH]; intros cp Hcp; simpl.
  - constructor.
  - destruct (V6.main_iteration r cp e) as [[cp' a] | ex] eqn:Hit;
      [| constructor].
    destruct (V6.send_data_packet _ _ _ _ _ r clk) as [pkt | ex];
      [| constructor].
    destruct (V6_iteration_phase r cp cp' e a Hit) as (E1 & E2 & _).
    pose proof (phase_step_displayable e cp Hcp) as Hp.
    constructor; [| apply IH; rewrite E1; exact Hp].
    destruct (V6_iteration_call r cp cp' e a Hd Hs Hit) as (H1 & H2 & H3).
    unfold displayable_call. cbn [fst]. rewrite E2.
    repeat split; try lra; lia.
Qed.

Lemma V7_loop_displayable (r : Route) (ticks : list (R * V7.Clock))
      (st : V7.LoopState) :
  on_globe (DEP_APT r) -> on_globe (DST_APT r) ->
  (1 <= V7.current_phase st <= 8)%Z ->
  Forall (fun s => displayable_call (fst s)) (V7.main_loop r st ticks).
Proof.
  intros Hd Hs. revert st.
  induction ticks as [| [e clk] ticks IH]; intros st Hcp; simpl.
  - constructor.
  - destruct (V7.main_iteration r st e) as [[st' a] | ex] eqn:Hit;
      [| constructor].
    destruct (V7.send_data_packet _ _ _ _ _ r clk) as [pkt | ex];
      [| constructor].
    destruct (V7_iteration_phase r st st' e a Hit) as (E1 & E2 & _).
    pose proof (phase_step_displayable e _ Hcp) as Hp.
    constructor; [| apply IH; rewrite E1; exact Hp].
    destruct (V7_iteration_call r st st' e a Hd Hs Hit) as (H1 & H2 & H3).
    unfold displayable_call. cbn [fst]. rewrite E2.
    repeat split; try lra; lia.
Qed.

(** X19.  An invariant of the loop of [main].  When the two airports of the
    route have a latitude in [[-90, 90]] and a longitude in [[-180, 180]],
    every call the loop sends, in either revision and for any sequence of
    elapsed times, has a position within the same bounds, a heading from 0
    to 359 and a phase from 1 to 8, so that the lookup
    [FLIGHT_PHASES[current_phase]] of the status line cannot fail. *)
Theorem main_calls_are_displayable (r : Route) :
  on_globe (DEP_APT r) -> on_globe (DST_APT r) ->
  (forall ticks, Forall (fun s => displayable_call (fst s)) (V6.main r ticks))
  /\
  (forall ticks, Forall (fun s => displayable_call (fst s)) (V7.main r ticks)).
Proof.
  intros Hd Hs. split; intros ticks.
  - apply V6_loop_displayable; try assumption. lia.
  - apply V7_loop_displayable; try assumption. simpl. lia.
Qed.

Lemma on_globe_equator_route :
  on_globe (DEP_APT equator_route) /\ on_globe (DST_APT equator_route).
Proof. unfold on_globe. simpl. repeat split; lra. Qed.

Lemma main_calls_are_displayable_witness :
  (forall ticks,
      Forall (fun s => displayable_call (fst s)) (V6.main equator_route ticks))
  /\
  (forall ticks,
      Forall (fun s => displayable_call (fst s)) (V7.main equator_route ticks)).
Proof.
  apply (main_calls_are_displayable equator_route);
    apply on_globe_equator_route.
Defined.

Lemma V6_loop_elapsed (r : Route) (ticks : list (R * V6.Clock)) (cp : Z) :
  wf_route r -> proper_route r -> int32 cp -> V6_wf_ticks ticks ->
  map (fun s => arg_elapsed (fst s)) (V6.main_loop r cp ticks)
  = map fst ticks.
Proof.
  intros Hr Hp. revert cp.
  induction ticks as [| [e clk] ticks IH]; intros cp Hcp Hall;
    [reflexivity |].
  inversion Hall as [| ? ? [He Hk] Hall']; subst. simpl in He, Hk.
  destruct (V6_iteration_ok r cp e Hr Hp Hcp He) as (cp' & a & Hit & Hcp' & Ha).
  destruct (V6_iteration_phase r cp cp' e a Hit) as (_ & _ & Hel).
  cbn [V6.main_loop]. rewrite Hit.
  destruct (V6_send_ok _ _ _ _ _ r clk Ha Hr Hk) as (packet & ->).
  cbn [map fst]. rewrite Hel. f_equal. apply IH; assumption.
Qed.

Lemma V7_loop_elapsed (r : Route) (ticks : list (R * V7.Clock))
      (st : V7.LoopState) :
  wf_route r -> proper_route r -> int32 (V7.current_phase st) ->
  V7_wf_ticks ticks ->
  map (fun s => arg_elapsed (fst s)) (V7.main_loop r st ticks)
  = map fst ticks.
Proof.
  intros Hr Hp. revert st.
  induction ticks as [| [e clk] ticks IH]; intros st Hcp Hall;
    [reflexivity |].
  inversion Hall as [| ? ? [He Hk] Hall']; subst. simpl in He, Hk.
  destruct (V7_iteration_ok r st e Hr Hp Hcp He) as (st' & a & Hit & Hcp' & Ha).
  destruct (V7_iteration_phase r st st' e a Hit) as (_ & _ & Hel).
  cbn [V7.main_loop]. rewrite Hit.
  destruct (V7_send_ok _ _ _ _ _ r clk Ha Hr Hk) as (packet & ->).
  cbn [map fst]. rewrite Hel. f_equal. apply IH; assumption.
Qed.

(** X20.  The loop never stops on an error of its own.  On a well-formed
    route whose airports are neither the same point nor antipodal, the
    destination clear of the antipode of the departure, and for elapsed
    times and clock readings that fit the packet, [main] sends exactly one
    packet per tick, in either revision: the elapsed times of the calls
    sent are the elapsed times of the ticks, in order. *)
Theorem main_sends_one_packet_per_tick (r : Route) :
  wf_route r -> proper_route r -> clear_route r ->
  (forall ticks, V6_wf_ticks ticks ->
                 map (fun s => arg_elapsed (fst s)) (V6.main r ticks)
                 = map fst ticks)
  /\
  (forall ticks, V7_wf_ticks ticks ->
                 map (fun s => arg_elapsed (fst s)) (V7.main r ticks)
                 = map fst ticks).
Proof.
  intros Hr Hp _. split; intros ticks Ht.
  - apply V6_loop_elapsed; try assumption. unfold int32. lia.
  - apply V7_loop_elapsed; try assumption. simpl. unfold int32. lia.
Qed.

Lemma main_sends_one_packet_per_tick_witness :
  map (fun s => arg_elapsed (fst s))
      (V6.main equator_route [(0, V6_sample_clock); (300, V6_sample_clock)])
  = [0; 300]
  /\
  map (fun s => arg_elapsed (fst s))
      (V7.main equator_route [(0, V7_sample_clock); (300, V7_sample_clock)])
  = [0; 300].
Proof.
  destruct (main_sends_one_packet_per_tick
              equator_route wf_equator_route proper_equator_route
              clear_equator_route)
    as [H6 H7].
  split.
  - apply (H6 [(0, V6_sample_clock); (300, V6_sample_clock)]).
    repeat (apply Forall_cons || apply Forall_nil);
      (split; [simpl; lra | exact wf_V6_sample_clock]).
  - apply (H7 [(0, V7_sample_clock); (300, V7_sample_clock)]).
    repeat (apply Forall_cons || apply Forall_nil);
      (split; [simpl; lra | exact wf_V7_sample_clock]).
Defined.

(* ================================================================= *)
(** * Further properties: the route picked at start-up *)

Lemma dict_mem_get (key : string) (d : directory) :
  dict_mem key d = true -> exists a, dict_get key d = Some a.
Proof.
  unfold dict_mem. destruct (dict_get key d) as [a |];
    [intros _; exists a; reflexivity | discriminate].
Qed.

(** X21.  A route given on the command line is validated.  With exactly
    two arguments after the program name, the start-up either exits with
    status 1 or returns the route of the two upper-cased codes: both are
    keys of the directory, they differ, and the route carries the
    directory's entries for them.  The lookups [AIRPORTS[DEP]] and
    [AIRPORTS[DST]] of [main] cannot raise [KeyError]. *)
Theorem route_from_arguments_is_validated
        (upper : string -> string) (AIRPORTS : directory)
        (argv : list string) :
  List.length argv = 3%nat ->
  main_route upper AIRPORTS argv = Stop (SystemExit 1)
  \/ exists r,
      main_route upper AIRPORTS argv = Done r
      /\ pick_route upper AIRPORTS argv = Done (DEP r, DST r)
      /\ DEP r = upper (nth 1 argv EmptyString)
      /\ DST r = upper (nth 2 argv EmptyString)
      /\ DEP r <> DST r
      /\ dict_get (DEP r) AIRPORTS = Some (DEP_APT r)
      /\ dict_get (DST r) AIRPORTS = Some (DST_APT r).
Proof.
  intros Hlen. unfold main_route, pick_route. rewrite Hlen.
  cbn [Nat.eqb].
  set (dep := upper (nth 1 argv EmptyString)).
  set (dst := upper (nth 2 argv EmptyString)).
  destruct (dict_mem dep AIRPORTS) eqn:Hdep; cbn [negb orb];
    [| left; reflexivity].
  destruct (dict_mem dst AIRPORTS) eqn:Hdst; cbn [negb];
    [| left; reflexivity].
  destruct (String.eqb_spec dep dst) as [E | E]; [left; reflexivity |].
  destruct (dict_mem_get dep AIRPORTS Hdep) as (a & Ha).
  destruct (dict_mem_get dst AIRPORTS Hdst) as (b & Hb).
  right. rewrite Ha, Hb. eexists. split; [reflexivity |].
  cbn [DEP DST DEP_APT DST_APT]. repeat split; assumption.
Qed.

Lemma route_from_arguments_is_validated_witness :
  main_route str_upper equator_directory ["sender.py"; "aaa"; "bbb"]%string
  = Stop (SystemExit 1)
  \/ exists r,
      main_route str_upper equator_directory
                 ["sender.py"; "aaa"; "bbb"]%string = Done r
      /\ pick_route str_upper equator_directory
                    ["sender.py"; "aaa"; "bbb"]%string = Done (DEP r, DST r)
      /\ DEP r = str_upper (nth 1 ["sender.py"; "aaa"; "bbb"]%string
                                EmptyString)
      /\ DST r = str_upper (nth 2 ["sender.py"; "aaa"; "bbb"]%string
                                EmptyString)
      /\ DEP r <> DST r
      /\ dict_get (DEP r) equator_directory = Some (DEP_APT r)
      /\ dict_get (DST r) equator_directory = Some (DST_APT r).
Proof.
  apply (route_from_arguments_is_validated
           str_upper equator_directory
           ["sender.py"; "aaa"; "bbb"]%string).
  reflexivity.
Defined.

(** X22.  The default route is not validated.  With any other number of
    arguments the command line is ignored and [pick_route] returns the
    codes JFK and ORD without looking them up: [main] then raises
    [KeyError] on the first of the two that the directory lacks, and
    otherwise flies from the directory's JFK to its ORD. *)
Theorem default_route_is_not_validated
        (upper : string -> string) (AIRPORTS : directory)
        (argv : list string) :
  List.length argv <> 3%nat ->
  pick_route upper AIRPORTS argv = Done ("JFK"%string, "ORD"%string)
  /\ (dict_get "JFK" AIRPORTS = None ->
      main_route upper AIRPORTS argv = Stop (KeyError "JFK"))
  /\ (forall a, dict_get "JFK" AIRPORTS = Some a ->
                dict_get "ORD" AIRPORTS = None ->
                main_route upper AIRPORTS argv = Stop (KeyError "ORD"))
  /\ (forall a b, dict_get "JFK" AIRPORTS = Some a ->
                  dict_get "ORD" AIRPORTS = Some b ->
                  main_route upper AIRPORTS argv
                  = Done {| DEP := "JFK"; DST := "ORD";
                            DEP_APT := a; DST_APT := b |}).
Proof.
  intros Hlen.
  assert (pick_route upper AIRPORTS argv = Done ("JFK"%string, "ORD"%string))
    as Hp.
  { unfold pick_route.
    destruct (Nat.eqb_spec (List.length argv) 3); [contradiction |].
    reflexivity. }
  split; [exact Hp |]. unfold main_route. rewrite Hp.
  split; [| split].
  - intros ->. reflexivity.
  - intros a -> ->. reflexivity.
  - intros a b -> ->. reflexivity.
Qed.

Lemma default_route_is_not_validated_witness :
  pick_route str_upper equator_directory ["sender.py"; "aaa"]%string
  = Done ("JFK"%string, "ORD"%string)
  /\ main_route str_upper equator_directory ["sender.py"; "aaa"]%string
     = Stop (KeyError "JFK").
Proof.
  destruct (default_route_is_not_validated
              str_upper equator_directory ["sender.py"; "aaa"]%string)
    as (H1 & H2 & _).
  - simpl. lia.
  - split; [exact H1 | apply H2; reflexivity].
Defined.

(** ** The directory loaded from the rows of the file *)

Section Loader.

Variable upper : string -> string.
Variable float_of_str : string -> option R.
Variable int_of_str : string -> option Z.

(** What one row does to the directory. *)
Lemma load_row_cases (row : Row) (d d' : directory) :
  load_row upper float_of_str int_of_str row d = Done d' ->
  d' = d
  \/ exists key a,
      row_airport upper float_of_str int_of_str row key a
      /\ d' = (key, a) :: d.
Proof.
  unfold load_row.
  destruct (ThreeLetId row) as [iata |] eqn:E1; [| discriminate].
  destruct (FourLetId row) as [icao |] eqn:E2; [| discriminate].
  destruct (PointGeoRefId row) as [geo |] eqn:E3; [| discriminate].
  destruct (Lat row) as [lat |] eqn:E4; [| discriminate].
  destruct (float_of_str lat) as [x |] eqn:E5;
    [| intros H; inversion H; left; reflexivity].
  destruct (Lon row) as [lon |] eqn:E6; [| discriminate].
  destruct (float_of_str lon) as [y |] eqn:E7;
    [| intros H; inversion H; left; reflexivity].
  intros H. inversion H. right. eexists. eexists.
  split; [| reflexivity].
  exists iata, icao, lat, lon, geo. cbn [apt_icao apt_lat apt_lon apt_geoID].
  repeat split; assumption.
Qed.

Lemma load_row_described (row : Row) (d : directory) (key : string)
      (a : Airport) :
  row_airport upper float_of_str int_of_str row key a ->
  load_row upper float_of_str int_of_str row d = Done ((key, a) :: d).
Proof.
  intros (iata & icao & lat & lon & geo & E1 & -> & E2 & Hi & E4 & E5 & E6
          & E7 & E3 & Hg).
  unfold load_row.
  rewrite E1, E2, E3, E4, E5, E6, E7.
  destruct a as [ai al ao ag]. cbn [apt_icao apt_lat apt_lon apt_geoID] in *.
  rewrite <- Hi, <- Hg. reflexivity.
Qed.

Lemma load_row_complete (row : Row) (d : directory) :
  complete_row row ->
  exists d', load_row upper float_of_str int_of_str row d = Done d'.
Proof.
  intros (H1 & H2 & H3 & H4 & H5).
  unfold load_row.
  destruct (ThreeLetId row); [| contradiction].
  destruct (FourLetId row); [| contradiction].
  destruct (PointGeoRefId row); [| contradiction].
  destruct (Lat row) as [lat |]; [| contradiction].
  destruct (float_of_str lat); [| eexists; reflexivity].
  destruct (Lon row) as [lon |]; [| contradiction].
  destruct (float_of_str lon); eexists; reflexivity.
Qed.

Lemma dict_mem_cons (key k : string) (a : Airport) (d : directory) :
  dict_mem key d = true -> dict_mem key ((k, a) :: d) = true.
Proof.
  unfold dict_mem. cbn [dict_get].
  destruct (String.eqb key k); [reflexivity | trivial].
Qed.

Lemma dict_mem_head (k : string) (a : Airport) (d : directory) :
  dict_mem k ((k, a) :: d) = true.
Proof.
  unfold dict_mem. cbn [dict_get]. rewrite String.eqb_refl. reflexivity.
Qed.

Lemma load_row_keeps (row : Row) (d d' : directory) (key : string) :
  load_row upper float_of_str int_of_str row d = Done d' ->
  dict_mem key d = true -> dict_mem key d' = true.
Proof.
  intros H Hm.
  destruct (load_row_cases row d d' H) as [-> | (k & a & _ & ->)];
    [exact Hm | apply dict_mem_cons; exact Hm].
Qed.

Lemma load_rows_keeps (rs : list Row) (d d' : directory) (key : string) :
  load_rows upper float_of_str int_of_str rs d = Done d' ->
  dict_mem key d = true -> dict_mem key d' = true.
Proof.
  revert d. induction rs as [| row rs IH]; intros d H Hm.
  - inversion H; subst. exact Hm.
  - cbn [load_rows] in H.
    destruct (load_row upper float_of_str int_of_str row d) as [d1 |] eqn:E;
      [| discriminate H].
    apply (IH d1 H). apply (load_row_keeps row d d1 key E Hm).
Qed.

Lemma load_rows_sound (rs : list Row) (d d' : directory) (key : string)
      (a : Airport) :
  load_rows upper float_of_str int_of_str rs d = Done d' ->
  dict_get key d' = Some a ->
  dict_get key d = Some a
  \/ exists row,
      In row rs /\ row_airport upper float_of_str int_of_str row key a.
Proof.
  revert d. induction rs as [| row rs IH]; intros d H Hg.
  - inversion H; subst. left. exact Hg.
  - cbn [load_rows] in H.
    destruct (load_row upper float_of_str int_of_str row d) as [d1 |] eqn:E;
      [| discriminate H].
    destruct (IH d1 H Hg) as [Hd1 | (row' & Hin & Hr)].
    + destruct (load_row_cases row d d1 E) as [-> | (k & b & Hr & ->)].
      * left. exact Hd1.
      * cbn [dict_get] in Hd1.
        destruct (String.eqb_spec key k) as [-> | Hne].
        -- inversion Hd1; subst b. right. exists row.
           split; [left; reflexivity | exact Hr].
        -- left. exact Hd1.
    + right. exists row'. split; [right; exact Hin | exact Hr].
Qed.

Lemma load_rows_complete (rs : list Row) (d d' : directory) (row : Row)
      (key : string) (a : Airport) :
  load_rows upper float_of_str int_of_str rs d = Done d' ->
  In row rs -> row_airport upper float_of_str int_of_str row key a ->
  dict_mem key d' = true.
Proof.
  revert d. induction rs as [| row0 rs IH]; intros d H Hin Hr;
    [destruct Hin |].
  cbn [load_rows] in H.
  destruct (load_row upper float_of_str int_of_str row0 d) as [d1 |] eqn:E;
    [| discriminate H].
  destruct Hin as [-> | Hin].
  - rewrite (load_row_described row d key a Hr) in E. inversion E; subst d1.
    apply (load_rows_keeps rs _ d' key H). apply dict_mem_head.
  - apply (IH d1 H Hin Hr).
Qed.

Lemma load_rows_total (rs : list Row) (d : directory) :
  Forall complete_row rs ->
  exists d', load_rows upper float_of_str int_of_str rs d = Done d'.
Proof.
  intros Hc. revert d. induction Hc as [| row rs Hrow _ IH]; intros d.
  - exists d. reflexivity.
  - destruct (load_row_complete row d Hrow) as (d1 & E).
    destruct (IH d1) as (d' & H). exists d'.
    cbn [load_rows]. rewrite E. exact H.
Qed.

Lemma load_rows_last (rs : list Row) (row : Row) (d : directory)
      (key : string) (a : Airport) :
  Forall complete_row rs ->
  row_airport upper float_of_str int_of_str row key a ->
  exists d',
    load_rows upper float_of_str int_of_str (rs ++ [row]) d = Done d'
    /\ dict_get key d' = Some a.
Proof.
  intros Hc Hr. revert d. induction Hc as [| row0 rs Hrow _ IH]; intros d.
  - exists ((key, a) :: d). cbn [app load_rows].
    rewrite (load_row_described row d key a Hr).
    split; [reflexivity |]. cbn [dict_get]. rewrite String.eqb_refl.
    reflexivity.
  - destruct (load_row_complete row0 d Hrow) as (d1 & E).
    destruct (IH d1) as (d' & H & Hg). exists d'.
    cbn [app load_rows]. rewrite E. split; assumption.
Qed.

Lemma load_airports_rows (names : list string) (rs : list Row) :
  (forall f, In f required_fields -> In f names) ->
  load_airports upper float_of_str int_of_str
                (Some {| fieldnames := Some names; rows := rs |})
  = load_rows upper float_of_str int_of_str rs [].
Proof.
  intros Hn. unfold load_airports. cbn [fieldnames rows].
  assert (forallb (fun field => existsb (String.eqb field) names)
                  required_fields = true) as ->; [| reflexivity].
  apply forallb_forall. intros f Hf. apply existsb_exists.
  exists f. split; [apply Hn; exact Hf | apply String.eqb_refl].
Qed.

(** X23.  What [load_airports] returns.  For a file whose header has the
    five required names and whose rows have a value in each of the five
    columns, the loader returns a directory; every entry of the directory
    comes from a row of the file (key and four-letter code upper-cased,
    coordinates as parsed, city id as given or [INVALDATA]), and every row
    whose latitude and longitude parse has its key in the directory.  Rows
    whose coordinates do not parse are skipped without an error. *)
Theorem load_airports_directory (names : list string) (rs : list Row) :
  (forall f, In f required_fields -> In f names) ->
  Forall complete_row rs ->
  exists d,
    load_airports upper float_of_str int_of_str
                  (Some {| fieldnames := Some names; rows := rs |}) = Done d
    /\ (forall key a,
           dict_get key d = Some a ->
           exists row,
             In row rs
             /\ row_airport upper float_of_str int_of_str row key a)
    /\ (forall row key a,
           In row rs ->
           row_airport upper float_of_str int_of_str row key a ->
           dict_mem key d = true).
Proof.
  intros Hn Hc. rewrite load_airports_rows by exact Hn.
  destruct (load_rows_total rs [] Hc) as (d & Hd).
  exists d. split; [exact Hd |]. split.
  - intros key a Hg.
    destruct (load_rows_sound rs [] d key a Hd Hg) as [H0 | H]; [| exact H].
    discriminate H0.
  - intros row key a Hin Hr.
    apply (load_rows_complete rs [] d row key a Hd Hin Hr).
Qed.

(** X24.  A later row overrides the earlier rows of the same code: after
    any rows with a value in each column, a row that describes an airport
    leaves exactly that airport under its key in the directory. *)
Theorem later_row_overrides (names : list string) (rs : list Row)
        (row : Row) (key : string) (a : Airport) :
  (forall f, In f required_fields -> In f names) ->
  Forall complete_row rs ->
  row_airport upper float_of_str int_of_str row key a ->
  exists d,
    load_airports upper float_of_str int_of_str
                  (Some {| fieldnames := Some names; rows := rs ++ [row] |})
    = Done d
    /\ dict_get key d = Some a.
Proof.
  intros Hn Hc Hr. rewrite load_airports_rows by exact Hn.
  apply load_rows_last; assumption.
Qed.

Lemma main_route_found (AIRPORTS : directory) (argv : list string)
      (a b : Airport) :
  List.length argv = 3%nat ->
  dict_get (upper (nth 1 argv EmptyString)) AIRPORTS = Some a ->
  dict_get (upper (nth 2 argv EmptyString)) AIRPORTS = Some b ->
  upper (nth 1 argv EmptyString) <> upper (nth 2 argv EmptyString) ->
  main_route upper AIRPORTS argv
  = Done {| DEP := upper (nth 1 argv EmptyString);
            DST := upper (nth 2 argv EmptyString);
            DEP_APT := a; DST_APT := b |}.
Proof.
  intros Hlen Ha Hb Hne. unfold main_route, pick_route, dict_mem.
  rewrite Hlen, Ha, Hb. cbn [Nat.eqb negb orb].
  destruct (String.eqb_spec (upper (nth 1 argv EmptyString))
                            (upper (nth 2 argv EmptyString)));
    [contradiction |].
  rewrite Ha, Hb. reflexivity.
Qed.

(** X25.  From the file to the route.  When the file lists two airports
    with parsable coordinates under codes whose upper-case forms differ,
    naming the two codes on the command line, in any letter case that has
    the same upper-case form, starts the flight: the start-up returns the
    route between the two upper-cased codes, with airports that rows of the
    file describe under those codes. *)
Theorem listed_airports_can_be_flown
        (names : list string) (rs : list Row) (row1 row2 : Row)
        (a1 a2 : Airport) (prog dep dst : string) :
  (forall f, In f required_fields -> In f names) ->
  Forall complete_row rs ->
  In row1 rs -> In row2 rs ->
  row_airport upper float_of_str int_of_str row1 (upper dep) a1 ->
  row_airport upper float_of_str int_of_str row2 (upper dst) a2 ->
  upper dep <> upper dst ->
  exists r,
    main_startup upper float_of_str int_of_str
                 (Some {| fieldnames := Some names; rows := rs |})
                 [prog; dep; dst] = Done r
    /\ DEP r = upper dep /\ DST r = upper dst
    /\ (exists row,
           In row rs
           /\ row_airport upper float_of_str int_of_str row (upper dep)
                          (DEP_APT r))
    /\ (exists row,
           In row rs
           /\ row_airport upper float_of_str int_of_str row (upper dst)
                          (DST_APT r)).
Proof.
  intros Hn Hc Hin1 Hin2 Hr1 Hr2 Hne.
  unfold main_startup. rewrite load_airports_rows by exact Hn.
  destruct (load_rows_total rs [] Hc) as (d & Hd). rewrite Hd.
  destruct (dict_mem_get _ d
              (load_rows_complete rs [] d row1 _ a1 Hd Hin1 Hr1))
    as (b1 & Hb1).
  destruct (dict_mem_get _ d
              (load_rows_complete rs [] d row2 _ a2 Hd Hin2 Hr2))
    as (b2 & Hb2).
  rewrite (main_route_found d [prog; dep; dst] b1 b2);
    try reflexivity; try assumption.
  eexists. split; [reflexivity |].
  cbn [DEP DST DEP_APT DST_APT nth].
  split; [reflexivity |]. split; [reflexivity |]. split.
  - destruct (load_rows_sound rs [] d _ b1 Hd Hb1) as [H0 | H];
      [discriminate H0 | exact H].
  - destruct (load_rows_sound rs [] d _ b2 Hd Hb2) as [H0 | H];
      [discriminate H0 | exact H].
Qed.

End Loader.

Lemma sample_rows_complete : Forall complete_row sample_rows.
Proof.
  repeat (apply Forall_cons || apply Forall_nil);
    unfold complete_row; cbn; repeat split; discriminate.
Qed.

Lemma sample_row_AAA :
  row_airport str_upper sample_float sample_int
              (nth 0 sample_rows empty_row)
              "AAA" sample_AAA.
Proof.
  exists "aaa"%string, "kaaa"%string, "0"%string, "0"%string, " 7 "%string.
  repeat split; reflexivity.
Qed.

Lemma sample_row_BBB :
  row_airport str_upper sample_float sample_int
              (nth 2 sample_rows empty_row)
              "BBB" sample_BBB.
Proof.
  exists "bbb"%string, "kbbb"%string, "0"%string, "90"%string, "null"%string.
  repeat split; reflexivity.
Qed.

Lemma load_airports_directory_witness :
  exists d,
    load_airports str_upper sample_float sample_int sample_file = Done d
    /\ (forall key a,
           dict_get key d = Some a ->
           exists row,
             In row sample_rows
             /\ row_airport str_upper sample_float sample_int row key a)
    /\ (forall row key a,
           In row sample_rows ->
           row_airport str_upper sample_float sample_int row key a ->
           dict_mem key d = true).
Proof.
  apply (load_airports_directory str_upper sample_float sample_int
                                 required_fields sample_rows).
  - intros f Hf. exact Hf.
  - exact sample_rows_complete.
Defined.

Lemma later_row_overrides_witness :
  exists d,
    load_airports str_upper sample_float sample_int
                  (Some {| fieldnames := Some required_fields;
                           rows := sample_rows
                                     ++ [{| ThreeLetId := Some "AAA"%string;
                                            FourLetId := Some "kbbb"%string;
                                            Lat := Some "0"%string;
                                            Lon := Some "90"%string;
                                            PointGeoRefId :=
                                              Some "null"%string |}] |})
    = Done d
    /\ dict_get "AAA" d = Some sample_BBB.
Proof.
  apply (later_row_overrides str_upper sample_float sample_int
                             required_fields sample_rows).
  - intros f Hf. exact Hf.
  - exact sample_rows_complete.
  - exists "AAA"%string, "kbbb"%string, "0"%string, "90"%string,
      "null"%string.
    repeat split; reflexivity.
Defined.

Lemma listed_airports_can_be_flown_witness :
  exists r,
    main_startup str_upper sample_float sample_int sample_file
                 ["sender.py"; "Aaa"; "bbb"]%string = Done r
    /\ DEP r = str_upper "Aaa" /\ DST r = str_upper "bbb"
    /\ (exists row,
           In row sample_rows
           /\ row_airport str_upper sample_float sample_int row
                          (str_upper "Aaa") (DEP_APT r))
    /\ (exists row,
           In row sample_rows
           /\ row_airport str_upper sample_float sample_int row
                          (str_upper "bbb") (DST_APT r)).
Proof.
  apply (listed_airports_can_be_flown
           str_upper sample_float sample_int required_fields sample_rows
           (nth 0 sample_rows empty_row) (nth 2 sample_rows empty_row)
           sample_AAA sample_BBB "sender.py" "Aaa" "bbb").
  - intros f Hf. exact Hf.
  - exact sample_rows_complete.
  - left. reflexivity.
  - right. right. left. reflexivity.
  - exact sample_row_AAA.
  - exact sample_row_BBB.
  - discriminate.
Defined.

(** The sample file loads into two airports; the row with the unparsable
    latitude is skipped, [" 7 "] is read as city id 7 and ["null"] as
    [INVALDATA]. *)
Example sample_file_loaded :
  load_airports str_upper sample_float sample_int sample_file
  = Done [("BBB"%string, sample_BBB); ("AAA"%string, sample_AAA)].
Proof. reflexivity. Qed.

(** A missing file and a header without a required name exit with status
    1; an empty file, which has no header at all, raises [TypeError]. *)
Example load_airports_edge_cases :
  load_airports str_upper sample_float sample_int None
  = Stop (SystemExit 1)
  /\ load_airports str_upper sample_float sample_int
                   (Some {| fieldnames := Some ["Lat"; "Lon"]%string;
                            rows := sample_rows |})
     = Stop (SystemExit 1)
  /\ load_airports str_upper sample_float sample_int
                   (Some {| fieldnames := None; rows := [] |})
     = Stop TypeError.
Proof. repeat split; reflexivity. Qed.

(* ================================================================= *)
(** * Further properties: schedule, time fields, bearings, Mach number *)

Lemma phase_of_on_schedule (a : SendArgs) :
  arg_phase a = phase_of (arg_elapsed a) -> on_schedule a.
Proof.
  unfold on_schedule, phase_of. cbv zeta. intros ->.
  case_thresholds; repeat split; intros; try reflexivity; exfalso; lra.
Qed.

(** X26.  The phase sent follows the schedule exactly.  When the elapsed
    times do not decrease, every call that [main] sends, in either
    revision, carries phase 1 before 30 s, 2 from 30 s, 3 from 60 s, 4 from
    180 s, 5 from 480 s, 6 from 540 s and 8 from 600 s on. *)
Theorem sent_phase_follows_the_schedule (r : Route) :
  (forall ticks : list (R * V6.Clock),
      StronglySorted Rle (map fst ticks) ->
      Forall (fun s => on_schedule (fst s)) (V6.main r ticks))
  /\
  (forall ticks : list (R * V7.Clock),
      StronglySorted Rle (map fst ticks) ->
      Forall (fun s => on_schedule (fst s)) (V7.main r ticks)).
Proof.
  split; intros ticks Hs.
  - destruct (V6_loop_trace r ticks 1%Z Hs (reached_initial _)) as (n & Hn).
    apply trace_phase_of in Hn.
    eapply Forall_impl; [| exact Hn].
    intros s Hph. apply phase_of_on_schedule. exact Hph.
  - destruct (V7_loop_trace r ticks V7.initial_state Hs (reached_initial _))
      as (n & Hn).
    apply trace_phase_of in Hn.
    eapply Forall_impl; [| exact Hn].
    intros s Hph. apply phase_of_on_schedule. exact Hph.
Qed.

Lemma sent_phase_follows_the_schedule_witness :
  sent_phases (V7.main equator_route
                 [(0, V7_sample_clock); (300, V7_sample_clock);
                  (600, V7_sample_clock); (650, V7_sample_clock)])
  = [1; 4; 8; 8]%Z
  /\ Forall (fun s => on_schedule (fst s))
            (V7.main equator_route
               [(0, V7_sample_clock); (300, V7_sample_clock);
                (600, V7_sample_clock); (650, V7_sample_clock)]).
Proof.
  split; [exact equator_flight_phases |].
  apply (proj2 (sent_phase_follows_the_schedule equator_route)).
  simpl. repeat (apply SSorted_cons || apply SSorted_nil
                 || apply Forall_cons || apply Forall_nil); lra.
Defined.

(** [int(x / k)] is the integer quotient of [int(x)] by [k]. *)
Lemma py_int_div (x : R) (k : Z) :
  0 <= x -> (0 < k)%Z -> py_int (x / IZR k) = (py_int x / k)%Z.
Proof.
  intros Hx Hk.
  destruct (py_int_between x) as [Hb _]. specialize (Hb Hx).
  assert (x < IZR (py_int x) + 1) as Hlt.
  { unfold py_int. destruct (Rle_dec 0 x); [| contradiction].
    apply Zfloor_bound. }
  assert (0 <= py_int x)%Z as Hn by (apply le_IZR; lra).
  assert (0 < IZR k) as Hkr by (apply IZR_lt; exact Hk).
  pose proof (Z.div_mod (py_int x) k ltac:(lia)) as Hdm.
  pose proof (Z.mod_pos_bound (py_int x) k Hk) as Hm.
  set (n := py_int x) in *. set (q := (n / k)%Z) in *.
  assert (0 <= q)%Z as Hq by (apply Z.div_pos; lia).
  assert (IZR n = IZR k * IZR q + IZR (n mod k)) as Hr
      by (rewrite <- mult_IZR, <- plus_IZR; f_equal; exact Hdm).
  assert (0 <= IZR (n mod k)) as Hm0 by (apply IZR_le; lia).
  assert (IZR (n mod k) + 1 <= IZR k) as Hm1
      by (rewrite <- plus_IZR; apply IZR_le; lia).
  apply py_int_nonneg_eq; [| exact Hq].
  split.
  - apply Rmult_le_reg_r with (IZR k); [exact Hkr |].
    unfold Rdiv. rewrite Rmult_assoc, Rinv_l by lra. nra.
  - apply Rmult_lt_reg_r with (IZR k); [exact Hkr |].
    unfold Rdiv. rewrite Rmult_assoc, Rinv_l by lra. nra.
Qed.

(** X27.  Revision 7 reports the two time fields in whole minutes where
    revision 6 reports whole seconds: for a non-negative elapsed time the
    remaining-time field and the time-since-departure field of revision 7
    are the integer quotients by 60 of those of revision 6; the
    remaining-time field of revision 6 lies between 0 and 600 and is 0
    from the scheduled end on. *)
Theorem time_fields_in_minutes (e : R) :
  0 <= e ->
  py_int (V7.remaining_time e) = (py_int (V6.remaining_time e) / 60)%Z
  /\ V7.time_since_departure e = (V6.time_since_departure e / 60)%Z
  /\ (0 <= py_int (V6.remaining_time e) <= 600)%Z
  /\ (600 <= e -> py_int (V6.remaining_time e) = 0%Z).
Proof.
  intros He.
  pose proof (V6_remaining_time_bound e He) as [H0 H1].
  split; [| split; [| split]].
  - unfold V7.remaining_time. fold (V6.remaining_time e).
    apply (py_int_div _ 60); [exact H0 | lia].
  - unfold V7.time_since_departure, V6.time_since_departure.
    apply (py_int_div _ 60); [exact He | lia].
  - apply (py_int_range _ 0 600); [lia | lra].
  - intros Hend. unfold V6.remaining_time, TOTAL_FLIGHT_SECONDS.
    rewrite Rmax_right by lra. apply py_int_IZR.
Qed.

Lemma time_fields_in_minutes_witness :
  py_int (V7.remaining_time 250) = (py_int (V6.remaining_time 250) / 60)%Z
  /\ V7.time_since_departure 250 = (V6.time_since_departure 250 / 60)%Z
  /\ (0 <= py_int (V6.remaining_time 250) <= 600)%Z
  /\ (600 <= 250 -> py_int (V6.remaining_time 250) = 0%Z).
Proof. apply (time_fields_in_minutes 250). lra. Defined.

Lemma heading_equator_terms (lon1 lon2 : R) :
  compute_heading 0 lon1 0 lon2
  = py_int (py_fmod (degrees (atan2 (sin (radians (lon2 - lon1))) 0)
                     + 360) 360).
Proof.
  unfold compute_heading. rewrite radians_0, sin_0, cos_0.
  replace (sin (radians (lon2 - lon1)) * 1)
    with (sin (radians (lon2 - lon1))) by ring.
  replace (1 * 0 - 0 * 1 * cos (radians (lon2 - lon1))) with 0 by ring.
  reflexivity.
Qed.

(** X28.  Along the equator the bearing is due east or due west: between
    two points of latitude 0, [compute_heading] is 90 when the target lies
    less than 180 degrees of longitude to the east and 270 when it lies
    less than 180 degrees to the west. *)
Theorem heading_along_the_equator (lon1 lon2 : R) :
  (0 < lon2 - lon1 < 180 -> compute_heading 0 lon1 0 lon2 = 90%Z)
  /\ (-180 < lon2 - lon1 < 0 -> compute_heading 0 lon1 0 lon2 = 270%Z).
Proof.
  pose proof PI_RGT_0 as Hpi.
  assert (radians (lon2 - lon1) = (lon2 - lon1) * (PI / 180)) as Hd
      by reflexivity.
  rewrite heading_equator_terms. split; intros Hl.
  - assert (0 < sin (radians (lon2 - lon1))) as Hs
        by (apply sin_gt_0; rewrite Hd; nra).
    apply py_int_fmod_heading; [| lia].
    unfold atan2.
    destruct (Rlt_dec 0 0); [exfalso; lra |].
    destruct (Rlt_dec 0 (sin (radians (lon2 - lon1)))); [| exfalso; lra].
    unfold degrees. field. lra.
  - assert (sin (radians (lon2 - lon1)) < 0) as Hs
        by (apply sin_lt_0_var; rewrite Hd; nra).
    rewrite (py_fmod_shift _ _ 0) by
        (unfold atan2;
         destruct (Rlt_dec 0 0); [exfalso; lra |];
         destruct (Rlt_dec 0 (sin (radians (lon2 - lon1))));
           [exfalso; lra |];
         destruct (Rlt_dec (sin (radians (lon2 - lon1))) 0);
           [| exfalso; lra];
         unfold degrees;
         replace (- (PI / 2) * (180 / PI)) with (-90) by (field; lra);
         lra).
    unfold atan2.
    destruct (Rlt_dec 0 0); [exfalso; lra |].
    destruct (Rlt_dec 0 (sin (radians (lon2 - lon1)))); [exfalso; lra |].
    destruct (Rlt_dec (sin (radians (lon2 - lon1))) 0); [| exfalso; lra].
    unfold degrees.
    replace (- (PI / 2) * (180 / PI) + 360 - 360 * 0) with (IZR 270)
      by (field; lra).
    apply py_int_IZR.
Qed.

Lemma heading_along_the_equator_witness :
  compute_heading 0 10 0 50 = 90%Z /\ compute_heading 0 50 0 10 = 270%Z.
Proof.
  split.
  - apply (proj1 (heading_along_the_equator 10 50)). lra.
  - apply (proj2 (heading_along_the_equator 50 10)). lra.
Defined.

Lemma sqrt_between (x lo hi : R) :
  0 <= lo -> lo * lo <= x -> x <= hi * hi -> 0 <= hi -> lo <= sqrt x <= hi.
Proof.
  intros Hlo H1 H2 Hhi. split.
  - rewrite <- (sqrt_square lo Hlo). apply sqrt_le_1_alt. exact H1.
  - rewrite <- (sqrt_square hi Hhi). apply sqrt_le_1_alt. exact H2.
Qed.

Lemma div_between (a b A0 A1 B0 B1 : R) :
  0 <= A0 <= a -> a <= A1 -> 0 < B0 <= b -> b <= B1 ->
  A0 / B1 <= a / b <= A1 / B0.
Proof.
  intros [Ha0 Ha] Ha1 [Hb0 Hb] Hb1.
  assert (0 < b) by lra. assert (0 < B1) by lra.
  split.
  - apply Rmult_le_reg_r with (b * B1); [nra |].
    replace (A0 / B1 * (b * B1)) with (A0 * b) by (field; lra).
    replace (a / b * (b * B1)) with (a * B1) by (field; lra).
    nra.
  - apply Rmult_le_reg_r with (b * B0); [nra |].
    replace (a / b * (b * B0)) with (a * B0) by (field; lra).
    replace (A1 / B0 * (b * B0)) with (A1 * b) by (field; lra).
    nra.
Qed.

(** X29.  The Mach field never fails and stays in a fixed band.  In
    revision 7, where the temperature is the constant 5, the field is
    between 4130 and 5163 for every elapsed time, that is more than four
    times the speed of sound on its scale of 1000 per Mach.  In revision 6,
    for a non-negative elapsed time, the temperature stays between 60.65
    and 288.15 kelvins, so the square root never raises, and the field is
    between 5439 and 14826 on its scale of 10000 per Mach. *)
Theorem mach_field_range (e : R) :
  (exists m, V7.mach e = OK m /\ (4130 <= m <= 5163)%Z)
  /\ (0 <= e ->
      60.65 <= V6.temperature e <= 288.15
      /\ exists m, V6.mach e = OK m /\ (5439 <= m <= 14826)%Z).
Proof.
  pose proof (true_airspeed_bound e) as [Hl Hh].
  split.
  - unfold V7.mach, V7.speed_of_sound, V7.temperature.
    rewrite py_sqrt_nonneg by lra. cbn [bind].
    pose proof (sqrt_between 5 2.236 2.2361 ltac:(lra) ltac:(lra)
                             ltac:(lra) ltac:(lra)) as Hs.
    set (s := sqrt 5) in *.
    unfold py_div.
    destruct (Req_dec_T (20.05 * s * 1.944) 0) as [E | _];
      [exfalso; lra |].
    cbn [bind]. eexists. split; [reflexivity |].
    pose proof (div_between (true_airspeed e) (20.05 * s * 1.944)
                            360 450 87.15 87.16
                            ltac:(lra) ltac:(lra) ltac:(lra) ltac:(lra))
      as Hd.
    split; [apply py_int_lower | apply py_int_upper]; try lia; lra.
  - intros He.
    pose proof (altitude_nonneg e He) as Ha0.
    pose proof (altitude_bound e) as [_ Ha1].
    assert (60.65 <= V6.temperature e <= 288.15) as Ht
        by (unfold V6.temperature; lra).
    split; [exact Ht |].
    unfold V6.mach, V6.speed_of_sound.
    rewrite py_sqrt_nonneg by lra. cbn [bind].
    pose proof (sqrt_between (V6.temperature e) 7.787 16.98 ltac:(lra)
                             ltac:(lra) ltac:(lra) ltac:(lra)) as Hs.
    set (s := sqrt (V6.temperature e)) in *.
    destruct (Req_dec_T (20.05 * s * 1.944) 0) as [E | _];
      [exfalso; lra |].
    eexists. split; [reflexivity |].
    pose proof (div_between (true_airspeed e) (20.05 * s * 1.944)
                            360 450 303.51 661.84
                            ltac:(lra) ltac:(lra) ltac:(lra) ltac:(lra))
      as Hd.
    split; [apply py_int_lower | apply py_int_upper]; try lia; lra.
Qed.

Lemma climb_then_descent_witness :
  (altitude 100 <= altitude 200 /\ (0 <= vertical_speed 100 <= 3000)%Z)
  /\ (altitude 500 <= altitude 400 /\ (-3000 <= vertical_speed 400 <= 0)%Z)
  /\ vertical_speed 700 = 0%Z.
Proof.
  split; [| split].
  - apply (proj1 (climb_then_descent 100 200)); lra.
  - apply (proj1 (proj2 (climb_then_descent 400 500))). lra.
  - apply (proj2 (proj2 (climb_then_descent 700 700))). lra.
Defined.

